(** * XYZ coordinate files: a shallow embedding of [biotite.structure.io.xyz]

    The development follows [src/biotite/structure/io/xyz/file.py].  The
    class [XYZFile] becomes a record holding the line buffer and the four
    cached attributes; its methods become functions in a small state and
    exception monad.  Python text is modelled as lists of 8-bit code
    points (U+0000 to U+00FF), with the character classes of Python's
    [str] methods on that range. *)

From Stdlib Require Import ZArith QArith Qabs Qpower Ascii String List Bool Lia.
From Stdlib Require Import Decimal DecimalFacts DecimalPos DecimalZ SpecFloat.
From stdpp Require Import base tactics option list.

Open Scope Z_scope.

(** ** Python text *)

Abbreviation str := (list ascii).

#[global] Instance ascii_eq_dec : EqDecision ascii := ascii_dec.

(** A literal of the source, as a list of code points. *)
Definition txt (s : string) : str := list_ascii_of_string s.

Definition ord (c : ascii) : nat := nat_of_ascii c.

Definition between (lo hi n : nat) : bool := (lo <=? n)%nat && (n <=? hi)%nat.

(** [str.isspace] on one code point: the characters removed by
    [str.strip()] and separating the fields of [str.split()]. *)
Definition isspace (c : ascii) : bool :=
  between 9 13 (ord c) || between 28 32 (ord c)
  || (ord c =? 133)%nat || (ord c =? 160)%nat.

(** Decimal digits, the only ones [int] and [float] accept. *)
Definition isdecimal (c : ascii) : bool := between 48 57 (ord c).

(** [str.isdigit] on one code point: decimal digits and the superscript
    digits U+00B2, U+00B3 and U+00B9. *)
Definition isdigit_char (c : ascii) : bool :=
  isdecimal c || (ord c =? 178)%nat || (ord c =? 179)%nat || (ord c =? 185)%nat.

(** The white space skipped by the C routines behind [int] and [float]:
    the ASCII white space, and the other spaces once they have been
    turned into blanks. *)
Definition c_isspace (c : ascii) : bool :=
  between 9 13 (ord c) || (ord c =? 32)%nat
  || (ord c =? 133)%nat || (ord c =? 160)%nat.

Definition is_blank (c : ascii) : bool := (ord c =? 32)%nat.

Fixpoint drop_while {A} (p : A -> bool) (l : list A) : list A :=
  match l with
  | [] => []
  | x :: l' => if p x then drop_while p l' else l
  end.

Definition lstrip_by (p : ascii -> bool) (s : str) : str := drop_while p s.
Definition rstrip_by (p : ascii -> bool) (s : str) : str :=
  rev (drop_while p (rev s)).
Definition strip_by (p : ascii -> bool) (s : str) : str :=
  rstrip_by p (lstrip_by p s).

(** [s.strip()] and [s.strip(" ")]. *)
Definition strip (s : str) : str := strip_by isspace s.
Definition strip_blank (s : str) : str := strip_by is_blank s.

(** [s.isdigit()]: at least one character, all of them digits. *)
Definition isdigit (s : str) : bool :=
  match s with
  | [] => false
  | _ => forallb isdigit_char s
  end.

(** [s.split()]: the maximal runs of characters that are not white space. *)
Fixpoint split_ws_from (cur : str) (s : str) : list str :=
  match s with
  | [] => match cur with [] => [] | _ => [rev cur] end
  | c :: s' =>
      if isspace c
      then match cur with
           | [] => split_ws_from [] s'
           | _ => rev cur :: split_ws_from [] s'
           end
      else split_ws_from (c :: cur) s'
  end.

Definition split_ws (s : str) : list str := split_ws_from [] s.

(** [s.split(sep)] for a one-character separator: every occurrence cuts,
    so adjacent separators give empty fields. *)
Fixpoint split_on (sep : ascii) (s : str) : list str :=
  match s with
  | [] => [[]]
  | c :: s' =>
      if Ascii.eqb c sep then [] :: split_on sep s'
      else match split_on sep s' with
           | t :: ts => (c :: t) :: ts
           | [] => [[c]]
           end
  end.

Definition nonempty {A} (l : list A) : bool :=
  match l with [] => false | _ => true end.

(** ** Integers as text *)

Fixpoint digits_of_uint (d : uint) : str :=
  match d with
  | Nil => []
  | D0 d => "0"%char :: digits_of_uint d
  | D1 d => "1"%char :: digits_of_uint d
  | D2 d => "2"%char :: digits_of_uint d
  | D3 d => "3"%char :: digits_of_uint d
  | D4 d => "4"%char :: digits_of_uint d
  | D5 d => "5"%char :: digits_of_uint d
  | D6 d => "6"%char :: digits_of_uint d
  | D7 d => "7"%char :: digits_of_uint d
  | D8 d => "8"%char :: digits_of_uint d
  | D9 d => "9"%char :: digits_of_uint d
  end.

(** [str(z)] for a Python integer. *)
Definition str_of_Z (z : Z) : str :=
  match Z.to_int z with
  | Pos d => digits_of_uint d
  | Neg d => "-"%char :: digits_of_uint d
  end.

(** [str(n)] for a length or an index. *)
Definition str_of_nat (n : nat) : str := str_of_Z (Z.of_nat n).

Definition digit_cons (c : ascii) (d : uint) : option uint :=
  match ord c with
  | 48%nat => Some (D0 d) | 49%nat => Some (D1 d) | 50%nat => Some (D2 d)
  | 51%nat => Some (D3 d) | 52%nat => Some (D4 d) | 53%nat => Some (D5 d)
  | 54%nat => Some (D6 d) | 55%nat => Some (D7 d) | 56%nat => Some (D8 d)
  | 57%nat => Some (D9 d) | _ => None
  end.

Fixpoint uint_of_digits (s : str) : option uint :=
  match s with
  | [] => Some Nil
  | c :: s' =>
      match uint_of_digits s' with
      | Some d => digit_cons c d
      | None => None
      end
  end.

(** The digits of a numeric literal: groups of decimal digits, with single
    underscores allowed between two digits only.  [after_digit] tells
    whether the previous character was a digit. *)
Fixpoint digitpart (after_digit : bool) (s : str) : option str :=
  match s with
  | [] => if after_digit then Some [] else None
  | c :: s' =>
      if isdecimal c then cons c <$> digitpart true s'
      else if Ascii.eqb c "_"%char && after_digit then digitpart false s'
      else None
  end.

Definition uint_of_literal (s : str) : option uint :=
  match digitpart false s with
  | Some ds => uint_of_digits ds
  | None => None
  end.

(** ** Exceptions and [repr] *)

(** [OverflowError] is raised by numpy; the wording of its message changes
    with the version of numpy and is left out. *)
Inductive exn : Type :=
| ValueError (msg : str)
| IndexError (msg : str)
| OverflowError.

Inductive result (A : Type) : Type :=
| Ok (a : A)
| Raise (e : exn).
Arguments Ok {A} a.
Arguments Raise {A} e.

Definition hex_digit (n : nat) : ascii :=
  if (n <? 10)%nat then ascii_of_nat (48 + n) else ascii_of_nat (87 + n).

Definition quote1 : ascii := ascii_of_nat 39.
Definition quote2 : ascii := ascii_of_nat 34.
Definition backslash : ascii := ascii_of_nat 92.

Definition printable (c : ascii) : bool :=
  between 32 126 (ord c) || (between 161 255 (ord c) && negb (ord c =? 173)%nat).

Definition repr_char (q : ascii) (c : ascii) : str :=
  if Ascii.eqb c q || Ascii.eqb c backslash then [backslash; c]
  else if (ord c =? 9)%nat then [backslash; "t"%char]
  else if (ord c =? 10)%nat then [backslash; "n"%char]
  else if (ord c =? 13)%nat then [backslash; "r"%char]
  else if printable c then [c]
  else [backslash; "x"%char; hex_digit (ord c / 16); hex_digit (ord c mod 16)].

Definition has_char (c : ascii) (s : str) : bool := existsb (Ascii.eqb c) s.

(** [repr(s)]: single quotes, unless the text has a single quote and no
    double quote. *)
Definition repr (s : str) : str :=
  let q := if has_char quote1 s && negb (has_char quote2 s) then quote2 else quote1 in
  q :: concat (map (repr_char q) s) ++ [q].

Fixpoint join (sep : str) (l : list str) : str :=
  match l with
  | [] => []
  | [x] => x
  | x :: l' => x ++ sep ++ join sep l'
  end.

(** [str(l)] for a list of strings. *)
Definition str_of_list (l : list str) : str :=
  "["%char :: join (txt ", ") (map repr l) ++ ["]"%char].

(** [int(s)]: optional white space around an optional sign and a decimal
    literal. *)
Definition py_int (s : str) : result Z :=
  let bad := Raise (ValueError (txt "invalid literal for int() with base 10: " ++ repr s)) in
  let body (neg : bool) (t : str) :=
    match uint_of_literal t with
    | Some d => Ok (if neg then - Z.of_uint d else Z.of_uint d)
    | None => bad
    end in
  match strip_by c_isspace s with
  | c :: t =>
      if Ascii.eqb c "-"%char then body true t
      else if Ascii.eqb c "+"%char then body false t
      else body false (c :: t)
  | [] => bad
  end.

(** ** Python lists *)

(** [l[i]] with Python's negative indices. *)
Definition py_index {A} (l : list A) (i : Z) : result A :=
  let n := Z.of_nat (length l) in
  let j := if i <? 0 then i + n else i in
  match (if j <? 0 then None else l !! Z.to_nat j) with
  | Some x => Ok x
  | None => Raise (IndexError (txt "list index out of range"))
  end.

(** [l[i] = v] with Python's negative indices. *)
Definition py_set_item {A} (l : list A) (i : Z) (v : A) : result (list A) :=
  let n := Z.of_nat (length l) in
  let j := if i <? 0 then i + n else i in
  if (0 <=? j) && (j <? n) then Ok (<[Z.to_nat j := v]> l)
  else Raise (IndexError (txt "list assignment index out of range")).

(** [l[a:b]] with Python's clamping and negative bounds. *)
Definition py_slice {A} (l : list A) (a b : Z) : list A :=
  let n := Z.of_nat (length l) in
  let clamp i := if i <? 0 then Z.max 0 (i + n) else Z.min i n in
  take (Z.to_nat (clamp b - clamp a)) (drop (Z.to_nat (clamp a)) l).

(** ** The 64-bit integers of numpy

    The elements of [_model_start_inds] are 64-bit integers of numpy.  A
    Python integer added to one of them is converted to 64 bits, which
    raises [OverflowError] when it does not fit; the sum of the two wraps
    around.

    A list of Python holds fewer than [2^63] items, so that the indices
    of its items fit in 64 bits.  The lists of the model have no such
    bound: the largest integer is [2^63 - 1], or the length of the list
    that the index is for when that is larger, which it is for no list
    that Python can hold. *)
Definition int64_max : Z := 2 ^ 63 - 1.

Definition index_max {A} (l : list A) : Z := Z.max int64_max (Z.of_nat (length l)).

(** [a + b] for an index [a] of [l], a 64-bit integer, and a Python
    integer [b]. *)
Definition np_add {A} (l : list A) (a b : Z) : result Z :=
  let top := index_max l in
  if (b <? - top - 1) || (top <? b) then Raise OverflowError
  else
    let s := a + b in
    Ok (if top <? s then s - 2 * (top + 1)
        else if s <? - top - 1 then s + 2 * (top + 1)
        else s).

(** [[i for i, x in enumerate(l, start) if p(x)]]. *)
Fixpoint indices_where {A} (p : A -> bool) (start : nat) (l : list A) : list nat :=
  match l with
  | [] => []
  | x :: l' =>
      if p x then start :: indices_where p (S start) l'
      else indices_where p (S start) l'
  end.

Fixpoint enumerate_from {A} (start : nat) (l : list A) : list (nat * A) :=
  match l with
  | [] => []
  | x :: l' => (start, x) :: enumerate_from (S start) l'
  end.

Definition enumerate {A} (l : list A) : list (nat * A) := enumerate_from 0 l.

(** A comprehension whose body may raise: the first exception, in list
    order, is the outcome. *)
Fixpoint map_result {A B} (f : A -> result B) (l : list A) : result (list B) :=
  match l with
  | [] => Ok []
  | x :: l' =>
      match f x with
      | Raise e => Raise e
      | Ok y =>
          match map_result f l' with
          | Raise e => Raise e
          | Ok ys => Ok (y :: ys)
          end
      end
  end.

Definition blanks (n : nat) : str := replicate n " "%char.

(** [format(s, "<w")] and [format(s, ">w")]: blanks up to the width [w]. *)
Definition ljust (w : nat) (s : str) : str := s ++ blanks (w - length s).
Definition rjust (w : nat) (s : str) : str := blanks (w - length s) ++ s.

(** ** Floating-point numbers

    The program uses four operations of Python's [float]: the constructor
    from text, [numpy.isnan], [str] and the format specification [.6f].
    They are built into the language, so the embedding takes them as an
    interface; an instance for IEEE 754 binary64 follows further down. *)

Class PyFloat : Type := {
  float : Type;
  (** [float(s)]; [None] when the text is not a number *)
  float_of_str : str -> option float;
  isnan : float -> bool;
  (** [str(x)] *)
  str_of_float : float -> str;
  (** [format(x, ".6f")] *)
  format_6f : float -> str;
  (** the value of unset coordinates *)
  nan : float
}.

Definition bind_result {A B} (r : result A) (k : A -> result B) : result B :=
  match r with
  | Ok a => k a
  | Raise e => Raise e
  end.

Notation "x <-? r ;; k" := (bind_result r (fun x => k))
  (at level 100, r at next level, right associativity).

Inductive atom_count : Type :=
| CountInt (n : nat)
| CountText (s : str).

Section Atoms.
Context `{PyFloat}.

Definition py_float (s : str) : result float :=
  match float_of_str s with
  | Some x => Ok x
  | None => Raise (ValueError (txt "could not convert string to float: " ++ repr s))
  end.

(** *** The structure library

    [Atom], [AtomArray], [AtomArrayStack] and [stack] belong to
    [biotite.structure], which the two source files import. *)

(** Modelled from the spec: the atom of [biotite.structure], of which the
    XYZ format uses the element label and the three coordinates.  The
    coordinates are the floating-point numbers of the spec; the precision
    in which the library stores them is not part of the model. *)
Record Atom : Type := mkAtom {
  element : str;
  coord : float * float * float
}.

End Atoms.

(** Modelled from the spec: the single-model structure of
    [biotite.structure], an ordered sequence of atoms of fixed length. *)
Abbreviation AtomArray := (list Atom).

(** Modelled from the spec: the multi-model structure of
    [biotite.structure], an ordered sequence of structures. *)
Abbreviation AtomArrayStack := (list AtomArray).

Section Model.
Context `{PyFloat}.

(** What [get_structure] returns and [set_structure] takes. *)
Inductive structure : Type :=
| Single (array : AtomArray)
| Stack (stack : AtomArrayStack).

(** Modelled from the spec: the constructor [AtomArray(n)] of
    [biotite.structure], a structure of [n] atoms with no label and unset
    coordinates; a negative length is refused. *)
Definition new_AtomArray (n : Z) : result AtomArray :=
  if n <? 0 then Raise (ValueError (txt "negative dimensions are not allowed"))
  else Ok (replicate (Z.to_nat n) (mkAtom [] (nan, nan, nan))).

(** Modelled from the spec: the assignment [array[j] = atom] of
    [biotite.structure]. *)
Definition AtomArray_set (array : AtomArray) (j : nat) (a : Atom) : result AtomArray :=
  if (j <? length array)%nat then Ok (<[j := a]> array)
  else Raise (IndexError (txt "index " ++ str_of_nat j
                          ++ txt " is out of bounds for axis 0 with size "
                          ++ str_of_nat (length array))).

(** Modelled from the spec: [stack] of [biotite.structure].  The models of
    a stack share their atom count and element layout, and a stack is
    never empty. *)
Definition stack (arrays : list AtomArray) : result AtomArrayStack :=
  match arrays with
  | [] => Raise (IndexError (txt "list index out of range"))
  | a0 :: _ =>
      if forallb (fun a => bool_decide (map element a = map element a0)) arrays
      then Ok arrays
      else Raise (ValueError (txt "The arrays atom annotations do not fit to each other"))
  end.

(** Modelled from the spec: the indexing [stack[model]] of
    [biotite.structure], with the bounds behaviour of the underlying
    array. *)
Definition stack_index (s : AtomArrayStack) (model : Z) : result AtomArray :=
  let n := Z.of_nat (length s) in
  let j := if model <? 0 then model + n else model in
  match (if j <? 0 then None else s !! Z.to_nat j) with
  | Some a => Ok a
  | None => Raise (IndexError (txt "index " ++ str_of_Z model
                               ++ txt " is out of bounds for axis 0 with size "
                               ++ str_of_nat (length s)))
  end.

(** *** The file object *)

(** Number of header lines *)
Definition N_HEADER : nat := 2.

Record XYZFile : Type := mkXYZFile {
  lines : list str;
  _mol_names : option (list str);
  _atom_numbers : option (list Z);
  _model_start_inds : option (list nat);
  _structures : option AtomArrayStack
}.

(** [XYZFile.__init__] *)
Definition init : XYZFile :=
  {| lines := replicate N_HEADER [];
     _mol_names := None;
     _atom_numbers := None;
     _model_start_inds := None;
     _structures := None |}.

Definition with_lines (f : XYZFile) (ls : list str) : XYZFile :=
  mkXYZFile ls (_mol_names f) (_atom_numbers f) (_model_start_inds f) (_structures f).
Definition with_mol_names (f : XYZFile) (v : option (list str)) : XYZFile :=
  mkXYZFile (lines f) v (_atom_numbers f) (_model_start_inds f) (_structures f).
Definition with_atom_numbers (f : XYZFile) (v : option (list Z)) : XYZFile :=
  mkXYZFile (lines f) (_mol_names f) v (_model_start_inds f) (_structures f).
Definition with_model_start_inds (f : XYZFile) (v : option (list nat)) : XYZFile :=
  mkXYZFile (lines f) (_mol_names f) (_atom_numbers f) v (_structures f).
Definition with_structures (f : XYZFile) (v : option AtomArrayStack) : XYZFile :=
  mkXYZFile (lines f) (_mol_names f) (_atom_numbers f) (_model_start_inds f) v.

(** A method runs on the file object and leaves it changed, whether it
    returns or raises. *)
Definition M (A : Type) : Type := XYZFile -> XYZFile * result A.

Definition ret {A} (a : A) : M A := fun f => (f, Ok a).
Definition raise {A} (e : exn) : M A := fun f => (f, Raise e).
Definition bind {A B} (m : M A) (k : A -> M B) : M B :=
  fun f => match m f with
           | (f', Ok a) => k a f'
           | (f', Raise e) => (f', Raise e)
           end.
Definition self : M XYZFile := fun f => (f, Ok f).
Definition update (g : XYZFile -> XYZFile) : M unit := fun f => (g f, Ok tt).
Definition lift {A} (r : result A) : M A := fun f => (f, r).

End Model.

Notation "x <- m ;; k" := (bind m (fun x => k))
  (at level 100, m at next level, right associativity).
Notation "m ;;; k" := (bind m (fun _ => k))
  (at level 100, right associativity).

Section Methods.
Context `{PyFloat}.

(** [self.lines[i] = v] *)
Definition set_line (i : nat) (v : str) : M unit :=
  f <- self ;;
  ls <- lift (py_set_item (lines f) (Z.of_nat i) v) ;;
  update (fun f => with_lines f ls).

(** A [for] loop whose body works on the file object. *)
Fixpoint for_each {A} (l : list A) (body : A -> M unit) : M unit :=
  match l with
  | [] => ret tt
  | x :: l' => body x ;;; for_each l' body
  end.

(** *** [__update_start_lines] *)

(** The lines where the number of atoms may be written down:
    [[i for i in range(len(self.lines)) if self.lines[i].strip().isdigit()]]. *)
Definition numeric_lines (ls : list str) : list nat :=
  indices_where (fun l => isdigit (strip l)) 0 ls.

(** [np.where(b)[0]] *)
Definition np_where (b : list bool) : list nat := indices_where id 0 b.

(** [a[:-1] - a[1:]] *)
Definition diff_next (a : list nat) : list Z :=
  zip_with (fun x y => Z.of_nat x - Z.of_nat y) (removelast a) (tail a).

(** [a[positions]]; the positions the program builds are within bounds. *)
Definition np_take (a : list nat) (positions : list nat) : list nat :=
  omap (fun p => a !! p) positions.

Definition start_lines (ls : list str) : list nat :=
  let inds := numeric_lines ls in
  if (1 <? length inds)%nat then
    (* purge all indices that have a distance of 1 to their previous index *)
    np_take inds
      (0%nat :: map S (np_where (map (fun d => negb (d =? -1)) (diff_next inds))))
  else if (length inds =? 2)%nat then take 1 inds
  else inds.

Definition __update_start_lines : M unit :=
  update (fun f => with_model_start_inds f (Some (start_lines (lines f)))).

(** *** [__get_number_of_atoms] and [get_model_count] *)

(** An element read from a numpy array of strings loses its trailing
    null characters. *)
Definition np_str (s : str) : str := rstrip_by (fun c => (ord c =? 0)%nat) s.

(** The calls of [print] in the source write to the standard output and
    are left out. *)
Definition number_of_atoms (ls : list str) : list atom_count :=
  let lines_parsed := map split_ws ls in
  (* lines that do not split into 4 elements are header lines *)
  let inds := indices_where (fun t => negb (length t =? 4)%nat) 0 lines_parsed in
  if (length inds <=? 2)%nat then [CountInt (length (drop 2 ls))]
  else
    let num_atoms := (length inds / 2)%nat in
    let inds := map (fun i => inds !!! (2 * i)%nat) (seq 0 num_atoms) in
    map (fun i => CountText (np_str (ls !!! i))) inds.

Definition __get_number_of_atoms : M (list atom_count) :=
  f <- self ;; ret (number_of_atoms (lines f)).

Definition get_model_count : M nat :=
  ns <- __get_number_of_atoms ;; ret (length ns).

(** [str(c)] for an element of the result of [__get_number_of_atoms] *)
Definition str_of_count (c : atom_count) : str :=
  match c with
  | CountInt n => str_of_nat n
  | CountText s => s
  end.

(** *** [get_header] *)

(** The two values [get_header] returns: one header, or all of them. *)
Inductive header : Type :=
| HeaderOne (atom_number : Z) (mol_name : str)
| HeaderAll (atom_numbers : list Z) (mol_names : list str).

Definition current_start_inds (f : XYZFile) : list nat := default [] (_model_start_inds f).
Definition current_atom_numbers (f : XYZFile) : list Z := default [] (_atom_numbers f).
Definition current_mol_names (f : XYZFile) : list str := default [] (_mol_names f).

(** [[int(self.lines[i].strip().strip(" ")) for i in self._model_start_inds]] *)
Definition read_atom_numbers (ls : list str) (inds : list nat) : result (list Z) :=
  map_result (fun i => l <-? py_index ls (Z.of_nat i) ;;
                       py_int (strip_blank (strip l)))
             inds.

(** [[self.lines[i+1].strip() for i in self._model_start_inds]] *)
Definition read_mol_names (ls : list str) (inds : list nat) : result (list str) :=
  map_result (fun i => l <-? py_index ls (Z.of_nat (i + 1)) ;;
                       Ok (strip l))
             inds.

(** The statements that fill [_atom_numbers] and [_mol_names] when they
    are still [None]; [get_header] and [get_structure] both have them. *)
Definition parse_header_lines : M unit :=
  f <- self ;;
  (* parse all atom_numbers into integers *)
  match _atom_numbers f with
  | None =>
      ns <- lift (read_atom_numbers (lines f) (current_start_inds f)) ;;
      update (fun f => with_atom_numbers f (Some ns))
  | Some _ => ret tt
  end ;;;
  f <- self ;;
  (* parse all lines containing names *)
  match _mol_names f with
  | None =>
      names <- lift (read_mol_names (lines f) (current_start_inds f)) ;;
      update (fun f => with_mol_names f (Some names))
  | Some _ => ret tt
  end.

Definition header_range_msg (model : Z) (n_models : nat) : str :=
  txt "Tried to get header of model [" ++ str_of_Z model ++ txt "]."
  ++ txt " But has only " ++ str_of_nat n_models
  ++ txt " many models.".

Definition get_header (model : option Z) : M header :=
  __update_start_lines ;;;
  parse_header_lines ;;;
  f <- self ;;
  let atom_numbers := current_atom_numbers f in
  let mol_names := current_mol_names f in
  match model with
  | Some model =>
      if Z.of_nat (length atom_numbers) <? model
      then raise (ValueError (header_range_msg model (length atom_numbers)))
      else lift (n <-? py_index atom_numbers model ;;
                 name <-? py_index mol_names model ;;
                 Ok (HeaderOne n name))
  | None =>
      if (length atom_numbers =? 1)%nat
      then lift (n <-? py_index atom_numbers 0 ;;
                 name <-? py_index mol_names 0 ;;
                 Ok (HeaderOne n name))
      else ret (HeaderAll atom_numbers mol_names)
  end.

(** *** [set_header] *)

Definition set_header_model_msg (model : Z) (count : nat) : str :=
  txt "Specified model value [" ++ str_of_Z model ++ txt "] is not"
  ++ txt "compatible with number of models ["
  ++ str_of_nat count ++ txt "]".

Definition set_header_empty_msg : str :=
  txt "Can not set header of an empty XYZFile"
  ++ txt "Use set_structure first, so that number of atoms"
  ++ txt "can be derived from set structure".

Definition set_header (mol_name : str) (model : option Z) : M unit :=
  f <- self ;;
  (* call get_header first if the header has not been read yet *)
  match _mol_names f with
  | None => get_header None ;;; ret tt
  | Some _ => ret tt
  end ;;;
  f <- self ;;
  match model with
  | Some model =>
      if model <? Z.of_nat (length (current_mol_names f)) then
        names <- lift (py_set_item (current_mol_names f) model mol_name) ;;
        update (fun f => with_mol_names f (Some names))
      else
        count <- get_model_count ;;
        raise (ValueError (set_header_model_msg model count))
  | None =>
      if (2 <? length (lines f))%nat then
        set_line 1 mol_name ;;;
        counts <- __get_number_of_atoms ;;
        c <- lift (py_index counts 0) ;;
        set_line 0 (str_of_count c) ;;;
        update (fun f => with_mol_names f (Some [mol_name])) ;;;
        f <- self ;;
        l0 <- lift (py_index (lines f) 0) ;;
        n <- lift (py_int l0) ;;
        update (fun f => with_atom_numbers f (Some [n])) ;;;
        __update_start_lines
      else raise (ValueError set_header_empty_msg)
  end.

(** *** [get_structure] *)

Definition empty_file_msg : str := txt "Trying to get_structure from empty XYZFile".

Definition nan_msg (x y z : float) : str :=
  txt "At least one of the coordinates is NaN"
  ++ txt "(" ++ str_of_float x ++ txt "," ++ str_of_float y
  ++ txt "," ++ str_of_float z ++ txt ")".

Definition mismatch_msg (atom_number : Z) (lines_cut : list str) : str :=
  txt "Number of Atoms not matching with coordinate lines"
  ++ txt " atom_number :: " ++ str_of_Z atom_number
  ++ txt " |lines_cut| :: " ++ str_of_nat (length lines_cut)
  ++ txt " lines_cut   :: " ++ str_of_list lines_cut.

(** [[x for x in line.strip().split(" ") if x != '']] *)
Definition line_fields (line : str) : list str :=
  List.filter nonempty (split_on " "%char (strip line)).

(** The body of the inner loop up to the atom it builds.  The atom keeps
    the numbers as [float] returns them. *)
Definition parse_atom_line (line : str) : result Atom :=
  let line_parsed := line_fields line in
  t1 <-? py_index line_parsed 1 ;;
  x <-? py_float t1 ;;
  t2 <-? py_index line_parsed 2 ;;
  y <-? py_float t2 ;;
  t3 <-? py_index line_parsed 3 ;;
  z <-? py_float t3 ;;
  if isnan x || isnan y || isnan z then Raise (ValueError (nan_msg x y z))
  else
    t0 <-? py_index line_parsed 0 ;;
    Ok (mkAtom t0 (x, y, z)).

(** The inner loop: [for j, line in enumerate(lines_cut[2:])]. *)
Fixpoint fill_array (array : AtomArray) (body : list (nat * str)) : result AtomArray :=
  match body with
  | [] => Ok array
  | (j, line) :: rest =>
      atom <-? parse_atom_line line ;;
      array <-? AtomArray_set array j atom ;;
      fill_array array rest
  end.

(** The body of the outer loop, for the model of rank [i] starting at
    line [ind]. *)
Definition parse_model (ls : list str) (atom_numbers : list Z) (i ind : nat)
  : result AtomArray :=
  n <-? py_index atom_numbers (Z.of_nat i) ;;
  ind_end <-? np_add ls (Z.of_nat ind + 2) n ;;
  let lines_cut := py_slice ls (Z.of_nat ind) ind_end in
  array <-? new_AtomArray n ;;
  if negb (n + 2 =? Z.of_nat (length lines_cut))
  then Raise (ValueError (mismatch_msg n lines_cut))
  else fill_array array (enumerate (drop 2 lines_cut)).

(** The outer loop and [struc.stack]. *)
Definition parse_structures (ls : list str) (atom_numbers : list Z) (inds : list nat)
  : result AtomArrayStack :=
  array_stack <-? map_result (fun '(i, ind) => parse_model ls atom_numbers i ind)
                             (enumerate inds) ;;
  stack array_stack.

(** The last statement of [get_structure]: the whole stack, its only
    model, or the model asked for. *)
Definition select_model (structures : AtomArrayStack) (model : option Z)
  : result structure :=
  match model with
  | None =>
      if (length structures =? 1)%nat
      then a <-? stack_index structures 0 ;; Ok (Single a)
      else Ok (Stack structures)
  | Some model => a <-? stack_index structures model ;; Ok (Single a)
  end.

(** [get_header] returns integers, strings or lists, so that the test
    [names is None or atom_number is None] of the source fails and
    [set_header] is not called from here. *)
Definition get_structure (model : option Z) : M structure :=
  f <- self ;;
  if (length (lines f) <=? 2)%nat then raise (ValueError empty_file_msg)
  else
    get_header None ;;;
    __update_start_lines ;;;
    parse_header_lines ;;;
    f <- self ;;
    (* parse all coordinates *)
    match _structures f with
    | None =>
        s <- lift (parse_structures (lines f) (current_atom_numbers f)
                                    (current_start_inds f)) ;;
        update (fun f => with_structures f (Some s))
    | Some _ => ret tt
    end ;;;
    f <- self ;;
    lift (select_model (default [] (_structures f)) model).

(** *** [set_structure] *)

Definition default_mol_name : str := txt "[MOLNAME]".

(** The line of an atom of a single model: fields aligned to the left. *)
Definition atom_line_left (a : Atom) : str :=
  let '(x, y, z) := coord a in
  txt "  " ++ element a
  ++ txt " " ++ ljust 11 (format_6f x)
  ++ txt "    " ++ ljust 11 (format_6f y)
  ++ txt "    " ++ ljust 11 (format_6f z)
  ++ txt " ".

(** The line of an atom of a stack: fields aligned to the right. *)
Definition atom_line_right (a : Atom) : str :=
  let '(x, y, z) := coord a in
  txt "  " ++ element a
  ++ txt " " ++ rjust 11 (format_6f x)
  ++ txt "    " ++ rjust 11 (format_6f y)
  ++ txt "    " ++ rjust 11 (format_6f z)
  ++ txt " ".

Definition set_structure (atoms : structure) : M unit :=
  match atoms with
  | Single atoms =>
      let n_atoms := length atoms in
      set_line 0 (str_of_nat n_atoms) ;;;
      f <- self ;;
      l1 <- lift (py_index (lines f) 1) ;;
      (if (length l1 =? 0)%nat then set_line 1 default_mol_name else ret tt) ;;;
      update (fun f => with_lines f (lines f ++ replicate n_atoms [])) ;;;
      for_each (enumerate atoms)
        (fun '(i, atom) => set_line (i + 2) (atom_line_left atom))
  | Stack atoms =>
      a0 <- lift (stack_index atoms 0) ;;
      let n_lines_per_model := (length a0 + 2)%nat in
      update (fun f => with_lines f
                (lines f ++ replicate (n_lines_per_model * length atoms) [])) ;;;
      for_each (enumerate atoms)
        (fun '(i, atoms_i) =>
           a0 <- lift (stack_index atoms 0) ;;
           set_line (i * n_lines_per_model) (str_of_nat (length a0)) ;;;
           set_line (i * n_lines_per_model + 1) (txt " " ++ str_of_nat i) ;;;
           for_each (enumerate atoms_i)
             (fun '(j, atom) =>
                set_line (i * n_lines_per_model + j + 2) (atom_line_right atom)))
  end.

End Methods.

(** ** An instance: IEEE 754 binary64

    Python's [float] on the usual platforms.  Numbers are [spec_float]
    values of precision 53; text is converted exactly, with rounding to
    nearest, ties to even. *)

Module Binary64.

Definition prec : Z := 53.
Definition emax : Z := 1024.

(** The number nearest to [m * 10 ^ e10], for [m >= 0]. *)
Definition of_decimal (neg : bool) (m e10 : Z) : spec_float :=
  match m with
  | Z.pos p =>
      if 0 <=? e10
      then binary_normalize prec emax ((if neg then -1 else 1) * m * 10 ^ e10) 0 neg
      else SFdiv prec emax (S754_finite neg p 0)
                           (S754_finite false (Z.to_pos (10 ^ (- e10))) 0)
  | _ => S754_zero neg
  end.

Definition lower (c : ascii) : ascii :=
  if between 65 90 (ord c) then ascii_of_nat (ord c + 32) else c.

(** Cuts [s] at the first character satisfying [p]. *)
Fixpoint cut_at (p : ascii -> bool) (s : str) : str * option str :=
  match s with
  | [] => ([], None)
  | c :: s' =>
      if p c then ([], Some s')
      else let '(a, b) := cut_at p s' in (c :: a, b)
  end.

(** A digit part, or nothing when [optional]. *)
Definition digits_opt (optional : bool) (s : str) : option str :=
  match s with
  | [] => if optional then Some [] else None
  | _ => digitpart false s
  end.

Definition signed (s : str) : bool * str :=
  match s with
  | c :: t =>
      if Ascii.eqb c "-"%char then (true, t)
      else if Ascii.eqb c "+"%char then (false, t)
      else (false, s)
  | [] => (false, [])
  end.

(** [floatnumber ::= number [exponent]] of the grammar of [float]. *)
Definition floatnumber (neg : bool) (s : str) : option spec_float :=
  let '(mant, expo) := cut_at (fun c => Ascii.eqb (lower c) "e"%char) s in
  let '(ip, fp) := cut_at (fun c => Ascii.eqb c "."%char) mant in
  idigits ← digits_opt (bool_decide (is_Some fp)) ip;
  fdigits ← digits_opt true (default [] fp);
  (if nonempty idigits || nonempty fdigits then Some tt else None);;
  e ← match expo with
      | None => Some 0
      | Some t =>
          let '(eneg, t') := signed t in
          d ← uint_of_literal t';
          Some (if eneg then - Z.of_uint d else Z.of_uint d)
      end;
  m ← uint_of_digits (idigits ++ fdigits);
  Some (of_decimal neg (Z.of_uint m) (e - Z.of_nat (length fdigits))).

(** [float(s)] *)
Definition of_str (s : str) : option spec_float :=
  let '(neg, t) := signed (strip_by c_isspace s) in
  let name := map lower t in
  if bool_decide (name = txt "inf") || bool_decide (name = txt "infinity")
  then Some (S754_infinity neg)
  else if bool_decide (name = txt "nan") then Some S754_nan
  else floatnumber neg t.

Definition is_nan (x : spec_float) : bool :=
  match x with S754_nan => true | _ => false end.

Definition is_finite (x : spec_float) : bool :=
  match x with
  | S754_zero _ | S754_finite _ _ _ => true
  | S754_infinity _ | S754_nan => false
  end.

(** [a / b] rounded to the nearest integer, ties to even. *)
Definition div_nearest_even (a b : Z) : Z :=
  let q := a / b in
  let r := a mod b in
  if 2 * r <? b then q
  else if b <? 2 * r then q + 1
  else if Z.even q then q else q + 1.

(** [m * 2 ^ e * 10 ^ k] rounded to the nearest integer. *)
Definition scaled (m : positive) (e k : Z) : Z :=
  div_nearest_even
    (Z.pos m * (if 0 <=? e then 2 ^ e else 1) * (if 0 <=? k then 10 ^ k else 1))
    ((if e <? 0 then 2 ^ (- e) else 1) * (if k <? 0 then 10 ^ (- k) else 1)).

Definition zero_pad (w : nat) (s : str) : str :=
  replicate (w - length s)%nat "0"%char ++ s.

Definition sign_text (neg : bool) : str := if neg then txt "-" else [].

(** [format(x, ".6f")] *)
Definition fixed6 (x : spec_float) : str :=
  match x with
  | S754_nan => txt "nan"
  | S754_infinity neg => sign_text neg ++ txt "inf"
  | S754_zero neg => sign_text neg ++ txt "0.000000"
  | S754_finite neg m e =>
      let q := scaled m e 6 in
      sign_text neg ++ str_of_Z (q / 10 ^ 6) ++ txt "."
      ++ zero_pad 6 (str_of_Z (q mod 10 ^ 6))
  end.

(** [10 ^ d <= m * 2 ^ e] *)
Definition pow10_le (d : Z) (m : positive) (e : Z) : bool :=
  (if 0 <=? d then 10 ^ d else 1) * (if e <? 0 then 2 ^ (- e) else 1)
  <=? Z.pos m * (if 0 <=? e then 2 ^ e else 1) * (if d <? 0 then 10 ^ (- d) else 1).

(** The largest [d] with [10 ^ d <= m * 2 ^ e]. *)
Definition floor_log10 (m : positive) (e : Z) : Z :=
  let est := (e + Z.log2 (Z.pos m)) * 30103 / 100000 in
  if pow10_le (est + 1) m e then est + 1
  else if pow10_le est m e then est
  else est - 1.

Definition same (x y : spec_float) : bool :=
  match x, y with
  | S754_zero a, S754_zero b => Bool.eqb a b
  | S754_infinity a, S754_infinity b => Bool.eqb a b
  | S754_nan, S754_nan => true
  | S754_finite a m e, S754_finite b m' e' => Bool.eqb a b && (m =? m')%positive && (e =? e')
  | _, _ => false
  end.

(** The shortest decimal [c * 10 ^ k], of at most [n] digits, that
    [of_decimal] turns back into the positive number [m * 2 ^ e]; among
    candidates of one length the nearest comes first. *)
Fixpoint shortest (fuel : nat) (n : Z) (m : positive) (e d : Z) : Z * Z :=
  let k := d - n + 1 in
  let c := scaled m e (- k) in
  let x := S754_finite false m e in
  match fuel with
  | O => (c, k)
  | S fuel' =>
      if same (of_decimal false c k) x then (c, k)
      else if same (of_decimal false (c + 1) k) x then (c + 1, k)
      else if same (of_decimal false (c - 1) k) x then (c - 1, k)
      else shortest fuel' (n + 1) m e d
  end.

Fixpoint strip_zeros (fuel : nat) (c k : Z) : Z * Z :=
  match fuel with
  | O => (c, k)
  | S fuel' => if (c mod 10 =? 0) && negb (c =? 0) then strip_zeros fuel' (c / 10) (k + 1) else (c, k)
  end.

(** [repr] of a positive number from its digits and the position of the
    decimal point. *)
Definition repr_digits (ds : str) (decpt : Z) : str :=
  let n := Z.of_nat (length ds) in
  if (decpt <=? -4) || (16 <? decpt) then
    let e := decpt - 1 in
    take 1 ds ++ (if 1 <? n then txt "." ++ drop 1 ds else [])
    ++ txt "e" ++ (if e <? 0 then txt "-" else txt "+")
    ++ zero_pad 2 (str_of_Z (Z.abs e))
  else if decpt <=? 0 then
    txt "0." ++ replicate (Z.to_nat (- decpt)) "0"%char ++ ds
  else if n <=? decpt then
    ds ++ replicate (Z.to_nat (decpt - n)) "0"%char ++ txt ".0"
  else take (Z.to_nat decpt) ds ++ txt "." ++ drop (Z.to_nat decpt) ds.

(** [str(x)] *)
Definition to_str (x : spec_float) : str :=
  match x with
  | S754_nan => txt "nan"
  | S754_infinity neg => sign_text neg ++ txt "inf"
  | S754_zero neg => sign_text neg ++ txt "0.0"
  | S754_finite neg m e =>
      let '(c, k) := shortest 17 1 m e (floor_log10 m e) in
      let '(c, k) := strip_zeros 400 c k in
      let ds := str_of_Z c in
      sign_text neg ++ repr_digits ds (Z.of_nat (length ds) + k)
  end.

#[export] Instance binary64 : PyFloat := {|
  float := spec_float;
  float_of_str := of_str;
  isnan := is_nan;
  str_of_float := to_str;
  format_6f := fixed6;
  nan := S754_nan
|}.

(** What [float] reads in the six decimals of a finite number: the
    number nearest to its millionths, rounded to an integer, over
    [10 ^ 6]. *)
Definition reread6 (x : spec_float) : spec_float :=
  match x with
  | S754_finite s m e => of_decimal s (scaled m e 6) (-6)
  | _ => x
  end.

(** The number [x] stands for; zero for what is not finite. *)
Definition value (x : spec_float) : Q :=
  match x with
  | S754_finite s m e => (inject_Z (cond_Zopp s (Z.pos m)) * 2 ^ e)%Q
  | _ => 0%Q
  end.

(** [|y - x| <= 10 ^ -6], or the same infinity. *)
Definition within_6_decimals (x y : spec_float) : Prop :=
  match x, y with
  | S754_nan, _ | _, S754_nan => False
  | S754_infinity s, S754_infinity s' => s = s'
  | S754_infinity _, _ | _, S754_infinity _ => False
  | _, _ => (Qabs (value y - value x) <= 1 # 1000000)%Q
  end.

(** A value of Python's [float] other than NaN: a number of the format,
    or an infinity. *)
Definition is_number (x : spec_float) : bool :=
  valid_binary prec emax x && negb (is_nan x).

End Binary64.

(** ** Notions used in the statements *)

(** The purge of [__update_start_lines] written as a recursion: an index
    goes when it is one more than the index before it in the list of
    candidates. *)
Fixpoint purge_from (prev : nat) (inds : list nat) : list nat :=
  match inds with
  | [] => []
  | i :: rest =>
      if (i =? S prev)%nat then purge_from i rest else i :: purge_from i rest
  end.

Definition purge (inds : list nat) : list nat :=
  match inds with
  | [] => []
  | i :: rest => i :: purge_from i rest
  end.

(** A body line splits into exactly four fields. *)
Definition is_body_line (l : str) : bool := (length (split_ws l) =? 4)%nat.

Definition count_non_body (ls : list str) : nat :=
  length (List.filter (fun l => negb (is_body_line l)) ls).

(** The lines of one model of a well-formed file: a count line and a name
    line, which are not body lines, and body lines. *)
Record model_block : Type := mkBlock {
  count_line : str;
  name_line : str;
  body_lines : list str
}.

Definition block_lines (b : model_block) : list str :=
  count_line b :: name_line b :: body_lines b.

Definition valid_block (b : model_block) : Prop :=
  is_body_line (count_line b) = false
  /\ is_body_line (name_line b) = false
  /\ Forall (fun l => is_body_line l = true) (body_lines b).

(** ** Notions used in the further properties *)

(** The lines from [start] on that are numeric while the line above them
    is not; [above] tells whether the line above line [start] is numeric. *)
Fixpoint boundaries (above : bool) (start : nat) (ls : list str) : list nat :=
  match ls with
  | [] => []
  | l :: ls' =>
      let d := isdigit (strip l) in
      if d && negb above then start :: boundaries d (S start) ls'
      else boundaries d (S start) ls'
  end.

(** The line on which each block of a file starts, the first of them on
    line [start]. *)
Fixpoint block_offsets (start : nat) (blocks : list model_block) : list nat :=
  match blocks with
  | [] => []
  | b :: blocks' => start :: block_offsets (start + length (block_lines b)) blocks'
  end.

(** A block as [get_header] needs it: the count line is a numeric line
    that reads as [c], no body line is numeric, and the name line is not
    numeric unless there are body lines. *)
Definition header_block (b : model_block) (c : Z) : Prop :=
  isdigit (strip (count_line b)) = true
  /\ py_int (strip_blank (strip (count_line b))) = Ok c
  /\ (isdigit (strip (name_line b)) = false \/ body_lines b <> [])
  /\ Forall (fun l => isdigit (strip l) = false) (body_lines b).

(** White space other than blanks between fields, such as tabs: at least
    one character. *)
Definition other_space (s : str) : Prop :=
  s <> [] /\ Forall (fun c => isspace c = true /\ c <> " "%char) s.

Section Notions.
Context `{PyFloat}.

(** The header lines are read once: later calls keep what is cached. *)
Definition header_read (f : XYZFile) (ns : list Z) (names : list str) : Prop :=
  match _atom_numbers f with
  | Some ns0 => ns = ns0
  | None => read_atom_numbers (lines f) (start_lines (lines f)) = Ok ns
  end
  /\ match _mol_names f with
     | Some names0 => names = names0
     | None => read_mol_names (lines f) (start_lines (lines f)) = Ok names
     end.

(** The value [get_header] returns once the headers are there. *)
Definition header_value (ns : list Z) (names : list str) (model : option Z)
  : result header :=
  match model with
  | Some model =>
      if Z.of_nat (length ns) <? model
      then Raise (ValueError (header_range_msg model (length ns)))
      else n <-? py_index ns model ;;
           name <-? py_index names model ;;
           Ok (HeaderOne n name)
  | None =>
      if (length ns =? 1)%nat
      then n <-? py_index ns 0 ;;
           name <-? py_index names 0 ;;
           Ok (HeaderOne n name)
      else Ok (HeaderAll ns names)
  end.

(** The file object after the headers have been read. *)
Definition with_headers (f : XYZFile) (ns : list Z) (names : list str) : XYZFile :=
  {| lines := lines f;
     _mol_names := Some names;
     _atom_numbers := Some ns;
     _model_start_inds := Some (start_lines (lines f));
     _structures := _structures f |}.

(** No coordinate of the atom is NaN. *)
Definition atom_not_nan (a : Atom) : Prop :=
  let '(x, y, z) := coord a in isnan x = false /\ isnan y = false /\ isnan z = false.

Definition structure_not_nan (r : structure) : Prop :=
  match r with
  | Single a => Forall atom_not_nan a
  | Stack s => Forall (Forall atom_not_nan) s
  end.

(** The lines [get_structure] takes for the model starting at line [ind]
    with [n] declared atoms, [self.lines[ind:ind+2+n]], when the sum is
    the sum of the integers. *)
Definition span (ls : list str) (ind : nat) (n : Z) : list str :=
  py_slice ls (Z.of_nat ind) (Z.of_nat ind + 2 + n).

(** The lines of the model of rank [i]: from the line where it starts to
    the line where the next model starts, or to the end of the buffer. *)
Definition model_lines (ls : list str) (inds : list nat) (i : nat) : list str :=
  match inds !! i, inds !! S i with
  | Some ind, Some next => take (next - ind) (drop ind ls)
  | Some ind, None => drop ind ls
  | None, _ => []
  end.

(** The models before the one of rank [i] parse without an exception, so
    that the loop of [get_structure] reaches that model. *)
Definition models_before_parse (ls : list str) (ns : list Z) (inds : list nat) (i : nat) : Prop :=
  forall j ind_j, (j < i)%nat -> inds !! j = Some ind_j ->
                  exists a, parse_model ls ns j ind_j = Ok a.

(** The body lines before the one of rank [j] parse without an exception. *)
Definition lines_before_parse (body : list str) (j : nat) : Prop :=
  forall k l, (k < j)%nat -> body !! k = Some l -> exists a, parse_atom_line l = Ok a.

(** The lines [set_structure] writes for the model of rank [i] of a stack
    of models of [n] atoms. *)
Definition stack_block (n i : nat) (m : AtomArray) : list str :=
  str_of_nat n :: (txt " " ++ str_of_nat i) :: map atom_line_right m.

Definition stack_blocks (n : nat) (models : AtomArrayStack) : list str :=
  concat (map (fun '(i, m) => stack_block n i m) (enumerate models)).

(** A field of a line: at least one character and no white space. *)
Definition token (t : str) : Prop :=
  t <> [] /\ Forall (fun c => isspace c = false) t.

Definition is_token (t : str) : bool :=
  nonempty t && forallb (fun c => negb (isspace c)) t.

(** What comes back for a coordinate written with six decimals: the
    number [float] reads in its text, which is not NaN. *)
Definition reread (c c' : float) : Prop :=
  token (format_6f c) /\ float_of_str (format_6f c) = Some c' /\ isnan c' = false.

(** What comes back for an atom: its element label, which is one field,
    and its coordinates as reread. *)
Definition atom_reread (a a' : Atom) : Prop :=
  token (element a) /\ element a' = element a
  /\ reread (coord a).1.1 (coord a').1.1
  /\ reread (coord a).1.2 (coord a').1.2
  /\ reread (coord a).2 (coord a').2.

(** What comes back for a structure with at least one atom: the atoms as
    reread, alone when the stack has one model. *)
Definition structure_reread (s s' : structure) : Prop :=
  match s with
  | Single a => a <> [] /\ exists a', Forall2 atom_reread a a' /\ s' = Single a'
  | Stack ms =>
      exists elements ms',
        ms <> [] /\ elements <> []
        /\ Forall (fun m => map element m = elements) ms
        /\ Forall2 (Forall2 atom_reread) ms ms'
        /\ s' = match ms' with [m'] => Single m' | _ => Stack ms' end
  end.

(** Four fields with blanks around them, at least one between two
    fields. *)
Definition spaced (a0 : nat) (t1 : str) (a1 : nat) (t2 : str) (a2 : nat)
           (t3 : str) (a3 : nat) (t4 : str) (a4 : nat) : str :=
  blanks a0 ++ t1 ++ blanks (S a1) ++ t2 ++ blanks (S a2) ++ t3
  ++ blanks (S a3) ++ t4 ++ blanks a4.

(** The models of a structure, one for a single model. *)
Definition models_of (s : structure) : list AtomArray :=
  match s with
  | Single a => [a]
  | Stack ms => ms
  end.

(** An atom whose line has four fields: a label and three numbers that
    are written without white space. *)
Definition writable (a : Atom) : Prop :=
  token (element a)
  /\ token (format_6f (coord a).1.1)
  /\ token (format_6f (coord a).1.2)
  /\ token (format_6f (coord a).2).

(** A block as [get_structure] needs it: the count line is a numeric line
    that reads as the number of body lines, the body lines parse to the
    atoms, and the name line is not numeric unless there are body lines. *)
Definition readable_block (b : model_block) (atoms : AtomArray) : Prop :=
  isdigit (strip (count_line b)) = true
  /\ py_int (strip_blank (strip (count_line b))) = Ok (Z.of_nat (length (body_lines b)))
  /\ (isdigit (strip (name_line b)) = false \/ body_lines b <> [])
  /\ map_result parse_atom_line (body_lines b) = Ok atoms.

(** What a method that only writes lines leaves of the file object [f]:
    the cached attributes, and at least as many lines. *)
Definition same_caches (f f' : XYZFile) : Prop :=
  _mol_names f' = _mol_names f
  /\ _atom_numbers f' = _atom_numbers f
  /\ _model_start_inds f' = _model_start_inds f
  /\ _structures f' = _structures f
  /\ (length (lines f) <= length (lines f'))%nat.

Definition keeps_caches {A} (m : M A) : Prop :=
  forall f, same_caches f (m f).1.

(** The block [set_structure] writes for the model of rank [i] of a stack
    of models of [n] atoms, and the blocks it writes for the stack. *)
Definition written_block (n i : nat) (m : AtomArray) : model_block :=
  mkBlock (str_of_nat n) (txt " " ++ str_of_nat i) (map atom_line_right m).

Definition written_blocks (n : nat) (models : AtomArrayStack) : list model_block :=
  map (fun '(i, m) => written_block n i m) (enumerate models).

End Notions.

(** ** Notions for the numbers of binary64 *)

(** The largest finite number, an integer. *)
Definition max_int : Z := (2 ^ 53 - 1) * 2 ^ 971.

(** The number [A / B] lies in the interval that the record tells: from
    [m] on, below or from the middle on, and at the lower end or in the
    middle when the sticky bit is not set. *)
Definition shr_inv (A B : Z) (mrs : shr_record) : Prop :=
  let m := shr_m mrs in
  0 <= m /\ m * B <= A < (m + 1) * B
  /\ (shr_r mrs = false -> 2 * A < (2 * m + 1) * B)
  /\ (shr_r mrs = true -> (2 * m + 1) * B <= 2 * A)
  /\ (shr_s mrs = false -> 2 * A = (2 * m + (if shr_r mrs then 1 else 0)) * B).

(** [2 ^ 1074], the number of smallest steps of the format in one. *)
Definition unit_den : positive := Z.to_pos (2 ^ 1074).

(** The digits of [d] after those that make [acc]. *)
Fixpoint digits_value (acc : Z) (d : uint) : Z :=
  match d with
  | Nil => acc
  | D0 d => digits_value (10 * acc) d
  | D1 d => digits_value (10 * acc + 1) d
  | D2 d => digits_value (10 * acc + 2) d
  | D3 d => digits_value (10 * acc + 3) d
  | D4 d => digits_value (10 * acc + 4) d
  | D5 d => digits_value (10 * acc + 5) d
  | D6 d => digits_value (10 * acc + 6) d
  | D7 d => digits_value (10 * acc + 7) d
  | D8 d => digits_value (10 * acc + 8) d
  | D9 d => digits_value (10 * acc + 9) d
  end.

(** The digits of [d] followed by those of [d']. *)
Fixpoint digits_app (d d' : uint) : uint :=
  match d with
  | Nil => d'
  | D0 d => D0 (digits_app d d')
  | D1 d => D1 (digits_app d d')
  | D2 d => D2 (digits_app d d')
  | D3 d => D3 (digits_app d d')
  | D4 d => D4 (digits_app d d')
  | D5 d => D5 (digits_app d d')
  | D6 d => D6 (digits_app d d')
  | D7 d => D7 (digits_app d d')
  | D8 d => D8 (digits_app d d')
  | D9 d => D9 (digits_app d d')
  end.

(** An atom that [set_structure] can write for [get_structure] to read:
    its label is one field and its coordinates are values of [float]
    other than NaN. *)
Definition storable_atom (a : @Atom Binary64.binary64) : Prop :=
  token (element a)
  /\ Binary64.is_number (coord a).1.1 = true
  /\ Binary64.is_number (coord a).1.2 = true
  /\ Binary64.is_number (coord a).2 = true.

(** A structure of such atoms, at least one in each model; the models of
    a stack, at least one, have the same labels. *)
Definition storable (s : @structure Binary64.binary64) : Prop :=
  match s with
  | Single a => a <> [] /\ Forall storable_atom a
  | Stack ms =>
      ms <> []
      /\ (exists elements, elements <> [] /\ Forall (fun m => map element m = elements) ms)
      /\ Forall (Forall storable_atom) ms
  end.

(** The atom [a'] has the label of [a] and each of its coordinates within
    [10 ^ -6] of that of [a]. *)
Definition atom_within (a a' : @Atom Binary64.binary64) : Prop :=
  element a' = element a
  /\ Binary64.within_6_decimals (coord a).1.1 (coord a').1.1
  /\ Binary64.within_6_decimals (coord a).1.2 (coord a').1.2
  /\ Binary64.within_6_decimals (coord a).2 (coord a').2.

(** The atom that comes back for [a]. *)
Definition atom_back (a : @Atom Binary64.binary64) : @Atom Binary64.binary64 :=
  @mkAtom Binary64.binary64 (element a)
    (Binary64.reread6 (coord a).1.1, Binary64.reread6 (coord a).1.2,
     Binary64.reread6 (coord a).2).

(** ** Sample files and structures, over binary64 *)

Module Samples.

Definition file_of (ls : list str) : @XYZFile Binary64.binary64 :=
  with_lines init ls.

(** The number nearest to [m * 10 ^ e10]. *)
Definition num (m e10 : Z) : spec_float :=
  Binary64.of_decimal (m <? 0) (Z.abs m) e10.

Definition atom (el : string) (x y z : spec_float) : @Atom Binary64.binary64 :=
  @mkAtom Binary64.binary64 (txt el) (x, y, z).

(** Two atoms, as in the example of the format. *)
Definition two_atoms : @XYZFile Binary64.binary64 :=
  file_of [txt "2"; txt "[MOL]"; txt "C 0.0 0.0 0.0"; txt "H 1.0 0.0 0.0"].

(** One model of one atom: asking for the model of index 1 is one too far. *)
Definition one_model : @XYZFile Binary64.binary64 :=
  file_of [txt "1"; txt "A"; txt "C 0 0 0"].

(** Two models of one atom each, with names that are not numbers. *)
Definition two_blocks : list model_block :=
  [mkBlock (txt "1") (txt "A") [txt "C 0 0 0"];
   mkBlock (txt "1") (txt "B") [txt "C 1 1 1"]].

Definition two_models : @XYZFile Binary64.binary64 :=
  file_of (concat (map block_lines two_blocks)).

(** Two atoms declared, one line of coordinates. *)
Definition short_file : @XYZFile Binary64.binary64 :=
  file_of [txt "2"; txt "[MOL]"; txt "C 0.0 0.0 0.0"].

(** One atom declared, two lines of coordinates. *)
Definition long_model : @XYZFile Binary64.binary64 :=
  file_of [txt "1"; txt "A"; txt "C 0 0 0"; txt "C 1 1 1"].

(** Two atoms declared, one line of coordinates, and another model. *)
Definition short_model : @XYZFile Binary64.binary64 :=
  file_of [txt "2"; txt "A"; txt "C 0 0 0"; txt "1"; txt "B"; txt "C 1 1 1"].

(** A number of atoms of twenty-one digits. *)
Definition huge_count : @XYZFile Binary64.binary64 :=
  file_of [txt "100000000000000000000"; txt "A"; txt "C 0 0 0"].

Definition nan_file : @XYZFile Binary64.binary64 :=
  file_of [txt "1"; txt "[MOL]"; txt "C 0.0 nan 0.5"].

Definition inf_file : @XYZFile Binary64.binary64 :=
  file_of [txt "1"; txt "[MOL]"; txt "C inf 0.0 0.0"].

Definition water : list (@Atom Binary64.binary64) :=
  [atom "O" (num 0 0) (num 0 0) (num 1173 (-4));
   atom "H" (num 0 0) (num 7572 (-4)) (num (-4692) (-4));
   atom "H" (num 0 0) (num (-7572) (-4)) (num (-4692) (-4))].

(** An atom with more decimals than the six that are written. *)
Definition fine_atom : @Atom Binary64.binary64 :=
  atom "C" (num 1234567 (-7)) (num 25 (-1)) (S754_infinity false).

Definition fine_atom_reread : @Atom Binary64.binary64 :=
  atom "C" (num 123457 (-6)) (num 25 (-1)) (S754_infinity false).

Definition nan_atom : @Atom Binary64.binary64 :=
  atom "H" S754_nan (num 0 0) (num 0 0).

Definition unlabelled_atom : @Atom Binary64.binary64 :=
  atom "" (num 0 0) (num 0 0) (num 0 0).

(** An atom whose label has a blank. *)
Definition spaced_atom : @Atom Binary64.binary64 :=
  atom "C 1" (num 0 0) (num 0 0) (num 0 0).


(** A count line on the last line of the buffer. *)
Definition count_last : @XYZFile Binary64.binary64 :=
  file_of [txt "C 0 0 0"; txt "5"].

(** The models read from [two_models]. *)
Definition two_models_read : list (list (@Atom Binary64.binary64)) :=
  [[atom "C" (S754_zero false) (S754_zero false) (S754_zero false)];
   [atom "C" (num 1 0) (num 1 0) (num 1 0)]].

(** The atoms read from [two_atoms]. *)
Definition two_atoms_read : list (@Atom Binary64.binary64) :=
  [atom "C" (S754_zero false) (S754_zero false) (S754_zero false);
   atom "H" (num 1 0) (S754_zero false) (S754_zero false)].

(** A coordinate that is not a number, and a line of three fields. *)
Definition bad_float_file : @XYZFile Binary64.binary64 :=
  file_of [txt "1"; txt "[MOL]"; txt "C 0.0 abc 0.5"].

End Samples.

(** * Properties *)

(** ** Text primitives on examples *)

Example strip_ex : strip (txt "  12 ") = txt "12".
Proof. reflexivity. Qed.

Example split_ws_ex :
  split_ws (txt " C   0.0 1.5  2 ") = [txt "C"; txt "0.0"; txt "1.5"; txt "2"].
Proof. reflexivity. Qed.

Example split_on_ex :
  split_on " "%char (txt "a  b") = [txt "a"; []; txt "b"].
Proof. reflexivity. Qed.

Example py_int_ex :
  py_int (txt " 1_000 ") = Ok 1000 /\ py_int (txt "-07") = Ok (-7)
  /\ py_int (txt "1__0") = Raise (ValueError (txt "invalid literal for int() with base 10: '1__0'"))
  /\ py_int [] = Raise (ValueError (txt "invalid literal for int() with base 10: ''")).
Proof. repeat split; reflexivity. Qed.

Example str_of_ex :
  str_of_nat 0 = txt "0" /\ str_of_nat 120 = txt "120"
  /\ str_of_Z (-35) = txt "-35" /\ str_of_Z 0 = txt "0".
Proof. repeat split; reflexivity. Qed.

Example str_of_list_ex :
  str_of_list [txt "2"; txt "it's"; [ascii_of_nat 9]]
  = "["%char :: txt "'2', " ++ [quote2] ++ txt "it's" ++ [quote2] ++ txt ", '\t']".
Proof. reflexivity. Qed.

Example binary64_ex :
  Binary64.of_str (txt " 1.5e3 ") = Some (S754_finite false 6597069766656000 (-42))
  /\ Binary64.of_str (txt "-Infinity") = Some (S754_infinity true)
  /\ Binary64.of_str (txt "1_.5") = None
  /\ Binary64.fixed6 (S754_finite true 4503601879170310 (-52)) = txt "-1.000001"
  /\ Binary64.to_str (S754_finite false 5404319552844596 (-54)) = txt "0.30000000000000004"
  /\ Binary64.to_str (S754_finite false 5960464477539062 24) = txt "1e+23".
Proof. repeat split; vm_compute; reflexivity. Qed.

(** ** Index lists *)

Lemma indices_where_shift {A} (p : A -> bool) (k : nat) (l : list A) :
  indices_where p (S k) l = map S (indices_where p k l).
Proof.
  revert k. induction l as [|x l IH]; intros k; simpl; [done|].
  rewrite IH. by destruct (p x).
Qed.

Lemma indices_where_app {A} (p : A -> bool) (k : nat) (l1 l2 : list A) :
  indices_where p k (l1 ++ l2)
  = indices_where p k l1 ++ indices_where p (k + length l1) l2.
Proof.
  revert k. induction l1 as [|x l1 IH]; intros k; simpl.
  - by rewrite Nat.add_0_r.
  - rewrite IH. replace (S k + length l1)%nat with (k + S (length l1))%nat by lia.
    by destruct (p x).
Qed.

Lemma indices_where_length {A} (p : A -> bool) (k : nat) (l : list A) :
  length (indices_where p k l) = length (List.filter p l).
Proof.
  revert k. induction l as [|x l IH]; intros k; simpl; [done|].
  destruct (p x); simpl; by rewrite IH.
Qed.

Lemma indices_where_map {A B} (g : A -> B) (p : B -> bool) (k : nat) (l : list A) :
  indices_where p k (map g l) = indices_where (fun x => p (g x)) k l.
Proof.
  revert k. induction l as [|x l IH]; intros k; simpl; [done|].
  rewrite IH. done.
Qed.

Lemma indices_where_none {A} (p : A -> bool) (k : nat) (l : list A) :
  Forall (fun x => p x = false) l -> indices_where p k l = [].
Proof.
  intros Hl. revert k. induction Hl as [|x l Hx _ IH]; intros k; simpl; [done|].
  by rewrite Hx.
Qed.

#[global] Arguments txt : simpl never.

Section Properties.
Context `{PyFloat}.

(** ** The boundary detector *)

Lemma np_take_cons_S (x : nat) (a ps : list nat) :
  np_take (x :: a) (map S ps) = np_take a ps.
Proof.
  induction ps as [|p ps IH]; [done|].
  change (np_take (x :: a) (map S (p :: ps)))
    with (match a !! p with Some y => y :: np_take (x :: a) (map S ps)
                          | None => np_take (x :: a) (map S ps) end).
  change (np_take a (p :: ps))
    with (match a !! p with Some y => y :: np_take a ps | None => np_take a ps end).
  by rewrite IH.
Qed.

Lemma np_where_cons (b : bool) (bs : list bool) :
  np_where (b :: bs) = (if b then [0%nat] else []) ++ map S (np_where bs).
Proof.
  unfold np_where. simpl. rewrite indices_where_shift. by destruct b.
Qed.

Lemma diff_next_cons2 (a b : nat) (r : list nat) :
  diff_next (a :: b :: r) = (Z.of_nat a - Z.of_nat b) :: diff_next (b :: r).
Proof. reflexivity. Qed.

Lemma np_take_cons_0 (x : nat) (a ps : list nat) :
  np_take (x :: a) (0%nat :: ps) = x :: np_take (x :: a) ps.
Proof. reflexivity. Qed.

Lemma np_take_purge_from (prev : nat) (r : list nat) :
  np_take r (np_where (map (fun d => negb (d =? -1)) (diff_next (prev :: r))))
  = purge_from prev r.
Proof.
  revert prev. induction r as [|i r IH]; intros prev; [done|].
  rewrite diff_next_cons2, map_cons, np_where_cons.
  cbn [purge_from].
  destruct (Nat.eqb_spec i (S prev)) as [->|Hne].
  - replace (Z.of_nat prev - Z.of_nat (S prev) =? -1) with true
      by (symmetry; apply Z.eqb_eq; lia).
    cbn [negb app]. rewrite np_take_cons_S. apply IH.
  - replace (Z.of_nat prev - Z.of_nat i =? -1) with false
      by (symmetry; apply Z.eqb_neq; lia).
    cbn [negb app]. rewrite np_take_cons_0, np_take_cons_S. f_equal. apply IH.
Qed.

(** The array expression of the source computes the purge. *)
Lemma start_lines_purge (ls : list str) :
  start_lines ls = purge (numeric_lines ls).
Proof.
  unfold start_lines. destruct (numeric_lines ls) as [|i0 [|i1 r]]; [done..|].
  replace (1 <? length (i0 :: i1 :: r))%nat with true
    by (symmetry; apply Nat.ltb_lt; simpl; lia).
  rewrite np_take_cons_0, np_take_cons_S, np_take_purge_from. done.
Qed.

(** C8, as the code has it: of exactly two candidates the second goes
    only when it is the line right below the first; two candidates
    further apart are both kept.  The branch of the source for exactly
    two candidates comes after the test for more than one candidate and
    is never taken. *)
Theorem start_lines_two_candidates (ls : list str) (a b : nat) :
  numeric_lines ls = [a; b] ->
  start_lines ls = if (b =? S a)%nat then [a] else [a; b].
Proof.
  intros Hc. rewrite start_lines_purge, Hc. simpl.
  by destruct (b =? S a)%nat.
Qed.

(** ** Counting atoms and models *)

Lemma non_body_indices_length (ls : list str) (k : nat) :
  length (indices_where (fun t => negb (length t =? 4)%nat) k (map split_ws ls))
  = count_non_body ls.
Proof.
  rewrite indices_where_map, indices_where_length. done.
Qed.

Lemma number_of_atoms_single (ls : list str) :
  (count_non_body ls <= 2)%nat ->
  number_of_atoms ls = [CountInt (length (drop 2 ls))].
Proof.
  intros Hle. unfold number_of_atoms. rewrite non_body_indices_length.
  by replace (count_non_body ls <=? 2)%nat with true by (symmetry; apply Nat.leb_le; lia).
Qed.

Lemma number_of_atoms_multi_length (ls : list str) :
  (2 < count_non_body ls)%nat ->
  length (number_of_atoms ls) = (count_non_body ls / 2)%nat.
Proof.
  intros Hlt. unfold number_of_atoms. rewrite non_body_indices_length.
  replace (count_non_body ls <=? 2)%nat with false by (symmetry; apply Nat.leb_gt; lia).
  by rewrite !length_map, length_seq.
Qed.

Lemma count_non_body_app (l1 l2 : list str) :
  count_non_body (l1 ++ l2) = (count_non_body l1 + count_non_body l2)%nat.
Proof. unfold count_non_body. by rewrite List.filter_app, length_app. Qed.

Lemma count_non_body_body (ls : list str) :
  Forall (fun l => is_body_line l = true) ls -> count_non_body ls = 0%nat.
Proof.
  unfold count_non_body. induction 1 as [|l ls Hl _ IH]; simpl; [done|].
  by rewrite Hl.
Qed.

Lemma count_non_body_block (b : model_block) :
  valid_block b -> count_non_body (block_lines b) = 2%nat.
Proof.
  intros (Hc & Hn & Hb). unfold block_lines.
  change (count_line b :: name_line b :: body_lines b)
    with ([count_line b; name_line b] ++ body_lines b).
  rewrite count_non_body_app, (count_non_body_body _ Hb).
  unfold count_non_body. simpl. by rewrite Hc, Hn.
Qed.

Lemma count_non_body_blocks (blocks : list model_block) :
  Forall valid_block blocks ->
  count_non_body (concat (map block_lines blocks)) = (2 * length blocks)%nat.
Proof.
  induction 1 as [|b blocks Hb _ IH]; [done|].
  rewrite map_cons, concat_cons, count_non_body_app, (count_non_body_block _ Hb), IH.
  simpl. lia.
Qed.

(** C7: when at most two lines do not split into four fields, the file
    counts as a single model whose atoms are the lines after the two
    header lines, [len(self.lines[2:])], and [get_model_count] returns 1. *)
Theorem single_model_count (f : XYZFile) :
  (count_non_body (lines f) <= 2)%nat ->
  __get_number_of_atoms f = (f, Ok [CountInt (length (lines f) - 2)])
  /\ get_model_count f = (f, Ok 1%nat).
Proof.
  intros Hle. unfold get_model_count, __get_number_of_atoms, bind, self, ret.
  rewrite (number_of_atoms_single _ Hle), length_drop. done.
Qed.

(** C2: a file made of [N >= 2] models, each a count line and a name line
    that are not body lines followed by body lines, has model count [N]. *)
Theorem multi_model_count (f : XYZFile) (blocks : list model_block) :
  (2 <= length blocks)%nat ->
  Forall valid_block blocks ->
  lines f = concat (map block_lines blocks) ->
  get_model_count f = (f, Ok (length blocks)).
Proof.
  intros Hn Hv Hl. unfold get_model_count, __get_number_of_atoms, bind, self, ret.
  pose proof (count_non_body_blocks _ Hv) as Hc. rewrite <- Hl in Hc.
  rewrite number_of_atoms_multi_length by lia.
  rewrite Hc. do 3 f_equal.
  rewrite Nat.mul_comm. apply Nat.div_mul. lia.
Qed.

(** ** Running the methods *)

Ltac unfold_M := unfold bind, self, lift, update, ret, raise.

Lemma get_header_read (f : XYZFile) (ns : list Z) (names : list str) (model : option Z) :
  header_read f ns names ->
  get_header model f = (with_headers f ns names, header_value ns names model).
Proof.
  intros [Hns Hnames]. destruct f as [ls mn an si st]. simpl in *.
  unfold get_header, parse_header_lines, __update_start_lines. unfold_M. simpl.
  unfold current_start_inds. simpl.
  destruct an as [ns0|]; simpl; [subst ns|rewrite Hns; simpl];
    (destruct mn as [names0|]; simpl; [subst names|rewrite Hnames; simpl]);
    unfold with_headers, header_value, current_atom_numbers, current_mol_names; simpl;
    (destruct model as [m|]; [destruct (_ <? m)|destruct (_ =? 1)%nat]; simpl; try done).
Qed.

(** Whatever [get_header] does, it leaves the lines and the parsed
    structures alone. *)
Lemma get_header_frame (f : XYZFile) (model : option Z) :
  lines (get_header model f).1 = lines f
  /\ _structures (get_header model f).1 = _structures f.
Proof.
  destruct f as [ls mn an si st].
  unfold get_header, parse_header_lines, __update_start_lines. unfold_M. simpl.
  unfold current_start_inds. simpl.
  destruct an as [ns0|]; simpl; [|destruct (read_atom_numbers _ _); simpl; [|done]];
    (destruct mn as [names0|]; simpl; [|destruct (read_mol_names _ _); simpl; [|done]]);
    unfold current_atom_numbers, current_mol_names; simpl;
    (destruct model as [m|]; [destruct (_ <? m)|destruct (_ =? 1)%nat]; simpl; try done).
Qed.

(** When [get_header] returns, the headers have been read. *)
Lemma get_header_ok (f f1 : XYZFile) (model : option Z) (h : header) :
  get_header model f = (f1, Ok h) ->
  exists ns names,
    header_read f ns names /\ f1 = with_headers f ns names
    /\ header_value ns names model = Ok h.
Proof.
  intros Hrun.
  assert (exists ns names, header_read f ns names) as (ns & names & Hread).
  { destruct f as [ls mn an si st]. unfold header_read. simpl.
    revert Hrun.
    unfold get_header, parse_header_lines, __update_start_lines. unfold_M. simpl.
    unfold current_start_inds. simpl.
    destruct an as [ns0|]; simpl.
    - destruct mn as [names0|]; simpl; [by eauto|].
      destruct (read_mol_names _ _) as [names|e]; simpl; [by eauto|done].
    - destruct (read_atom_numbers _ _) as [ns|e]; simpl; [|done].
      destruct mn as [names0|]; simpl; [by eauto|].
      destruct (read_mol_names _ _) as [names|e]; simpl; [by eauto|done]. }
  exists ns, names. rewrite (get_header_read _ _ _ _ Hread) in Hrun.
  by simplify_eq.
Qed.

(** ** Lists, comprehensions and slices *)

Lemma py_index_nat {A} (l : list A) (i : nat) :
  py_index l (Z.of_nat i)
  = match l !! i with
    | Some x => Ok x
    | None => Raise (IndexError (txt "list index out of range"))
    end.
Proof.
  assert ((Z.of_nat i <? 0) = false) as Hi by (apply Z.ltb_ge; lia).
  unfold py_index. cbv zeta. by rewrite !Hi, Nat2Z.id.
Qed.

Lemma enumerate_from_lookup {A} (k i : nat) (l : list A) :
  enumerate_from k l !! i = (fun x => ((k + i)%nat, x)) <$> l !! i.
Proof.
  revert k i. induction l as [|x l IH]; intros k i; [by destruct i|].
  destruct i as [|i]; simpl.
  - by rewrite Nat.add_0_r.
  - rewrite IH. by replace (S k + i)%nat with (k + S i)%nat by lia.
Qed.

Lemma enumerate_from_length {A} (k : nat) (l : list A) :
  length (enumerate_from k l) = length l.
Proof. revert k. induction l as [|x l IH]; intros k; simpl; [done|]. by rewrite IH. Qed.

(** The first element on which the body raises decides a comprehension. *)
Lemma map_result_first_raise {A B} (f : A -> result B) (l : list A)
      (i : nat) (x : A) (e : exn) :
  l !! i = Some x ->
  f x = Raise e ->
  (forall j y, (j < i)%nat -> l !! j = Some y -> exists b, f y = Ok b) ->
  map_result f l = Raise e.
Proof.
  revert i. induction l as [|a l IH]; intros i Hi Hx Hbefore; [done|].
  destruct i as [|i]; simpl in *.
  - simplify_eq. by rewrite Hx.
  - destruct (Hbefore 0%nat a) as [b Hb]; [lia|done|]. rewrite Hb.
    rewrite (IH i); [done..|].
    intros j y Hj Hy. apply (Hbefore (S j) y); [lia|done].
Qed.

Lemma map_result_ok {A B} (f : A -> result B) (l : list A) (ys : list B) :
  map_result f l = Ok ys <-> Forall2 (fun x y => f x = Ok y) l ys.
Proof.
  split.
  - revert ys. induction l as [|a l IH]; intros ys Hm; simpl in Hm.
    + simplify_eq. constructor.
    + destruct (f a) as [b|e] eqn:Hfa; [|done].
      destruct (map_result f l) as [bs|e] eqn:Hl; [|done].
      simplify_eq. constructor; [done|by apply IH].
  - induction 1 as [|x y l ys' Hxy _ IH]; simpl; [done|].
    by rewrite Hxy, IH.
Qed.

(** ** Parsing the models *)

Lemma fill_array_run (body : list str) (k : nat) (array : AtomArray) :
  length array = (k + length body)%nat ->
  fill_array array (enumerate_from k body)
  = match map_result parse_atom_line body with
    | Ok atoms => Ok (take k array ++ atoms)
    | Raise e => Raise e
    end.
Proof.
  revert k array. induction body as [|l body IH]; intros k array Hlen; simpl in *.
  - rewrite app_nil_r, take_ge; [done|lia].
  - destruct (parse_atom_line l) as [a|e]; simpl; [|done].
    unfold AtomArray_set.
    replace (k <? length array)%nat with true by (symmetry; apply Nat.ltb_lt; lia).
    cbn [bind_result]. rewrite IH by (rewrite length_insert; lia).
    destruct (map_result parse_atom_line body) as [atoms|e]; [|done].
    f_equal. rewrite (take_S_r _ _ a) by (apply list_lookup_insert_eq; lia).
    rewrite take_insert_ge by lia. by rewrite <- app_assoc.
Qed.

(** The length of a slice. *)
Lemma py_slice_length {A} (l : list A) (a b : Z) :
  Z.of_nat (length (py_slice l a b))
  = let n := Z.of_nat (length l) in
    let clamp i := if i <? 0 then Z.max 0 (i + n) else Z.min i n in
    Z.max 0 (clamp b - clamp a).
Proof.
  unfold py_slice. cbv zeta. rewrite length_take, length_drop.
  destruct (Z.ltb_spec a 0), (Z.ltb_spec b 0); lia.
Qed.

Lemma index_max_bounds {A} (l : list A) :
  int64_max <= index_max l /\ Z.of_nat (length l) <= index_max l.
Proof. unfold index_max. lia. Qed.

(** A sum that stays below the largest integer is the sum. *)
Lemma np_add_fits {A} (l : list A) (a b : Z) :
  0 <= a -> 0 <= b -> a + b <= index_max l -> np_add l a b = Ok (a + b).
Proof.
  intros Ha Hb Hle. unfold np_add. cbv zeta.
  pose proof (index_max_bounds l) as [Hmax _]. unfold int64_max in Hmax.
  destruct (Z.ltb_spec b (- index_max l - 1)); [lia|].
  destruct (Z.ltb_spec (index_max l) b); [lia|]. simpl.
  destruct (Z.ltb_spec (index_max l) (a + b)); [lia|].
  destruct (Z.ltb_spec (a + b) (- index_max l - 1)); [lia|]. done.
Qed.

(** A span of the full length lies within the buffer. *)
Lemma span_full (ls : list str) (ind : nat) (n : Z) :
  0 <= n ->
  Z.of_nat (length (span ls ind n)) = n + 2 ->
  Z.of_nat ind + 2 + n <= Z.of_nat (length ls).
Proof.
  intros Hpos. unfold span. rewrite py_slice_length. cbv beta zeta.
  destruct (Z.ltb_spec (Z.of_nat ind) 0), (Z.ltb_spec (Z.of_nat ind + 2 + n) 0); lia.
Qed.

(** A model whose declared number of atoms is not negative and whose last
    line has an index that fits: the span is checked, then the body lines
    are parsed in order. *)
Lemma parse_model_run (ls : list str) (ns : list Z) (i ind : nat) (n : Z) :
  ns !! i = Some n ->
  0 <= n ->
  Z.of_nat ind + 2 + n <= index_max ls ->
  parse_model ls ns i ind
  = let lines_cut := py_slice ls (Z.of_nat ind) (Z.of_nat ind + 2 + n) in
    if n + 2 =? Z.of_nat (length lines_cut)
    then map_result parse_atom_line (drop 2 lines_cut)
    else Raise (ValueError (mismatch_msg n lines_cut)).
Proof.
  intros Hn Hpos Hfit. unfold parse_model. rewrite py_index_nat, Hn. simpl.
  rewrite np_add_fits by lia. simpl.
  unfold new_AtomArray.
  replace (n <? 0) with false by (symmetry; apply Z.ltb_ge; lia).
  simpl. destruct (Z.eqb_spec (n + 2) (Z.of_nat (length (py_slice ls (Z.of_nat ind) (Z.of_nat ind + 2 + n)))))
    as [Heq|Hne]; simpl; [|done].
  unfold enumerate. rewrite fill_array_run.
  - by destruct (map_result parse_atom_line _).
  - rewrite length_replicate, length_drop. lia.
Qed.

(** A model whose span has the full length: its body lines are parsed in
    order. *)
Lemma parse_model_span (ls : list str) (ns : list Z) (i ind : nat) (n : Z) :
  ns !! i = Some n ->
  0 <= n ->
  Z.of_nat (length (span ls ind n)) = n + 2 ->
  parse_model ls ns i ind = map_result parse_atom_line (drop 2 (span ls ind n)).
Proof.
  intros Hn Hpos Hlen. pose proof (span_full _ _ _ Hpos Hlen) as Hfull.
  pose proof (index_max_bounds ls) as [_ Hmax].
  rewrite (parse_model_run _ _ _ _ _ Hn Hpos) by lia. cbv zeta.
  fold (span ls ind n).
  by replace (n + 2 =? Z.of_nat (length (span ls ind n))) with true
    by (symmetry; apply Z.eqb_eq; lia).
Qed.

Lemma parse_atom_line_not_nan (line : str) (a : Atom) :
  parse_atom_line line = Ok a -> atom_not_nan a.
Proof.
  unfold parse_atom_line, atom_not_nan.
  destruct (py_index _ 1) as [t1|]; simpl; [|done].
  destruct (py_float t1) as [x|]; simpl; [|done].
  destruct (py_index _ 2) as [t2|]; simpl; [|done].
  destruct (py_float t2) as [y|]; simpl; [|done].
  destruct (py_index _ 3) as [t3|]; simpl; [|done].
  destruct (py_float t3) as [z|]; simpl; [|done].
  destruct (isnan x) eqn:Hx, (isnan y) eqn:Hy, (isnan z) eqn:Hz; simpl; try done.
  destruct (py_index _ 0) as [t0|]; simpl; [|done].
  intros; simplify_eq. done.
Qed.

Lemma parse_model_ok_inv (ls : list str) (ns : list Z) (i ind : nat) (a : AtomArray) :
  parse_model ls ns i ind = Ok a ->
  exists n, ns !! i = Some n /\ 0 <= n
            /\ Z.of_nat (length (span ls ind n)) = n + 2
            /\ map_result parse_atom_line (drop 2 (span ls ind n)) = Ok a.
Proof.
  intros Hp. destruct (ns !! i) as [n|] eqn:Hn.
  2:{ unfold parse_model in Hp. by rewrite py_index_nat, Hn in Hp. }
  assert (0 <= n /\ Z.of_nat (length (span ls ind n)) = n + 2) as [Hpos Hlen].
  { unfold parse_model in Hp. rewrite py_index_nat, Hn in Hp. simpl in Hp.
    destruct (np_add ls (Z.of_nat ind + 2) n) as [ind_end|e] eqn:Hadd; [|done].
    simpl in Hp. unfold new_AtomArray in Hp.
    destruct (Z.ltb_spec n 0) as [Hneg|Hpos]; [done|]. simpl in Hp.
    destruct (Z.eqb_spec (n + 2) (Z.of_nat (length (py_slice ls (Z.of_nat ind) ind_end))))
      as [Heq|Hne]; [|done].
    split; [done|].
    unfold np_add in Hadd. cbv zeta in Hadd.
    pose proof (index_max_bounds ls) as [Hmax Hlen]. unfold int64_max in Hmax.
    destruct (Z.ltb_spec n (- index_max ls - 1)); [done|].
    destruct (Z.ltb_spec (index_max ls) n); [done|]. simpl in Hadd.
    injection Hadd as <-. unfold span.
    rewrite py_slice_length in Heq |- *. cbv beta zeta in Heq |- *.
    destruct (Z.ltb_spec (index_max ls) (Z.of_nat ind + 2 + n)) as [Hwrap|Hfit].
    - destruct (Z.ltb_spec (Z.of_nat ind) 0),
        (Z.ltb_spec (Z.of_nat ind + 2 + n - 2 * (index_max ls + 1)) 0); lia.
    - destruct (Z.ltb_spec (Z.of_nat ind + 2 + n) (- index_max ls - 1)); [lia|].
      destruct (Z.ltb_spec (Z.of_nat ind) 0), (Z.ltb_spec (Z.of_nat ind + 2 + n) 0); lia. }
  exists n. rewrite (parse_model_span _ _ _ _ _ Hn Hpos Hlen) in Hp. done.
Qed.

Lemma parse_model_not_nan (ls : list str) (ns : list Z) (i ind : nat) (a : AtomArray) :
  parse_model ls ns i ind = Ok a -> Forall atom_not_nan a.
Proof.
  intros (n & _ & _ & _ & Hm)%parse_model_ok_inv.
  apply map_result_ok in Hm.
  induction Hm as [|l b body a Hl _ IH]; constructor; [|done].
  by eapply parse_atom_line_not_nan.
Qed.

Lemma stack_ok (arrays : list AtomArray) (s : AtomArrayStack) :
  stack arrays = Ok s -> s = arrays /\ arrays <> [].
Proof.
  unfold stack. destruct arrays as [|a0 arrays]; [done|].
  destruct (forallb _ _); [|done]. intros; by simplify_eq.
Qed.

Lemma parse_structures_not_nan (ls : list str) (ns : list Z) (inds : list nat)
      (s : AtomArrayStack) :
  parse_structures ls ns inds = Ok s -> Forall (Forall atom_not_nan) s.
Proof.
  unfold parse_structures.
  destruct (map_result _ (enumerate inds)) as [arrays|] eqn:Hm; simpl; [|done].
  intros [-> _]%stack_ok. apply map_result_ok in Hm.
  induction Hm as [|[i ind] a l arrays Ha _ IH]; constructor; [|done].
  by eapply parse_model_not_nan.
Qed.

Lemma parse_structures_first_raise (ls : list str) (ns : list Z) (inds : list nat)
      (i ind : nat) (e : exn) :
  inds !! i = Some ind ->
  models_before_parse ls ns inds i ->
  parse_model ls ns i ind = Raise e ->
  parse_structures ls ns inds = Raise e.
Proof.
  intros Hi Hbefore He. unfold parse_structures.
  rewrite (map_result_first_raise _ _ i (i, ind) e); [done| |done|].
  - unfold enumerate. by rewrite enumerate_from_lookup, Hi.
  - intros j [j' ind_j] Hj. unfold enumerate. rewrite enumerate_from_lookup.
    destruct (inds !! j) as [x|] eqn:Hx; [|done]. simpl. intros Heq.
    injection Heq as <- <-. by apply (Hbefore j).
Qed.

Lemma stack_index_elem (s : AtomArrayStack) (model : Z) (a : AtomArray) :
  stack_index s model = Ok a -> a ∈ s.
Proof.
  unfold stack_index. cbv zeta. intros Hs.
  repeat case_match; simplify_eq; by eapply list_elem_of_lookup_2.
Qed.

Lemma select_model_not_nan (s : AtomArrayStack) (model : option Z) (r : structure) :
  Forall (Forall atom_not_nan) s ->
  select_model s model = Ok r -> structure_not_nan r.
Proof.
  intros Hs. unfold select_model.
  destruct model as [m|].
  - destruct (stack_index s m) as [a|] eqn:Ha; simpl; [|done].
    intros; simplify_eq. simpl. rewrite Forall_forall in Hs. apply Hs.
    by eapply stack_index_elem.
  - destruct (length s =? 1)%nat.
    + destruct (stack_index s 0) as [a|] eqn:Ha; simpl; [|done].
      intros; simplify_eq. simpl. rewrite Forall_forall in Hs. apply Hs.
      by eapply stack_index_elem.
    + intros; by simplify_eq.
Qed.

(** ** [get_structure], step by step *)

Lemma get_structure_empty (f : XYZFile) (model : option Z) :
  (length (lines f) <= 2)%nat ->
  get_structure model f = (f, Raise (ValueError empty_file_msg)).
Proof.
  intros Hle. unfold get_structure. unfold_M.
  by replace (length (lines f) <=? 2)%nat with true by (symmetry; apply Nat.leb_le; lia).
Qed.

Lemma get_structure_header_raise (f f1 : XYZFile) (model : option Z) (e : exn) :
  (2 < length (lines f))%nat ->
  get_header None f = (f1, Raise e) ->
  get_structure model f = (f1, Raise e).
Proof.
  intros Hlt Hh. unfold get_structure. unfold_M.
  replace (length (lines f) <=? 2)%nat with false by (symmetry; apply Nat.leb_gt; lia).
  by rewrite Hh.
Qed.

Lemma get_structure_run (f f1 : XYZFile) (h : header) (model : option Z) :
  (2 < length (lines f))%nat ->
  get_header None f = (f1, Ok h) ->
  get_structure model f
  = match _structures f with
    | Some s => (f1, select_model s model)
    | None =>
        match parse_structures (lines f) (current_atom_numbers f1)
                               (start_lines (lines f)) with
        | Ok s => (with_structures f1 (Some s), select_model s model)
        | Raise e => (f1, Raise e)
        end
    end.
Proof.
  intros Hlt Hh. unfold get_structure. unfold_M.
  replace (length (lines f) <=? 2)%nat with false by (symmetry; apply Nat.leb_gt; lia).
  rewrite Hh.
  apply get_header_ok in Hh as (ns & names & _ & -> & _).
  unfold __update_start_lines, parse_header_lines. unfold_M. simpl.
  unfold current_atom_numbers, current_start_inds. simpl.
  unfold with_headers, with_model_start_inds, with_structures. simpl.
  destruct (_structures f) as [s|]; simpl; [done|].
  by destruct (parse_structures _ _ _).
Qed.

Lemma select_model_none (s : AtomArrayStack) (r : structure) :
  select_model s None = Ok r ->
  (length s = 1%nat -> exists a, s = [a] /\ r = Single a)
  /\ ((2 <= length s)%nat -> r = Stack s).
Proof.
  unfold select_model. destruct (Nat.eqb_spec (length s) 1) as [Hone|Hmore].
  - destruct s as [|a [|b s]]; try done. simpl. intros; simplify_eq.
    split; [by eauto|simpl; lia].
  - intros; simplify_eq. split; [lia|done].
Qed.

(** C9: without the [model] parameter, [get_structure] returns the whole
    stack when it holds two models or more, and the structure itself, out
    of the stack, when it holds one. *)
Theorem get_structure_without_model (f f' : XYZFile) (r : structure) :
  get_structure None f = (f', Ok r) ->
  exists s, _structures f' = Some s
    /\ (length s = 1%nat -> exists a, s = [a] /\ r = Single a)
    /\ ((2 <= length s)%nat -> r = Stack s).
Proof.
  intros Hrun.
  destruct (Nat.le_gt_cases (length (lines f)) 2) as [Hle|Hlt].
  { rewrite get_structure_empty in Hrun by done. by simplify_eq. }
  destruct (get_header None f) as [f1 [h|e]] eqn:Hh.
  2:{ rewrite (get_structure_header_raise _ _ _ _ Hlt Hh) in Hrun. by simplify_eq. }
  rewrite (get_structure_run _ _ _ _ Hlt Hh) in Hrun.
  pose proof (get_header_frame f None) as [_ Hst]. rewrite Hh in Hst. simpl in Hst.
  destruct (_structures f) as [s|] eqn:Hs.
  - simplify_eq. exists s. split; [done|]. by apply select_model_none.
  - destruct (parse_structures _ _ _) as [s|e]; [|by simplify_eq].
    simplify_eq. exists s. split; [done|]. by apply select_model_none.
Qed.

(** C5, as the code has it: the lines taken for a model are cut to its
    declared number of atoms plus the two header lines, and the test is
    on the number of lines that the cut gives.  When the buffer ends
    before the [n + 2] lines of a model that starts at line [ind] and
    declares [n] atoms, [get_structure] raises the exception whose
    message carries [n] and the number of lines of the cut.  The cut
    holds the lines that are left from line [ind] on when the index
    [ind + 2 + n] fits in 64 bits.  The number [n] is not negative and
    fits in 64 bits, and so does the length of the buffer, as that of any
    list of Python does.  The model is one the loop gets to: the
    structures are not cached and the models before it parse. *)
Theorem truncated_model_raises (f f1 : XYZFile) (h : header) (model : option Z)
        (i ind : nat) (n : Z) :
  _structures f = None ->
  (2 < length (lines f))%nat ->
  get_header None f = (f1, Ok h) ->
  start_lines (lines f) !! i = Some ind ->
  current_atom_numbers f1 !! i = Some n ->
  0 <= n <= int64_max ->
  Z.of_nat (length (lines f)) <= int64_max ->
  models_before_parse (lines f) (current_atom_numbers f1) (start_lines (lines f)) i ->
  Z.of_nat (length (lines f)) < Z.of_nat ind + 2 + n ->
  exists lines_cut,
    get_structure model f = (f1, Raise (ValueError (mismatch_msg n lines_cut)))
    /\ Z.of_nat (length lines_cut) < n + 2
    /\ (Z.of_nat ind + 2 + n <= int64_max -> lines_cut = drop ind (lines f))
    /\ exists pre mid post,
        mismatch_msg n lines_cut
        = pre ++ str_of_Z n ++ mid ++ str_of_nat (length lines_cut) ++ post.
Proof.
  intros Hst Hlt Hh Hind Hn Hpos Hreal Hbefore Hshort.
  assert (index_max (lines f) = int64_max) as Htop by (unfold index_max; lia).
  set (s := Z.of_nat ind + 2 + n).
  set (ind_end := if int64_max <? s then s - 2 * (int64_max + 1) else s).
  assert (np_add (lines f) (Z.of_nat ind + 2) n = Ok ind_end) as Hadd.
  { unfold np_add. rewrite Htop. cbv zeta. fold s.
    destruct (Z.ltb_spec n (- int64_max - 1)); [lia|].
    destruct (Z.ltb_spec int64_max n); [lia|]. cbn [orb].
    unfold ind_end. destruct (Z.ltb_spec int64_max s); [done|].
    destruct (Z.ltb_spec s (- int64_max - 1)); [lia|done]. }
  set (lines_cut := py_slice (lines f) (Z.of_nat ind) ind_end).
  assert (Z.of_nat (length lines_cut) < n + 2) as Hlen.
  { unfold lines_cut. rewrite py_slice_length. cbv beta zeta.
    unfold ind_end, s, int64_max in *.
    destruct (Z.ltb_spec (2 ^ 63 - 1) (Z.of_nat ind + 2 + n)).
    - destruct (Z.ltb_spec (Z.of_nat ind) 0),
        (Z.ltb_spec (Z.of_nat ind + 2 + n - 2 * (2 ^ 63 - 1 + 1)) 0); lia.
    - destruct (Z.ltb_spec (Z.of_nat ind) 0), (Z.ltb_spec (Z.of_nat ind + 2 + n) 0); lia. }
  exists lines_cut. split_and!.
  - rewrite (get_structure_run _ _ _ _ Hlt Hh), Hst.
    rewrite (parse_structures_first_raise _ _ _ i ind
               (ValueError (mismatch_msg n lines_cut)) Hind Hbefore);
      [reflexivity|].
    unfold parse_model. rewrite py_index_nat, Hn. cbn [bind_result].
    rewrite Hadd. cbn [bind_result]. unfold new_AtomArray.
    replace (n <? 0) with false by (symmetry; apply Z.ltb_ge; lia).
    cbn [bind_result]. fold lines_cut.
    destruct (Z.eqb_spec (n + 2) (Z.of_nat (length lines_cut))); [lia|done].
  - done.
  - intros Hfit. unfold lines_cut, ind_end.
    replace (int64_max <? s) with false by (symmetry; apply Z.ltb_ge; unfold s; lia).
    unfold s, py_slice. cbv zeta.
    replace (Z.of_nat ind <? 0) with false by (symmetry; apply Z.ltb_ge; lia).
    replace (Z.of_nat ind + 2 + n <? 0) with false by (symmetry; apply Z.ltb_ge; lia).
    rewrite (Z.min_r (Z.of_nat ind + 2 + n)) by lia.
    destruct (Z.le_gt_cases (Z.of_nat ind) (Z.of_nat (length (lines f)))) as [Hin|Hout].
    + rewrite Z.min_l by lia. rewrite Nat2Z.id.
      apply take_ge. rewrite length_drop. lia.
    + rewrite Z.min_r by lia. rewrite Nat2Z.id, Z.sub_diag.
      rewrite !drop_ge by lia. done.
  - exists (txt "Number of Atoms not matching with coordinate lines"
            ++ txt " atom_number :: "),
           (txt " |lines_cut| :: "),
           (txt " lines_cut   :: " ++ str_of_list lines_cut).
    unfold mismatch_msg. rewrite <- (app_assoc (txt _) (txt _)). reflexivity.
Qed.

(** C3, as the code has it: only NaN is looked for.  A body line that the
    loop gets to and whose coordinates, as [float] reads them, include a
    NaN makes [get_structure] raise the exception whose message carries
    the three numbers; and a structure that [get_structure] parses and
    returns has no NaN coordinate.  An infinite coordinate is not checked
    for. *)
Theorem nan_coordinate_raises (f : XYZFile) (model : option Z) :
  _structures f = None ->
  (forall f1 h i ind n j line t1 t2 t3 x y z,
      (2 < length (lines f))%nat ->
      get_header None f = (f1, Ok h) ->
      start_lines (lines f) !! i = Some ind ->
      current_atom_numbers f1 !! i = Some n ->
      0 <= n ->
      models_before_parse (lines f) (current_atom_numbers f1) (start_lines (lines f)) i ->
      Z.of_nat (length (span (lines f) ind n)) = n + 2 ->
      drop 2 (span (lines f) ind n) !! j = Some line ->
      lines_before_parse (drop 2 (span (lines f) ind n)) j ->
      line_fields line !! 1%nat = Some t1 -> float_of_str t1 = Some x ->
      line_fields line !! 2%nat = Some t2 -> float_of_str t2 = Some y ->
      line_fields line !! 3%nat = Some t3 -> float_of_str t3 = Some z ->
      isnan x || isnan y || isnan z = true ->
      get_structure model f = (f1, Raise (ValueError (nan_msg x y z))))
  /\ (forall f' r, get_structure model f = (f', Ok r) -> structure_not_nan r).
Proof.
  intros Hst. split.
  - intros f1 h i ind n j line t1 t2 t3 x y z
           Hlt Hh Hind Hn Hpos Hbefore Hlen Hline Hlines Ht1 Hx Ht2 Hy Ht3 Hz Hnan.
    rewrite (get_structure_run _ _ _ _ Hlt Hh), Hst.
    rewrite (parse_structures_first_raise _ _ _ i ind (ValueError (nan_msg x y z))
               Hind Hbefore); [reflexivity|].
    rewrite (parse_model_span _ _ _ _ _ Hn Hpos Hlen).
    apply (map_result_first_raise _ _ j line); [done| |done].
    unfold parse_atom_line, py_float. cbv zeta.
    rewrite (py_index_nat _ 1), (py_index_nat _ 2), (py_index_nat _ 3).
    rewrite Ht1, Ht2, Ht3. simpl. rewrite Hx. simpl. rewrite Hy. simpl.
    rewrite Hz. simpl. by rewrite Hnan.
  - intros f' r Hrun.
    destruct (Nat.le_gt_cases (length (lines f)) 2) as [Hle|Hlt].
    { rewrite get_structure_empty in Hrun by done. by simplify_eq. }
    destruct (get_header None f) as [f1 [h|e]] eqn:Hh.
    2:{ rewrite (get_structure_header_raise _ _ _ _ Hlt Hh) in Hrun. by simplify_eq. }
    rewrite (get_structure_run _ _ _ _ Hlt Hh), Hst in Hrun.
    destruct (parse_structures _ _ _) as [s|e] eqn:Hp; [|by simplify_eq].
    simplify_eq. eapply select_model_not_nan; [|done].
    by eapply parse_structures_not_nan.
Qed.

(** C6, as the code has it: on a buffer of at most the two header lines,
    [get_structure] raises its exception for an empty file and
    [set_header] without a model raises an exception.  [get_header] has
    no such test.  With nothing cached, it returns the two empty lists
    when no line of the buffer is numeric, as on a fresh file, and the
    number with the stripped second line when the first of two lines is
    a number that [int] reads. *)
Theorem empty_file_operations_fail (f : XYZFile) (mol_name : str) (model : option Z) :
  (length (lines f) <= 2)%nat ->
  get_structure model f = (f, Raise (ValueError empty_file_msg))
  /\ (exists f' e, set_header mol_name None f = (f', Raise e))
  /\ (_atom_numbers f = None -> _mol_names f = None ->
      Forall (fun l => isdigit (strip l) = false) (lines f) ->
      (get_header None f).2 = Ok (HeaderAll [] []))
  /\ (forall l0 l1 c,
      _atom_numbers f = None -> _mol_names f = None ->
      lines f = [l0; l1] ->
      isdigit (strip l0) = true ->
      py_int (strip_blank (strip l0)) = Ok c ->
      (get_header None f).2 = Ok (HeaderOne c (strip l1))).
Proof.
  intros Hle. split_and!; [by apply get_structure_empty| | |].
  - unfold set_header. unfold_M.
    destruct (_mol_names f) as [names|] eqn:Hnames.
    + replace (2 <? length (lines f))%nat with false by (symmetry; apply Nat.ltb_ge; lia).
      by eauto.
    + pose proof (get_header_frame f None) as [Hlines _].
      destruct (get_header None f) as [f1 [h|e]]; simpl in *; [|by eauto].
      rewrite Hlines.
      replace (2 <? length (lines f))%nat with false by (symmetry; apply Nat.ltb_ge; lia).
      by eauto.
  - intros Han Hmn Hnum.
    assert (start_lines (lines f) = []) as Hstart.
    { unfold start_lines, numeric_lines.
      rewrite indices_where_none; [done|]. done. }
    destruct f as [ls mn an si st]. simpl in *. subst an mn.
    unfold get_header, parse_header_lines, __update_start_lines. unfold_M. simpl.
    unfold current_start_inds. simpl. by rewrite Hstart.
  - intros l0 l1 c Han Hmn Hls Hd0 Hc.
    assert (start_lines (lines f) = [0%nat]) as Hstart.
    { rewrite Hls. unfold start_lines, numeric_lines. simpl. rewrite Hd0.
      by destruct (isdigit (strip l1)). }
    destruct f as [ls mn an si st]. simpl in *. subst an mn ls.
    unfold get_header, parse_header_lines, __update_start_lines. unfold_M. simpl.
    unfold current_start_inds. simpl. rewrite Hstart.
    assert (read_atom_numbers [l0; l1] [0%nat] = Ok [c]) as ->.
    { unfold read_atom_numbers. cbn [map_result].
      rewrite (py_index_nat _ 0). cbn [lookup list_lookup bind_result].
      by rewrite Hc. }
    simpl. done.
Qed.

(** ** [get_header] with a model *)

(** How [get_header] answers a request for one model of a file of [M]
    models: above [M] the exception of the method, at [M] the exception
    of the list, below it the header of the model. *)
Lemma get_header_model_cases (f : XYZFile) (ns : list Z) (names : list str) (m : Z) :
  header_read f ns names ->
  length names = length ns ->
  (Z.of_nat (length ns) < m ->
   (get_header (Some m) f).2 = Raise (ValueError (header_range_msg m (length ns))))
  /\ (m = Z.of_nat (length ns) ->
      (get_header (Some m) f).2 = Raise (IndexError (txt "list index out of range")))
  /\ (forall n name, 0 <= m < Z.of_nat (length ns) ->
      ns !! Z.to_nat m = Some n -> names !! Z.to_nat m = Some name ->
      (get_header (Some m) f).2 = Ok (HeaderOne n name)).
Proof.
  intros Hread Hlen. rewrite (get_header_read _ _ _ _ Hread). simpl.
  split_and!.
  - intros Hm. by replace (Z.of_nat (length ns) <? m) with true
      by (symmetry; apply Z.ltb_lt; lia).
  - intros ->. rewrite Z.ltb_irrefl, py_index_nat.
    by rewrite lookup_ge_None_2 by lia.
  - intros n name Hm Hn Hname.
    replace (Z.of_nat (length ns) <? m) with false by (symmetry; apply Z.ltb_ge; lia).
    rewrite <- (Z2Nat.id m) by lia. rewrite !py_index_nat, Hn, Hname. done.
Qed.

(** C4 on a file of one model: asked for the model of index 1, the
    method gets past its own test, which lets [model = M] through, and
    the list of atom numbers raises its exception, which names neither
    the index nor the number of models. *)
Theorem get_header_model_equal_count :
  let f := with_lines init [txt "1"; txt "A"; txt "C 0 0 0"] in
  (get_model_count f).2 = Ok 1%nat
  /\ (get_header None f).2 = Ok (HeaderOne 1 (txt "A"))
  /\ (get_header (Some 1) f).2 = Raise (IndexError (txt "list index out of range"))
  /\ (get_header (Some 2) f).2 = Raise (ValueError (header_range_msg 2 1)).
Proof. split_and!; reflexivity. Qed.

(** ** Writing lines *)

Lemma set_line_run (f : XYZFile) (i : nat) (v : str) :
  (i < length (lines f))%nat ->
  set_line i v f = (with_lines f (<[i := v]> (lines f)), Ok tt).
Proof.
  intros Hi. unfold set_line, py_set_item. unfold_M. cbv zeta.
  replace (Z.of_nat i <? 0) with false by (symmetry; apply Z.ltb_ge; lia).
  replace ((0 <=? Z.of_nat i) && (Z.of_nat i <? Z.of_nat (length (lines f))))
    with true by (symmetry; apply andb_true_iff; split; [apply Z.leb_le|apply Z.ltb_lt]; lia).
  by rewrite Nat2Z.id.
Qed.

(** A loop that writes the items of a list on consecutive lines. *)
Lemma for_each_set_lines {A} (items : list A) (g : A -> str) (pos : nat -> nat)
      (off j0 : nat) (pre rest : list str) (f : XYZFile) :
  (forall j, pos j = (off + j)%nat) ->
  lines f = pre ++ rest ->
  length pre = (off + j0)%nat ->
  (length items <= length rest)%nat ->
  for_each (enumerate_from j0 items) (fun '(j, x) => set_line (pos j) (g x)) f
  = (with_lines f (pre ++ map g items ++ drop (length items) rest), Ok tt).
Proof.
  intros Hpos. revert j0 pre rest f.
  induction items as [|x items IH]; intros j0 pre rest f Hl Hpre Hlen; simpl.
  - unfold_M. rewrite drop_0, <- Hl. by destruct f.
  - destruct rest as [|r rest]; simpl in Hlen; [lia|].
    unfold bind at 1. rewrite set_line_run.
    2:{ rewrite Hl, length_app, Hpos. simpl. lia. }
    rewrite (IH (S j0) (pre ++ [g x]) rest).
    + unfold with_lines. simpl. by rewrite <- app_assoc.
    + simpl. rewrite Hl, Hpos, <- Hpre.
      rewrite (insert_app_r_alt pre) by lia.
      rewrite Nat.sub_diag. simpl. by rewrite <- app_assoc.
    + rewrite length_app. simpl. lia.
    + lia.
Qed.

Lemma stack_index_0 (a0 : AtomArray) (s : AtomArrayStack) :
  stack_index (a0 :: s) 0 = Ok a0.
Proof. reflexivity. Qed.

(** One round of the loop of [set_structure] over the models of a stack. *)
Lemma stack_block_step (atoms : AtomArrayStack) (a0 m : AtomArray) (n i : nat)
      (pre rest : list str) (f : XYZFile) :
  stack_index atoms 0 = Ok a0 ->
  length a0 = n ->
  length m = n ->
  lines f = pre ++ rest ->
  length pre = (i * (n + 2))%nat ->
  (n + 2 <= length rest)%nat ->
  (a0 <- lift (stack_index atoms 0) ;;
   set_line (i * (n + 2)) (str_of_nat (length a0)) ;;;
   set_line (i * (n + 2) + 1) (txt " " ++ str_of_nat i) ;;;
   for_each (enumerate m)
     (fun '(j, atom) =>
        set_line (i * (n + 2) + j + 2) (atom_line_right atom))) f
  = (with_lines f (pre ++ stack_block n i m ++ drop (n + 2) rest), Ok tt).
Proof.
  intros Ha0 Hn Hm Hl Hpre Hlen.
  unfold bind at 1. unfold lift at 1. rewrite Ha0, Hn.
  destruct rest as [|r0 [|r1 rest]]; simpl in Hlen; [lia..|].
  unfold bind at 1. rewrite set_line_run.
  2:{ rewrite Hl, length_app. simpl. lia. }
  unfold bind at 1. rewrite set_line_run.
  2:{ simpl. rewrite length_insert, Hl, length_app. simpl. lia. }
  unfold enumerate.
  rewrite (for_each_set_lines m atom_line_right
             (fun j => (i * (n + 2) + j + 2)%nat) (i * (n + 2) + 2) 0
             (pre ++ [str_of_nat n; txt " " ++ str_of_nat i]) rest).
  - unfold with_lines, stack_block. simpl. f_equal. f_equal.
    rewrite <- !app_assoc. simpl. do 3 f_equal.
    replace (n + 2)%nat with (S (S (length m))) by lia. done.
  - intros j. lia.
  - simpl. rewrite Hl, <- Hpre.
    rewrite (insert_app_r_alt pre) by lia. rewrite Nat.sub_diag.
    rewrite (insert_app_r_alt pre) by lia.
    replace (length pre + 1 - length pre)%nat with 1%nat by lia.
    simpl. by rewrite <- app_assoc.
  - rewrite length_app. simpl. lia.
  - lia.
Qed.

(** The loop of [set_structure] over the models of a stack. *)
Lemma for_each_stack_blocks (atoms : AtomArrayStack) (a0 : AtomArray) (n : nat)
      (models : list AtomArray) (i0 : nat) (pre rest : list str) (f : XYZFile) :
  stack_index atoms 0 = Ok a0 ->
  length a0 = n ->
  Forall (fun m => length m = n) models ->
  lines f = pre ++ rest ->
  length pre = (i0 * (n + 2))%nat ->
  (length models * (n + 2) <= length rest)%nat ->
  for_each (enumerate_from i0 models)
    (fun '(i, atoms_i) =>
       a0 <- lift (stack_index atoms 0) ;;
       set_line (i * (n + 2)) (str_of_nat (length a0)) ;;;
       set_line (i * (n + 2) + 1) (txt " " ++ str_of_nat i) ;;;
       for_each (enumerate atoms_i)
         (fun '(j, atom) =>
            set_line (i * (n + 2) + j + 2) (atom_line_right atom))) f
  = (with_lines f
       (pre ++ concat (map (fun '(i, m) => stack_block n i m) (enumerate_from i0 models))
            ++ drop (length models * (n + 2)) rest),
     Ok tt).
Proof.
  intros Ha0 Hn Hmodels. revert i0 pre rest f.
  induction Hmodels as [|m models Hm _ IH]; intros i0 pre rest f Hl Hpre Hlen.
  - simpl. unfold_M. rewrite drop_0, <- Hl. by destruct f.
  - cbn [enumerate_from for_each]. unfold bind at 1.
    simpl in Hlen.
    rewrite (stack_block_step atoms a0 m n i0 pre rest f) by (done || lia).
    rewrite (IH (S i0) (pre ++ stack_block n i0 m) (drop (n + 2) rest)).
    + unfold with_lines. cbn [lines _mol_names _atom_numbers _model_start_inds _structures].
      rewrite map_cons, concat_cons, <- !app_assoc, drop_drop.
      repeat f_equal.
    + cbn [lines with_lines]. by rewrite <- app_assoc.
    + rewrite length_app. unfold stack_block. simpl. rewrite length_map. lia.
    + rewrite length_drop. lia.
Qed.

Lemma stack_blocks_from_length (n i0 : nat) (models : AtomArrayStack) :
  Forall (fun m => length m = n) models ->
  length (concat (map (fun '(i, m) => stack_block n i m) (enumerate_from i0 models)))
  = (length models * (n + 2))%nat.
Proof.
  intros Hm. revert i0. induction Hm as [|m models Hm _ IH]; intros i0; [done|].
  cbn [enumerate_from map]. rewrite concat_cons, length_app, IH.
  unfold stack_block. simpl. rewrite length_map. lia.
Qed.

(** What [set_structure] makes of a fresh file, for a single model. *)
Lemma set_structure_single_run (atoms : AtomArray) :
  set_structure (Single atoms) init
  = (with_lines init
       (str_of_nat (length atoms) :: default_mol_name :: map atom_line_left atoms),
     Ok tt).
Proof.
  unfold set_structure.
  unfold bind at 1. rewrite set_line_run by (simpl; lia).
  unfold bind at 1. unfold self at 1. unfold bind at 1. unfold lift at 1.
  cbn [lines with_lines init replicate N_HEADER]. cbn [insert list_insert].
  rewrite (py_index_nat _ 1). cbn [lookup list_lookup].
  unfold bind at 1. cbn [length Nat.eqb].
  rewrite set_line_run by (simpl; lia).
  unfold bind at 1. unfold update at 1.
  cbn [lines with_lines init replicate N_HEADER insert list_insert].
  unfold enumerate.
  rewrite (for_each_set_lines atoms atom_line_left (fun j => (j + 2)%nat) 2 0
             [str_of_nat (length atoms); default_mol_name]
             (replicate (length atoms) [])).
  - unfold with_lines. simpl. do 4 f_equal. rewrite drop_ge, app_nil_r; [done|].
    by rewrite length_replicate.
  - intros j. lia.
  - done.
  - done.
  - by rewrite length_replicate.
Qed.

(** What [set_structure] makes of a fresh file, for a stack of models of
    [n] atoms. *)
Lemma set_structure_stack_run (m0 : AtomArray) (models : AtomArrayStack) (n : nat) :
  Forall (fun m => length m = n) (m0 :: models) ->
  set_structure (Stack (m0 :: models)) init
  = (with_lines init (stack_blocks n (m0 :: models) ++ [[]; []]), Ok tt).
Proof.
  intros Hm. pose proof (Forall_inv Hm) as Hm0. simpl in Hm0.
  unfold set_structure.
  unfold bind at 1. unfold lift at 1. rewrite stack_index_0.
  unfold bind at 1. unfold update at 1. rewrite Hm0.
  rewrite (for_each_stack_blocks (m0 :: models) m0 n (m0 :: models) 0 []
             (replicate (2 + (n + 2) * length (m0 :: models)) [])).
  - unfold with_lines, stack_blocks, enumerate.
    cbn [lines _mol_names _atom_numbers _model_start_inds _structures init].
    rewrite drop_replicate, app_nil_l.
    replace (2 + (n + 2) * length (m0 :: models) - length (m0 :: models) * (n + 2))%nat
      with 2%nat by lia.
    done.
  - apply stack_index_0.
  - done.
  - done.
  - cbn [lines with_lines init N_HEADER]. by rewrite <- replicate_add.
  - done.
  - rewrite length_replicate. lia.
Qed.

(** C10: a stack of [k] models of [n] atoms written into a fresh file
    gives [k * (n + 2) + 2] lines: the [k] blocks of [n + 2] lines from
    line 0 on, then the two empty lines the file started with. *)
Theorem set_structure_stack_lines (models : AtomArrayStack) (n : nat) :
  Forall (fun m => length m = n) models ->
  let f' := (set_structure (Stack models) init).1 in
  lines f' = stack_blocks n models ++ [[]; []]
  /\ length (stack_blocks n models) = (length models * (n + 2))%nat
  /\ length (lines f') = (length models * (n + 2) + 2)%nat
  /\ (models <> [] -> (set_structure (Stack models) init).2 = Ok tt).
Proof.
  intros Hm.
  assert (length (stack_blocks n models) = (length models * (n + 2))%nat) as Hlen
    by (by apply stack_blocks_from_length).
  destruct models as [|m0 models].
  - by split_and!.
  - rewrite (set_structure_stack_run _ _ _ Hm). cbn [fst snd lines with_lines].
    split_and!; [done|done| |done].
    rewrite length_app, Hlen. simpl. lia.
Qed.

(** ** Stripping and splitting *)

Lemma drop_while_head {A} (p : A -> bool) (x : A) (l : list A) :
  p x = false -> drop_while p (x :: l) = x :: l.
Proof. intros Hx. simpl. by rewrite Hx. Qed.

Lemma drop_while_app_true {A} (p : A -> bool) (l1 l2 : list A) :
  Forall (fun x => p x = true) l1 -> drop_while p (l1 ++ l2) = drop_while p l2.
Proof. induction 1 as [|x l1 Hx _ IH]; simpl; [done|]. by rewrite Hx. Qed.

(** The text between white space at both ends: a core that starts and
    ends with other characters. *)
Lemma strip_by_core (p : ascii -> bool) (pre post : str) (a b : ascii) (mid : str) :
  Forall (fun c => p c = true) pre ->
  Forall (fun c => p c = true) post ->
  p a = false -> p b = false ->
  strip_by p (pre ++ (a :: mid ++ [b]) ++ post) = a :: mid ++ [b].
Proof.
  intros Hpre Hpost Ha Hb. unfold strip_by, lstrip_by, rstrip_by.
  rewrite drop_while_app_true by done.
  cbn [app]. rewrite drop_while_head by done.
  change (a :: (mid ++ [b]) ++ post) with ((a :: mid ++ [b]) ++ post).
  rewrite rev_app_distr, drop_while_app_true by (by apply Forall_rev).
  change (a :: mid ++ [b]) with ((a :: mid) ++ [b]).
  rewrite rev_app_distr. cbn [rev app]. rewrite drop_while_head by done.
  cbn [rev]. by rewrite rev_app_distr, rev_involutive.
Qed.

(** The same for a core of one character. *)
Lemma strip_by_core1 (p : ascii -> bool) (pre post : str) (a : ascii) :
  Forall (fun c => p c = true) pre ->
  Forall (fun c => p c = true) post ->
  p a = false ->
  strip_by p (pre ++ [a] ++ post) = [a].
Proof.
  intros Hpre Hpost Ha. unfold strip_by, lstrip_by, rstrip_by.
  rewrite drop_while_app_true by done.
  cbn [app]. rewrite drop_while_head by done.
  change (a :: post) with ([a] ++ post).
  rewrite rev_app_distr, drop_while_app_true by (by apply Forall_rev).
  cbn [rev app]. by rewrite drop_while_head.
Qed.

(** A text of at least one character is one character, or two with a
    text in between. *)
Lemma str_ends (t : str) :
  t <> [] -> (exists a, t = [a]) \/ (exists a mid b, t = a :: mid ++ [b]).
Proof.
  destruct t as [|a t]; [done|]. intros _.
  destruct (rev t) as [|b r] eqn:Hr.
  - left. exists a. apply (f_equal (@rev ascii)) in Hr.
    rewrite rev_involutive in Hr. by subst.
  - right. exists a, (rev r), b. apply (f_equal (@rev ascii)) in Hr.
    rewrite rev_involutive in Hr. by subst.
Qed.

Lemma strip_by_token (p : ascii -> bool) (pre post t : str) :
  Forall (fun c => p c = true) pre ->
  Forall (fun c => p c = true) post ->
  t <> [] -> Forall (fun c => p c = false) t ->
  strip_by p (pre ++ t ++ post) = t.
Proof.
  intros Hpre Hpost Hne Ht.
  destruct (str_ends t Hne) as [[a ->]|(a & mid & b & ->)].
  - apply strip_by_core1; [done..|]. by inversion Ht.
  - apply strip_by_core; [done..| |].
    + by inversion Ht.
    + apply Forall_cons in Ht as [_ Ht]. apply Forall_app in Ht as [_ Ht].
      by inversion Ht.
Qed.

Lemma strip_by_id (p : ascii -> bool) (t : str) :
  Forall (fun c => p c = false) t -> strip_by p t = t.
Proof.
  intros Ht. destruct t as [|a t]; [done|].
  rewrite <- (app_nil_l (a :: t)) at 1. rewrite <- (app_nil_r (a :: t)) at 1.
  by apply strip_by_token.
Qed.

(** ** Decimal text *)

Lemma isdecimal_classes (c : ascii) :
  isdecimal c = true ->
  isspace c = false /\ c_isspace c = false /\ is_blank c = false
  /\ isdigit_char c = true
  /\ Ascii.eqb c "-"%char = false /\ Ascii.eqb c "+"%char = false.
Proof.
  destruct c as [[] [] [] [] [] [] [] []]; vm_compute; intros; by split_and!.
Qed.

Lemma digits_of_uint_decimal (d : uint) :
  Forall (fun c => isdecimal c = true) (digits_of_uint d).
Proof. induction d; simpl; constructor; done. Qed.

Lemma uint_of_digits_of_uint (d : uint) :
  uint_of_digits (digits_of_uint d) = Some d.
Proof. induction d; simpl; [done|by rewrite IHd..]. Qed.

Lemma digitpart_decimal (b : bool) (s : str) :
  s <> [] -> Forall (fun c => isdecimal c = true) s -> digitpart b s = Some s.
Proof.
  intros Hne Hs. revert b Hne. induction Hs as [|c s Hc Hs IH]; intros b Hne; [done|].
  simpl. rewrite Hc. destruct s as [|c' s].
  - done.
  - by rewrite IH.
Qed.

Lemma str_of_nat_digits (n : nat) :
  exists d, str_of_nat n = digits_of_uint d /\ d <> Nil /\ Z.of_uint d = Z.of_nat n.
Proof.
  unfold str_of_nat, str_of_Z. pose proof (DecimalZ.of_to (Z.of_nat n)) as Hof.
  destruct (Z.of_nat n) as [|p|p] eqn:Hz; simpl in *.
  - by exists zero.
  - exists (Pos.to_uint p). split_and!; [done| |done].
    apply DecimalPos.Unsigned.to_uint_nonnil.
  - lia.
Qed.

Lemma digits_of_uint_nonempty (d : uint) : d <> Nil -> digits_of_uint d <> [].
Proof. by destruct d. Qed.

Lemma str_of_nat_decimal (n : nat) :
  str_of_nat n <> [] /\ Forall (fun c => isdecimal c = true) (str_of_nat n).
Proof.
  destruct (str_of_nat_digits n) as (d & -> & Hd & _).
  split; [by apply digits_of_uint_nonempty|apply digits_of_uint_decimal].
Qed.

Lemma Forall_decimal_class (P : ascii -> Prop) (s : str) :
  (forall c, isdecimal c = true -> P c) ->
  Forall (fun c => isdecimal c = true) s -> Forall P s.
Proof. intros HP Hs. induction Hs; constructor; auto. Qed.

(** The text of a number is a numeric line, alone or after a blank. *)
Lemma isdigit_str_of_nat (pre : str) (n : nat) :
  Forall (fun c => isspace c = true) pre ->
  isdigit (strip (pre ++ str_of_nat n)) = true.
Proof.
  intros Hpre. destruct (str_of_nat_decimal n) as [Hne Hdec].
  unfold strip. rewrite <- (app_nil_r (str_of_nat n)).
  rewrite strip_by_token; [|done|done|done|].
  - unfold isdigit. destruct (str_of_nat n); [done|].
    apply forallb_forall. intros c Hc. rewrite Forall_forall in Hdec.
    apply isdecimal_classes, Hdec. by apply list_elem_of_In.
  - eapply Forall_decimal_class; [|done]. intros c Hc. by apply isdecimal_classes.
Qed.

(** [int] reads back the text of a number. *)
Lemma py_int_str_of_nat (n : nat) :
  py_int (strip_blank (strip (str_of_nat n))) = Ok (Z.of_nat n).
Proof.
  destruct (str_of_nat_decimal n) as [Hne Hdec].
  destruct (str_of_nat_digits n) as (d & Hd & Hnil & Hval).
  unfold strip, strip_blank, py_int.
  rewrite (strip_by_id isspace (str_of_nat n)), (strip_by_id is_blank (str_of_nat n)),
    (strip_by_id c_isspace (str_of_nat n));
    try (eapply Forall_decimal_class; [|done]; intros c Hc; by apply isdecimal_classes).
  destruct (str_of_nat n) as [|c t] eqn:Hs; [done|].
  pose proof (Forall_inv Hdec) as Hc. simpl in Hc.
  destruct (isdecimal_classes c Hc) as (_ & _ & _ & _ & -> & ->).
  unfold uint_of_literal. rewrite digitpart_decimal by done.
  by rewrite Hd, uint_of_digits_of_uint, Hval.
Qed.

(** ** The fields of an atom line *)

Lemma is_token_true (t : str) : is_token t = true -> token t.
Proof.
  unfold is_token, token. intros [Hne Hall]%andb_true_iff. split.
  - by destruct t.
  - apply Forall_forall. intros c Hc%list_elem_of_In.
    rewrite forallb_forall in Hall. by apply negb_true_iff, Hall.
Qed.

Lemma blanks_isspace (n : nat) : Forall (fun c => isspace c = true) (blanks n).
Proof. unfold blanks. induction n; simpl; constructor; done. Qed.

Lemma blanks_add (n m : nat) : blanks (n + m) = blanks n ++ blanks m.
Proof. apply replicate_add. Qed.

Lemma token_not_blank (t : str) :
  token t -> Forall (fun c => Ascii.eqb c " "%char = false) t.
Proof.
  intros [_ Ht]. induction Ht as [|c t Hc _ IH]; constructor; [|done].
  destruct (Ascii.eqb_spec c " "%char) as [->|]; done.
Qed.

Lemma strip_by_between (p : ascii -> bool) (pre post t1 mid t2 : str) :
  Forall (fun c => p c = true) pre ->
  Forall (fun c => p c = true) post ->
  t1 <> [] -> Forall (fun c => p c = false) t1 ->
  t2 <> [] -> Forall (fun c => p c = false) t2 ->
  strip_by p (pre ++ (t1 ++ mid ++ t2) ++ post) = t1 ++ mid ++ t2.
Proof.
  intros Hpre Hpost Hne1 Ht1 Hne2 Ht2.
  destruct t1 as [|a t1]; [done|].
  assert (exists t2' b, t2 = t2' ++ [b]) as (t2' & b & ->).
  { destruct (str_ends t2 Hne2) as [[b ->]|(b0 & m & b & ->)].
    - by exists [], b.
    - by exists (b0 :: m), b. }
  replace ((a :: t1) ++ mid ++ t2' ++ [b]) with (a :: (t1 ++ mid ++ t2') ++ [b])
    by (simpl; by rewrite <- !app_assoc).
  apply strip_by_core; [done..|by inversion Ht1|].
  apply Forall_app in Ht2 as [_ Ht2]. by inversion Ht2.
Qed.

Lemma strip_spaced (a0 : nat) (t1 : str) (a1 : nat) (t2 : str) (a2 : nat)
      (t3 : str) (a3 : nat) (t4 : str) (a4 : nat) :
  token t1 -> token t4 ->
  strip (spaced a0 t1 a1 t2 a2 t3 a3 t4 a4)
  = t1 ++ (blanks (S a1) ++ t2 ++ blanks (S a2) ++ t3 ++ blanks (S a3)) ++ t4.
Proof.
  intros [Hne1 Ht1] [Hne4 Ht4]. unfold strip, spaced.
  replace (blanks a0 ++ t1 ++ blanks (S a1) ++ t2 ++ blanks (S a2) ++ t3
           ++ blanks (S a3) ++ t4 ++ blanks a4)
    with (blanks a0
          ++ (t1 ++ (blanks (S a1) ++ t2 ++ blanks (S a2) ++ t3 ++ blanks (S a3)) ++ t4)
          ++ blanks a4)
    by (by rewrite <- !app_assoc).
  apply strip_by_between; done || apply blanks_isspace.
Qed.

Lemma split_on_field (t rest : str) :
  Forall (fun c => Ascii.eqb c " "%char = false) t ->
  split_on " "%char (t ++ " "%char :: rest) = t :: split_on " "%char rest.
Proof.
  induction 1 as [|c t Hc _ IH]; simpl; [done|]. by rewrite Hc, IH.
Qed.

Lemma split_on_last_field (t : str) :
  Forall (fun c => Ascii.eqb c " "%char = false) t ->
  split_on " "%char t = [t].
Proof.
  induction 1 as [|c t Hc _ IH]; simpl; [done|]. by rewrite Hc, IH.
Qed.

Lemma fields_blanks (n : nat) (rest : str) :
  List.filter nonempty (split_on " "%char (blanks n ++ rest))
  = List.filter nonempty (split_on " "%char rest).
Proof. induction n as [|n IH]; simpl; done. Qed.

Lemma fields_field (t : str) (n : nat) (rest : str) :
  token t ->
  List.filter nonempty (split_on " "%char (t ++ blanks (S n) ++ rest))
  = t :: List.filter nonempty (split_on " "%char rest).
Proof.
  intros Ht. pose proof (token_not_blank t Ht) as Hb. destruct Ht as [Hne _].
  change (blanks (S n) ++ rest) with (" "%char :: blanks n ++ rest).
  rewrite split_on_field by done. simpl.
  destruct t; [done|]. simpl. by rewrite fields_blanks.
Qed.

Lemma line_fields_spaced (a0 : nat) (t1 : str) (a1 : nat) (t2 : str) (a2 : nat)
      (t3 : str) (a3 : nat) (t4 : str) (a4 : nat) :
  token t1 -> token t2 -> token t3 -> token t4 ->
  line_fields (spaced a0 t1 a1 t2 a2 t3 a3 t4 a4) = [t1; t2; t3; t4].
Proof.
  intros H1 H2 H3 H4. unfold line_fields. rewrite strip_spaced by done.
  rewrite <- !app_assoc.
  rewrite !fields_field by done.
  rewrite split_on_last_field by (by apply token_not_blank).
  destruct H4 as [Hne _]. simpl. by destruct t4.
Qed.

Lemma isdigit_spaced (a0 : nat) (t1 : str) (a1 : nat) (t2 : str) (a2 : nat)
      (t3 : str) (a3 : nat) (t4 : str) (a4 : nat) :
  token t1 -> token t4 ->
  isdigit (strip (spaced a0 t1 a1 t2 a2 t3 a3 t4 a4)) = false.
Proof.
  intros H1 H4. rewrite strip_spaced by done.
  unfold isdigit. destruct H1 as [Hne _]. destruct t1 as [|c t1]; [done|].
  change ((c :: t1) ++ (blanks (S a1) ++ t2 ++ blanks (S a2) ++ t3 ++ blanks (S a3)) ++ t4)
    with (c :: t1 ++ " "%char :: (blanks a1 ++ t2 ++ blanks (S a2) ++ t3 ++ blanks (S a3)) ++ t4).
  change (c :: t1 ++ " "%char :: (blanks a1 ++ t2 ++ blanks (S a2) ++ t3 ++ blanks (S a3)) ++ t4)
    with ((c :: t1) ++ " "%char :: (blanks a1 ++ t2 ++ blanks (S a2) ++ t3 ++ blanks (S a3)) ++ t4)
    at 2.
  rewrite forallb_app. simpl forallb at 2. apply andb_false_r.
Qed.

Lemma atom_line_left_spaced (a : Atom) :
  atom_line_left a
  = spaced 2 (element a) 0
      (format_6f (coord a).1.1) (11 - length (format_6f (coord a).1.1) + 3)
      (format_6f (coord a).1.2) (11 - length (format_6f (coord a).1.2) + 3)
      (format_6f (coord a).2) (11 - length (format_6f (coord a).2) + 1).
Proof.
  unfold atom_line_left, spaced, ljust. destruct (coord a) as [[x y] z]. simpl fst. simpl snd.
  rewrite <- !app_assoc. do 3 f_equal.
  replace (S (11 - length (format_6f x) + 3)) with (11 - length (format_6f x) + 4)%nat by lia.
  replace (S (11 - length (format_6f y) + 3)) with (11 - length (format_6f y) + 4)%nat by lia.
  rewrite !blanks_add, <- !app_assoc. done.
Qed.

Lemma atom_line_right_spaced (a : Atom) :
  atom_line_right a
  = spaced 2 (element a) (11 - length (format_6f (coord a).1.1))
      (format_6f (coord a).1.1) (3 + (11 - length (format_6f (coord a).1.2)))
      (format_6f (coord a).1.2) (3 + (11 - length (format_6f (coord a).2)))
      (format_6f (coord a).2) 1.
Proof.
  unfold atom_line_right, spaced, rjust. destruct (coord a) as [[x y] z]. simpl fst. simpl snd.
  rewrite <- !app_assoc. reflexivity.
Qed.

(** A line of four fields whose numbers [float] reads gives the atom. *)
Lemma parse_atom_line_spaced (a a' : Atom) (a0 a1 a2 a3 a4 : nat) :
  atom_reread a a' ->
  parse_atom_line
    (spaced a0 (element a) a1 (format_6f (coord a).1.1) a2
            (format_6f (coord a).1.2) a3 (format_6f (coord a).2) a4)
  = Ok a'.
Proof.
  intros (Hel & Heq & (Htx & Hx & Hnx) & (Hty & Hy & Hny) & (Htz & Hz & Hnz)).
  unfold parse_atom_line. cbv zeta. rewrite line_fields_spaced by done.
  rewrite (py_index_nat _ 1), (py_index_nat _ 2), (py_index_nat _ 3).
  cbn [lookup list_lookup bind_result]. unfold py_float.
  rewrite Hx, Hy, Hz. cbn [bind_result]. rewrite Hnx, Hny, Hnz.
  cbn [orb]. rewrite (py_index_nat _ 0). cbn [lookup list_lookup bind_result].
  destruct a' as [el' [[x' y'] z']]. simpl in *. by subst.
Qed.

Lemma parse_atom_lines (g : Atom -> str) (m m' : AtomArray) :
  (forall a a', atom_reread a a' -> parse_atom_line (g a) = Ok a') ->
  Forall2 atom_reread m m' ->
  map_result parse_atom_line (map g m) = Ok m'.
Proof.
  intros Hg Hm. apply map_result_ok. apply Forall2_fmap_l.
  eapply Forall2_impl; [done|]. done.
Qed.

(** ** Reading back what [set_structure] wrote *)

Lemma map_result_lookup {A B} (f : A -> result B) (l : list A) (ys : list B) :
  length l = length ys ->
  (forall i x y, l !! i = Some x -> ys !! i = Some y -> f x = Ok y) ->
  map_result f l = Ok ys.
Proof.
  intros Hlen Hf. apply map_result_ok. by apply Forall2_same_length_lookup_2.
Qed.

(** A file whose headers and structures have not been read yet. *)
Lemma get_structure_fresh (f : XYZFile) (model : option Z)
      (ns : list Z) (names : list str) (s : AtomArrayStack) :
  _atom_numbers f = None -> _mol_names f = None -> _structures f = None ->
  (2 < length (lines f))%nat ->
  read_atom_numbers (lines f) (start_lines (lines f)) = Ok ns ->
  read_mol_names (lines f) (start_lines (lines f)) = Ok names ->
  length names = length ns ->
  parse_structures (lines f) ns (start_lines (lines f)) = Ok s ->
  (get_structure model f).2 = select_model s model.
Proof.
  intros Han Hmn Hst Hlt Hns Hnames Hlen Hparse.
  assert (header_read f ns names) as Hread.
  { unfold header_read. by rewrite Han, Hmn. }
  pose proof (get_header_read f ns names None Hread) as Hh.
  assert (exists h, header_value ns names None = Ok h) as [h Hv].
  { unfold header_value. destruct (length ns =? 1)%nat eqn:Hone; [|by eauto].
    apply Nat.eqb_eq in Hone. destruct ns as [|n0 [|? ?]]; try done.
    destruct names as [|name0 [|? ?]]; try done. by eexists. }
  rewrite Hv in Hh. rewrite (get_structure_run _ _ _ _ Hlt Hh), Hst.
  replace (current_atom_numbers (with_headers f ns names)) with ns by done.
  by rewrite Hparse.
Qed.

Lemma py_slice_take_drop {A} (l : list A) (a n : nat) :
  (a + n <= length l)%nat ->
  py_slice l (Z.of_nat a) (Z.of_nat a + Z.of_nat n) = take n (drop a l).
Proof.
  intros Hle. unfold py_slice. cbv zeta.
  replace (Z.of_nat a <? 0) with false by (symmetry; apply Z.ltb_ge; lia).
  replace (Z.of_nat a + Z.of_nat n <? 0) with false by (symmetry; apply Z.ltb_ge; lia).
  rewrite !Z.min_l by lia.
  replace (Z.of_nat a + Z.of_nat n - Z.of_nat a) with (Z.of_nat n) by lia.
  by rewrite !Nat2Z.id.
Qed.

(** The model found where its block was written. *)
Lemma parse_model_block (ls : list str) (ns : list Z) (i ind : nat)
      (c name : str) (m m' : AtomArray) (g : Atom -> str) (rest : list str) :
  ns !! i = Some (Z.of_nat (length m)) ->
  drop ind ls = (c :: name :: map g m) ++ rest ->
  (forall a a', atom_reread a a' -> parse_atom_line (g a) = Ok a') ->
  Forall2 atom_reread m m' ->
  parse_model ls ns i ind = Ok m'.
Proof.
  intros Hn Hdrop Hg Hm.
  assert (ind + (2 + length m) <= length ls)%nat as Hle.
  { apply (f_equal length) in Hdrop.
    rewrite length_drop, length_app in Hdrop. simpl in Hdrop.
    rewrite length_map in Hdrop. lia. }
  pose proof (index_max_bounds ls) as [_ Hmax].
  rewrite (parse_model_run _ _ _ _ _ Hn) by lia. cbv zeta.
  replace (Z.of_nat ind + 2 + Z.of_nat (length m))
    with (Z.of_nat ind + Z.of_nat (2 + length m)) by lia.
  rewrite py_slice_take_drop by done. rewrite Hdrop.
  rewrite take_app_length' by (simpl; by rewrite length_map).
  cbn [length]. rewrite length_map.
  replace (Z.of_nat (length m) + 2 =? Z.of_nat (S (S (length m)))) with true
    by (symmetry; apply Z.eqb_eq; lia).
  cbn [drop]. by apply parse_atom_lines.
Qed.

Lemma atom_line_left_parse (a a' : Atom) :
  atom_reread a a' -> parse_atom_line (atom_line_left a) = Ok a'.
Proof. intros Ha. rewrite atom_line_left_spaced. by apply parse_atom_line_spaced. Qed.

Lemma atom_line_right_parse (a a' : Atom) :
  atom_reread a a' -> parse_atom_line (atom_line_right a) = Ok a'.
Proof. intros Ha. rewrite atom_line_right_spaced. by apply parse_atom_line_spaced. Qed.

Lemma atom_line_left_not_numeric (a a' : Atom) :
  atom_reread a a' -> isdigit (strip (atom_line_left a)) = false.
Proof.
  intros (Hel & _ & _ & _ & (Htz & _)).
  rewrite atom_line_left_spaced. by apply isdigit_spaced.
Qed.

Lemma atom_line_right_not_numeric (a a' : Atom) :
  atom_reread a a' -> isdigit (strip (atom_line_right a)) = false.
Proof.
  intros (Hel & _ & _ & _ & (Htz & _)).
  rewrite atom_line_right_spaced. by apply isdigit_spaced.
Qed.

Lemma atom_reread_element (m m' : AtomArray) :
  Forall2 atom_reread m m' -> map element m' = map element m.
Proof.
  induction 1 as [|a a' m m' (_ & Heq & _) _ IH]; simpl; [done|]. by rewrite Heq, IH.
Qed.

Lemma stack_same_elements (elements : list str) (ms : AtomArrayStack) :
  ms <> [] ->
  Forall (fun m => map element m = elements) ms ->
  stack ms = Ok ms.
Proof.
  intros Hne Hms. unfold stack. destruct ms as [|m0 ms]; [done|].
  replace (forallb _ (m0 :: ms)) with true; [done|].
  symmetry. apply forallb_forall. intros m Hin. apply bool_decide_eq_true.
  rewrite Forall_forall in Hms.
  rewrite (Hms m) by (by apply list_elem_of_In).
  by rewrite (Hms m0) by (by left).
Qed.

(** *** A single model *)

Lemma atom_lines_not_numeric (g : Atom -> str) (m m' : AtomArray) :
  (forall a a', atom_reread a a' -> isdigit (strip (g a)) = false) ->
  Forall2 atom_reread m m' ->
  Forall (fun l => isdigit (strip l) = false) (map g m).
Proof.
  intros Hg. induction 1 as [|a a' m m' Ha _ IH]; simpl; constructor; [|done].
  by eapply Hg.
Qed.

(** *** A single model *)

Lemma roundtrip_single (a a' : AtomArray) :
  a <> [] ->
  Forall2 atom_reread a a' ->
  (get_structure None (set_structure (Single a) init).1).2 = Ok (Single a').
Proof.
  intros Hne Ha. rewrite set_structure_single_run. cbn [fst].
  set (ls := str_of_nat (length a) :: default_mol_name :: map atom_line_left a).
  assert (start_lines ls = [0%nat]) as Hstart.
  { rewrite start_lines_purge. unfold numeric_lines, ls. cbn [indices_where].
    rewrite <- (app_nil_l (str_of_nat (length a))) at 1.
    rewrite isdigit_str_of_nat by done.
    replace (isdigit (strip default_mol_name)) with false by (by vm_compute).
    rewrite indices_where_none; [done|].
    eapply atom_lines_not_numeric; [|done]. apply atom_line_left_not_numeric. }
  rewrite (get_structure_fresh (with_lines init ls) None
             [Z.of_nat (length a)] [strip default_mol_name] [a']); try done.
  - change (lines (with_lines init ls)) with ls. unfold ls. cbn [length].
    rewrite length_map. destruct a; [done|simpl; lia].
  - change (lines (with_lines init ls)) with ls.
    rewrite Hstart. unfold read_atom_numbers. cbn [map_result].
    rewrite (py_index_nat _ 0). unfold ls at 1. cbn [lookup list_lookup bind_result].
    by rewrite py_int_str_of_nat.
  - change (lines (with_lines init ls)) with ls.
    rewrite Hstart. unfold read_mol_names. cbn [map_result].
    rewrite (py_index_nat _ 1). done.
  - change (lines (with_lines init ls)) with ls.
    rewrite Hstart. unfold parse_structures, enumerate.
    cbn [enumerate_from map_result].
    rewrite (parse_model_block ls _ 0 0 (str_of_nat (length a)) default_mol_name
               a a' atom_line_left []); try done.
    + cbn [bind_result]. apply (stack_same_elements (map element a')); [done|].
      by constructor.
    + unfold ls. by rewrite app_nil_r.
    + apply atom_line_left_parse.
Qed.

(** *** A stack of models *)

Lemma pairs_purge_from (w : nat) (k i0 prev : nat) :
  (3 <= w)%nat ->
  (i0 * w)%nat <> S prev ->
  purge_from prev (flat_map (fun i => [(i * w)%nat; (i * w + 1)%nat]) (seq i0 k))
  = map (fun i => (i * w)%nat) (seq i0 k).
Proof.
  intros Hw. revert i0 prev. induction k as [|k IH]; intros i0 prev Hprev; [done|].
  cbn [seq flat_map app purge_from map].
  replace (i0 * w =? S prev)%nat with false by (symmetry; apply Nat.eqb_neq; lia).
  replace (i0 * w + 1 =? S (i0 * w))%nat with true by (symmetry; apply Nat.eqb_eq; lia).
  f_equal. apply IH. lia.
Qed.

Lemma pairs_purge (w k : nat) :
  (3 <= w)%nat ->
  purge (flat_map (fun i => [(i * w)%nat; (i * w + 1)%nat]) (seq 0 k))
  = map (fun i => (i * w)%nat) (seq 0 k).
Proof.
  intros Hw. destruct k as [|k]; [done|].
  cbn [seq flat_map app purge purge_from map].
  replace (0 * w + 1 =? S (0 * w))%nat with true by (symmetry; apply Nat.eqb_eq; lia).
  f_equal. apply pairs_purge_from; [done|lia].
Qed.

Lemma numeric_lines_blocks (n i0 : nat) (ms ms' : AtomArrayStack) :
  Forall (fun m => length m = n) ms ->
  Forall2 (Forall2 atom_reread) ms ms' ->
  indices_where (fun l => isdigit (strip l)) (i0 * (n + 2))
    (concat (map (fun '(i, m) => stack_block n i m) (enumerate_from i0 ms)))
  = flat_map (fun i => [(i * (n + 2))%nat; (i * (n + 2) + 1)%nat]) (seq i0 (length ms)).
Proof.
  intros Hlen Hms. revert i0 Hlen.
  induction Hms as [|m m' ms ms' Hm _ IH]; intros i0 Hlen; [done|].
  apply Forall_cons in Hlen as [Hn Hlen].
  cbn [enumerate_from map length seq flat_map]. rewrite concat_cons.
  rewrite indices_where_app. unfold stack_block at 1. cbn [indices_where].
  rewrite <- (app_nil_l (str_of_nat n)) at 1.
  rewrite isdigit_str_of_nat by done.
  rewrite (isdigit_str_of_nat (txt " ")) by (by repeat constructor).
  rewrite indices_where_none
    by (eapply atom_lines_not_numeric; [|done]; apply atom_line_right_not_numeric).
  replace (i0 * (n + 2) + length (stack_block n i0 m))%nat with (S i0 * (n + 2))%nat
    by (unfold stack_block; simpl; rewrite length_map; lia).
  rewrite IH by done.
  by replace (S (i0 * (n + 2))) with (i0 * (n + 2) + 1)%nat by lia.
Qed.

(** Where the block of a model starts in the lines of a stack. *)
Lemma blocks_drop (n i0 i : nat) (ms : AtomArrayStack) (m : AtomArray) (tl : list str) :
  Forall (fun m => length m = n) ms ->
  ms !! i = Some m ->
  exists rest,
    drop (i * (n + 2))
         (concat (map (fun '(i, m) => stack_block n i m) (enumerate_from i0 ms)) ++ tl)
    = stack_block n (i0 + i) m ++ rest.
Proof.
  intros Hlen. revert i0 i. induction Hlen as [|m0 ms Hm0 _ IH]; intros i0 i Hi; [done|].
  cbn [enumerate_from map]. rewrite concat_cons, <- app_assoc.
  destruct i as [|i]; simpl in Hi.
  - simplify_eq. rewrite Nat.add_0_r. by eexists.
  - destruct (IH (S i0) i Hi) as [rest Hrest]. exists rest.
    replace (S i * (n + 2))%nat with (length (stack_block n i0 m0) + i * (n + 2))%nat
      by (unfold stack_block; simpl; rewrite length_map; lia).
    rewrite drop_app_add, Hrest. f_equal. f_equal. lia.
Qed.

Lemma reread_same_elements (elements : list str) (ms ms' : AtomArrayStack) :
  Forall (fun m => map element m = elements) ms ->
  Forall2 (Forall2 atom_reread) ms ms' ->
  Forall (fun m => map element m = elements) ms'.
Proof.
  intros Hms Hre. induction Hre as [|m m' ms ms' Hm _ IH]; [done|].
  apply Forall_cons in Hms as [Hm0 Hms]. constructor; [|by apply IH].
  by rewrite (atom_reread_element _ _ Hm).
Qed.

Lemma roundtrip_stack (elements : list str) (ms ms' : AtomArrayStack) :
  ms <> [] -> elements <> [] ->
  Forall (fun m => map element m = elements) ms ->
  Forall2 (Forall2 atom_reread) ms ms' ->
  (get_structure None (set_structure (Stack ms) init).1).2
  = Ok (match ms' with [m'] => Single m' | _ => Stack ms' end).
Proof.
  intros Hne Hel Hms Hre.
  set (n := length elements). set (k := length ms).
  assert (Forall (fun m => length m = n) ms) as Hlen.
  { eapply Forall_impl; [exact Hms|]. intros m <-. unfold n. by rewrite length_map. }
  assert (1 <= n)%nat as Hn by (subst n; destruct elements; [done|simpl; lia]).
  assert (length ms' = k) as Hk' by (symmetry; by eapply Forall2_length).
  destruct ms as [|m0 ms]; [done|].
  rewrite (set_structure_stack_run _ _ _ Hlen). cbn [fst].
  set (ls := stack_blocks n (m0 :: ms) ++ [[]; []]).
  set (inds := map (fun i => (i * (n + 2))%nat) (seq 0 k)).
  assert (start_lines ls = inds) as Hstart.
  { rewrite start_lines_purge. unfold numeric_lines, ls, stack_blocks, enumerate.
    rewrite indices_where_app.
    pose proof (numeric_lines_blocks n 0 (m0 :: ms) ms' Hlen Hre) as Hnb.
    change (0 * (n + 2))%nat with 0%nat in Hnb at 1. rewrite Hnb.
    replace (indices_where _ _ [[]; []]) with (@nil nat) by done.
    rewrite app_nil_r. apply pairs_purge. lia. }
  assert (forall i m, (m0 :: ms) !! i = Some m ->
            exists rest, drop (i * (n + 2)) ls = stack_block n i m ++ rest) as Hblock.
  { intros i m Hi. unfold ls, stack_blocks, enumerate.
    by apply (blocks_drop n 0 i (m0 :: ms) m). }
  assert (forall i x, inds !! i = Some x -> x = (i * (n + 2))%nat /\ (i < k)%nat) as Hinds.
  { intros i x. unfold inds. rewrite list_lookup_fmap.
    destruct (seq 0 k !! i) as [j|] eqn:Hj; [|done].
    apply lookup_seq in Hj as [-> Hlt]. simpl. intros; by simplify_eq. }
  assert (length inds = k) as Hindsk by (unfold inds; by rewrite length_map, length_seq).
  rewrite (get_structure_fresh (with_lines init ls) None
             (replicate k (Z.of_nat n)) (map str_of_nat (seq 0 k)) ms'); try done.
  - unfold select_model.
    destruct ms' as [|m0' [|m1' ms']]; [by destruct k|done|done].
  - cbn [lines with_lines]. unfold ls. rewrite length_app.
    unfold stack_blocks, enumerate. rewrite (stack_blocks_from_length n 0) by done.
    simpl. lia.
  - cbn [lines with_lines]. rewrite Hstart. unfold read_atom_numbers.
    apply map_result_lookup; [by rewrite length_replicate|].
    intros i x y [-> Hlt]%Hinds [-> _]%lookup_replicate.
    destruct (lookup_lt_is_Some_2 (m0 :: ms) i Hlt) as [m Hm].
    destruct (Hblock i m Hm) as [rest Hrest].
    rewrite py_index_nat.
    replace (ls !! (i * (n + 2))%nat) with (Some (str_of_nat n)).
    + cbn [bind_result]. apply py_int_str_of_nat.
    + rewrite <- (Nat.add_0_r (i * (n + 2))), <- lookup_drop, Hrest. done.
  - cbn [lines with_lines]. rewrite Hstart. unfold read_mol_names.
    apply map_result_lookup; [by rewrite length_map, length_seq|].
    intros i x y [-> Hlt]%Hinds. rewrite list_lookup_fmap.
    rewrite lookup_seq_lt by done. simpl. intros; simplify_eq.
    destruct (lookup_lt_is_Some_2 (m0 :: ms) i Hlt) as [m Hm].
    destruct (Hblock i m Hm) as [rest Hrest].
    rewrite py_index_nat.
    replace (ls !! (i * (n + 2) + 1)%nat) with (Some (txt " " ++ str_of_nat i)).
    + cbn [bind_result]. f_equal. unfold strip.
      destruct (str_of_nat_decimal i) as [Hne' Hdec].
      rewrite <- (app_nil_r (str_of_nat i)) at 1.
      apply strip_by_token; [by repeat constructor|done|done|].
      eapply Forall_decimal_class; [|done]. intros c Hc. by apply isdecimal_classes.
    + rewrite <- lookup_drop, Hrest. done.
  - by rewrite length_map, length_seq, length_replicate.
  - cbn [lines with_lines]. rewrite Hstart. unfold parse_structures.
    rewrite (map_result_lookup _ _ ms').
    + cbn [bind_result]. apply (stack_same_elements elements).
      * intros ->. unfold k in Hk'. simpl in Hk'. lia.
      * by eapply reread_same_elements.
    + unfold enumerate. by rewrite enumerate_from_length, Hindsk.
    + intros i [j ind] m'. unfold enumerate. rewrite enumerate_from_lookup.
      destruct (inds !! i) as [x|] eqn:Hx; [|done]. simpl. intros Heq Hm'.
      injection Heq as <- <-. apply Hinds in Hx as [-> Hlt].
      destruct (Forall2_lookup_r _ _ _ _ _ Hre Hm') as (m & Hm & Hmm').
      destruct (Hblock i m Hm) as [rest Hrest].
      assert (length m = n) as Hmn.
      { rewrite Forall_forall in Hlen. apply Hlen. by eapply list_elem_of_lookup_2. }
      apply (parse_model_block ls _ i _ (str_of_nat n) (txt " " ++ str_of_nat i)
               m m' atom_line_right rest); [|done|apply atom_line_right_parse|done].
      rewrite Hmn. exact (lookup_replicate_2 k (Z.of_nat n) i Hlt).
Qed.

(** The round trip over any numbers: a structure with at least one atom,
    whose element labels are single fields and whose coordinates come
    back as numbers from their text with six decimals, is written into a
    fresh file and read back with the same models, the same number of
    atoms, the same element labels in the same order, and each coordinate
    as [float] reads the text [format] gave it.  A stack of one model
    comes back as that model. *)
Lemma roundtrip_reread (s s' : structure) :
  structure_reread s s' ->
  (set_structure s init).2 = Ok tt
  /\ (get_structure None (set_structure s init).1).2 = Ok s'
  /\ Forall2 (Forall2 atom_reread) (models_of s) (models_of s')
  /\ map (map element) (models_of s') = map (map element) (models_of s).
Proof.
  assert (forall ms ms' : AtomArrayStack,
             Forall2 (Forall2 atom_reread) ms ms' ->
             map (map element) ms' = map (map element) ms) as Hel.
  { induction 1 as [|m m' ms ms' Hm _ IH]; simpl; [done|].
    by rewrite IH, (atom_reread_element _ _ Hm). }
  destruct s as [a|ms]; unfold structure_reread; cbn [models_of].
  - intros (Hne & a' & Ha & ->). cbn [models_of]. split_and!.
    + by rewrite set_structure_single_run.
    + by apply roundtrip_single.
    + by repeat constructor.
    + simpl. by rewrite (atom_reread_element _ _ Ha).
  - intros (elements & ms' & Hne & Hel' & Hms & Hre & ->).
    assert (Forall (fun m => length m = length elements) ms) as Hlen.
    { eapply Forall_impl; [exact Hms|]. intros m <-. by rewrite length_map. }
    split_and!.
    + destruct ms as [|m0 ms]; [done|]. by rewrite (set_structure_stack_run _ _ _ Hlen).
    + by apply (roundtrip_stack elements).
    + destruct ms' as [|m0' [|m1' ms']]; [by inversion Hre; subst|done..].
    + destruct ms' as [|m0' [|m1' ms']]; [by inversion Hre; subst| |]; by apply Hel.
Qed.

(** * Further properties *)

(** ** Where models start *)

Lemma purge_from_boundaries (prev k : nat) (ls : list str) :
  (prev < k)%nat ->
  purge_from prev (indices_where (fun l => isdigit (strip l)) k ls)
  = boundaries (k =? S prev)%nat k ls.
Proof.
  revert prev k. induction ls as [|l ls IH]; intros prev k Hlt; [done|].
  cbn [indices_where boundaries]. destruct (isdigit (strip l)) eqn:Hd.
  - cbn [purge_from]. rewrite (IH k (S k)) by lia. rewrite Nat.eqb_refl.
    by destruct (k =? S prev)%nat.
  - rewrite (IH prev (S k)) by lia.
    by replace (S k =? S prev)%nat with false by (symmetry; apply Nat.eqb_neq; lia).
Qed.

Lemma purge_boundaries (k : nat) (ls : list str) :
  purge (indices_where (fun l => isdigit (strip l)) k ls) = boundaries false k ls.
Proof.
  revert k. induction ls as [|l ls IH]; intros k; [done|].
  cbn [indices_where boundaries]. destruct (isdigit (strip l)) eqn:Hd.
  - cbn [purge andb negb]. rewrite (purge_from_boundaries k (S k)) by lia.
    by rewrite Nat.eqb_refl.
  - apply IH.
Qed.

Lemma start_lines_boundaries (ls : list str) :
  start_lines ls = boundaries false 0 ls.
Proof. rewrite start_lines_purge. apply purge_boundaries. Qed.

Lemma elem_of_boundaries (above : bool) (k : nat) (ls : list str) (i : nat) :
  i ∈ boundaries above k ls
  <-> (k <= i)%nat
      /\ (exists l, ls !! (i - k)%nat = Some l /\ isdigit (strip l) = true)
      /\ (i = k -> above = false)
      /\ (forall j l', i = S j -> (k <= j)%nat -> ls !! (j - k)%nat = Some l' ->
                       isdigit (strip l') = false).
Proof.
  revert above k. induction ls as [|l ls IH]; intros above k.
  - simpl. split; [by intros ?%elem_of_nil|]. by intros (_ & (l & Hl & _) & _).
  - cbn [boundaries].
    assert (i ∈ boundaries (isdigit (strip l)) (S k) ls
            <-> (S k <= i)%nat
                /\ (exists l0, (l :: ls) !! (i - k)%nat = Some l0 /\ isdigit (strip l0) = true)
                /\ (forall j l', i = S j -> (k <= j)%nat -> (l :: ls) !! (j - k)%nat = Some l' ->
                                 isdigit (strip l') = false)) as Htail.
    { rewrite IH. split.
      - intros (Hle & (l0 & Hl0 & Hd0) & Hfirst & Hprev). split_and!; [done| |].
        + exists l0. split; [|done].
          replace (i - k)%nat with (S (i - S k)) by lia. done.
        + intros j l' -> Hkj. destruct (decide (j = k)) as [->|Hne].
          * rewrite Nat.sub_diag. simpl. intros; simplify_eq. by apply Hfirst.
          * replace (j - k)%nat with (S (j - S k)) by lia. simpl.
            apply (Hprev j l'); [done|lia].
      - intros (Hle & (l0 & Hl0 & Hd0) & Hprev). split_and!; [done| | |].
        + exists l0. split; [|done].
          replace (i - k)%nat with (S (i - S k)) in Hl0 by lia. done.
        + intros ->. apply (Hprev k l); [done|lia|]. by rewrite Nat.sub_diag.
        + intros j l' -> Hkj Hl'. apply (Hprev j l'); [done|lia|].
          replace (j - k)%nat with (S (j - S k)) by lia. done. }
    destruct (isdigit (strip l) && negb above) eqn:Hhead.
    + rewrite elem_of_cons, Htail. apply andb_true_iff in Hhead as [Hd Habove].
      apply negb_true_iff in Habove. split.
      * intros [->|(Hle & Hl0 & Hprev)].
        -- split_and!; [lia| |done|lia]. exists l. by rewrite Nat.sub_diag.
        -- split_and!; [lia|done|lia|done].
      * intros (Hle & Hl0 & Hfirst & Hprev).
        destruct (decide (i = k)) as [->|Hne]; [by left|right].
        split_and!; [lia|done|done].
    + rewrite Htail. split.
      * intros (Hle & Hl0 & Hprev). split_and!; [lia|done|lia|done].
      * intros (Hle & (l0 & Hl0 & Hd0) & Hfirst & Hprev).
        destruct (decide (i = k)) as [->|Hne].
        -- rewrite Nat.sub_diag in Hl0. simpl in Hl0. simplify_eq.
           rewrite Hd0, (Hfirst eq_refl) in Hhead. done.
        -- split_and!; [lia|by eauto|done].
Qed.

(** X1: a line starts a model exactly when it is numeric and the line
    above it, if there is one, is not. *)
Theorem start_lines_spec (ls : list str) (i : nat) :
  i ∈ start_lines ls
  <-> (exists l, ls !! i = Some l /\ isdigit (strip l) = true)
      /\ (forall j l', i = S j -> ls !! j = Some l' -> isdigit (strip l') = false).
Proof.
  rewrite start_lines_boundaries, elem_of_boundaries. rewrite Nat.sub_0_r. split.
  - intros (_ & Hl & _ & Hprev). split; [done|].
    intros j l' -> Hl'. apply (Hprev j l'); [done|lia|]. by rewrite Nat.sub_0_r.
  - intros (Hl & Hprev). split_and!; [lia|done|done|].
    intros j l' -> _ Hl'. rewrite Nat.sub_0_r in Hl'. by apply (Hprev j l').
Qed.

Lemma boundaries_bounds (above : bool) (k : nat) (ls : list str) :
  Forall (fun i => (k + (if above then 1 else 0) <= i < k + length ls)%nat)
         (boundaries above k ls).
Proof.
  revert above k. induction ls as [|l ls IH]; intros above k; [constructor|].
  cbn [boundaries length].
  assert (Forall (fun i => (k + (if above then 1 else 0) <= i < k + S (length ls))%nat)
                 (boundaries (isdigit (strip l)) (S k) ls)) as Htail.
  { eapply Forall_impl; [apply IH|]. intros i Hi. simpl in Hi.
    destruct above, (isdigit (strip l)); lia. }
  destruct (isdigit (strip l) && negb above) eqn:Hhead; [|done].
  constructor; [|done].
  apply andb_true_iff in Hhead as [_ ->%negb_true_iff]. lia.
Qed.

Lemma boundaries_gap (above : bool) (k : nat) (ls : list str) (i j a b : nat) :
  (i < j)%nat ->
  boundaries above k ls !! i = Some a ->
  boundaries above k ls !! j = Some b ->
  (a + 2 <= b)%nat.
Proof.
  revert above k i j. induction ls as [|l ls IH]; intros above k i j Hij; [done|].
  cbn [boundaries]. destruct (isdigit (strip l) && negb above) eqn:Hhead.
  - apply andb_true_iff in Hhead as [Hd _]. rewrite Hd.
    destruct j as [|j]; [lia|]. destruct i as [|i]; simpl.
    + intros ? Hb; simplify_eq.
      pose proof (boundaries_bounds true (S a) ls) as Hall.
      rewrite Forall_forall in Hall. apply list_elem_of_lookup_2 in Hb.
      specialize (Hall b Hb). simpl in Hall. lia.
    + apply IH. lia.
  - by apply IH.
Qed.

(** X2: the model starts come in increasing order, two of them at least
    two lines apart, and all of them are lines of the buffer. *)
Theorem start_lines_increasing (ls : list str) :
  (forall i j a b, (i < j)%nat ->
     start_lines ls !! i = Some a -> start_lines ls !! j = Some b -> (a + 2 <= b)%nat)
  /\ Forall (fun a => (a < length ls)%nat) (start_lines ls).
Proof.
  rewrite start_lines_boundaries. split.
  - intros i j a b. apply boundaries_gap.
  - eapply Forall_impl; [apply boundaries_bounds|]. intros a Ha. simpl in Ha. lia.
Qed.

(** ** The lines that are not body lines *)

Lemma non_body_indices_blocks (k : nat) (blocks : list model_block) :
  Forall valid_block blocks ->
  indices_where (fun l => negb (is_body_line l)) k (concat (map block_lines blocks))
  = flat_map (fun o => [o; S o]) (block_offsets k blocks).
Proof.
  intros Hv. revert k. induction Hv as [|b blocks (Hc & Hn & Hb) _ IH]; intros k; [done|].
  cbn [map block_offsets flat_map]. rewrite concat_cons, indices_where_app.
  unfold block_lines at 1. cbn [indices_where]. rewrite Hc, Hn. cbn [negb].
  rewrite indices_where_none, IH; [done|].
  eapply Forall_impl; [exact Hb|]. intros l ->. done.
Qed.

Lemma flat_pairs_even (l : list nat) :
  map (fun i => flat_map (fun o => [o; S o]) l !!! (2 * i)%nat) (seq 0 (length l)) = l.
Proof.
  induction l as [|o l IH]; [done|].
  cbn [length seq map flat_map app]. f_equal.
  rewrite <- seq_shift, map_map. rewrite <- IH at 2.
  apply map_ext. intros i.
  by replace (2 * S i)%nat with (S (S (2 * i))) by lia.
Qed.

Lemma count_lines_at_offsets (pre : list str) (blocks : list model_block) :
  map (fun o => (pre ++ concat (map block_lines blocks)) !!! o)
      (block_offsets (length pre) blocks)
  = map count_line blocks.
Proof.
  revert pre. induction blocks as [|b blocks IH]; intros pre; [done|].
  cbn [map block_offsets]. rewrite concat_cons. f_equal.
  - apply list_lookup_total_correct. by apply list_lookup_middle.
  - rewrite app_assoc, <- length_app. apply IH.
Qed.

Lemma block_offsets_length (k : nat) (blocks : list model_block) :
  length (block_offsets k blocks) = length blocks.
Proof. revert k. induction blocks as [|b blocks IH]; intros k; simpl; [done|]. by rewrite IH. Qed.

(** X3: in a file of two or more models the atom counts that
    [__get_number_of_atoms] returns are the texts of the count lines, one
    for each model, as they stand in the buffer. *)
Theorem number_of_atoms_count_lines (f : XYZFile) (blocks : list model_block) :
  (2 <= length blocks)%nat ->
  Forall valid_block blocks ->
  lines f = concat (map block_lines blocks) ->
  __get_number_of_atoms f
  = (f, Ok (map (fun b => CountText (np_str (count_line b))) blocks)).
Proof.
  intros Hn Hv Hl. unfold __get_number_of_atoms. unfold_M. do 2 f_equal.
  unfold number_of_atoms. rewrite Hl, indices_where_map.
  change (fun x : str => negb (length (split_ws x) =? 4)%nat)
    with (fun l : str => negb (is_body_line l)).
  rewrite (non_body_indices_blocks 0 blocks Hv).
  assert (length (flat_map (fun o => [o; S o]) (block_offsets 0 blocks))
          = (2 * length blocks)%nat) as Hlen.
  { rewrite <- (block_offsets_length 0 blocks).
    induction (block_offsets 0 blocks) as [|o l IH]; simpl in *; lia. }
  rewrite Hlen.
  replace (2 * length blocks <=? 2)%nat with false by (symmetry; apply Nat.leb_gt; lia).
  replace (2 * length blocks / 2)%nat with (length (block_offsets 0 blocks))
    by (rewrite block_offsets_length, Nat.mul_comm, Nat.div_mul; lia).
  rewrite flat_pairs_even.
  rewrite <- (map_map (fun o => concat (map block_lines blocks) !!! o)
                      (fun l => CountText (np_str l))).
  pose proof (count_lines_at_offsets [] blocks) as Hc. cbn [app length] in Hc.
  rewrite Hc. by rewrite map_map.
Qed.

(** ** Lines split at white space *)

Lemma split_ws_from_token (t cur s : str) :
  Forall (fun c => isspace c = false) t ->
  split_ws_from cur (t ++ s) = split_ws_from (rev t ++ cur) s.
Proof.
  intros Ht. revert cur. induction Ht as [|c t Hc _ IH]; intros cur; [done|].
  simpl. rewrite Hc, IH. by rewrite <- app_assoc.
Qed.

Lemma split_ws_from_blanks (n : nat) (s : str) :
  split_ws_from [] (blanks n ++ s) = split_ws_from [] s.
Proof. induction n as [|n IH]; simpl; done. Qed.

Lemma split_ws_from_field (t : str) (n : nat) (s : str) :
  token t ->
  split_ws_from [] (t ++ blanks (S n) ++ s) = t :: split_ws_from [] s.
Proof.
  intros [Hne Ht]. rewrite split_ws_from_token by done. rewrite app_nil_r.
  change (blanks (S n) ++ s) with (" "%char :: blanks n ++ s).
  cbn [split_ws_from]. change (isspace " "%char) with true. cbv iota.
  destruct (rev t) as [|c r] eqn:Hr.
  - apply (f_equal (@rev ascii)) in Hr. rewrite rev_involutive in Hr. done.
  - rewrite <- Hr, rev_involutive, split_ws_from_blanks. done.
Qed.

Lemma split_ws_from_last (t : str) (n : nat) :
  token t -> split_ws_from [] (t ++ blanks n) = [t].
Proof.
  intros Ht. destruct n as [|n].
  - destruct Ht as [Hne Ht]. rewrite split_ws_from_token by done.
    simpl. rewrite app_nil_r.
    destruct (rev t) as [|c r] eqn:Hr.
    + apply (f_equal (@rev ascii)) in Hr. rewrite rev_involutive in Hr. done.
    + by rewrite <- Hr, rev_involutive.
  - rewrite <- (app_nil_r (blanks (S n))). by rewrite split_ws_from_field.
Qed.

Lemma split_ws_spaced (a0 : nat) (t1 : str) (a1 : nat) (t2 : str) (a2 : nat)
      (t3 : str) (a3 : nat) (t4 : str) (a4 : nat) :
  token t1 -> token t2 -> token t3 -> token t4 ->
  split_ws (spaced a0 t1 a1 t2 a2 t3 a3 t4 a4) = [t1; t2; t3; t4].
Proof.
  intros H1 H2 H3 H4. unfold split_ws, spaced.
  rewrite split_ws_from_blanks, !split_ws_from_field by done.
  by rewrite split_ws_from_last.
Qed.

Lemma str_of_nat_token (n : nat) : token (str_of_nat n).
Proof.
  destruct (str_of_nat_decimal n) as [Hne Hdec]. split; [done|].
  eapply Forall_decimal_class; [|done]. intros c Hc. by apply isdecimal_classes.
Qed.

Lemma is_body_line_one_field (pre t : str) :
  Forall (fun c => c = " "%char) pre -> token t -> is_body_line (pre ++ t) = false.
Proof.
  intros Hpre Ht. unfold is_body_line, split_ws.
  replace pre with (blanks (length pre)).
  - rewrite split_ws_from_blanks.
    pose proof (split_ws_from_last t 0 Ht) as Hl. unfold blanks in Hl.
    cbn [replicate] in Hl. rewrite app_nil_r in Hl. by rewrite Hl.
  - unfold blanks. induction Hpre as [|c pre -> _ IH]; simpl; [done|]. by rewrite IH.
Qed.

Lemma atom_line_left_body (a : Atom) : writable a -> is_body_line (atom_line_left a) = true.
Proof.
  intros (H0 & H1 & H2 & H3). unfold is_body_line.
  by rewrite atom_line_left_spaced, split_ws_spaced.
Qed.

Lemma atom_line_right_body (a : Atom) : writable a -> is_body_line (atom_line_right a) = true.
Proof.
  intros (H0 & H1 & H2 & H3). unfold is_body_line.
  by rewrite atom_line_right_spaced, split_ws_spaced.
Qed.

Lemma count_non_body_stack_blocks (n i0 : nat) (ms : AtomArrayStack) :
  Forall (Forall writable) ms ->
  count_non_body (concat (map (fun '(i, m) => stack_block n i m) (enumerate_from i0 ms)))
  = (2 * length ms)%nat.
Proof.
  intros Hms. revert i0. induction Hms as [|m ms Hm _ IH]; intros i0; [done|].
  cbn [enumerate_from map length]. rewrite concat_cons, count_non_body_app, IH.
  unfold stack_block.
  change (str_of_nat n :: (txt " " ++ str_of_nat i0) :: map atom_line_right m)
    with ([str_of_nat n; txt " " ++ str_of_nat i0] ++ map atom_line_right m).
  rewrite count_non_body_app, (count_non_body_body (map atom_line_right m)).
  - unfold count_non_body. cbn [List.filter].
    rewrite <- (app_nil_l (str_of_nat n)) at 1.
    rewrite (is_body_line_one_field [] (str_of_nat n)) by (done || apply str_of_nat_token).
    rewrite (is_body_line_one_field (txt " ") (str_of_nat i0))
      by (by repeat constructor || apply str_of_nat_token).
    simpl. lia.
  - apply Forall_map. eapply Forall_impl; [exact Hm|]. apply atom_line_right_body.
Qed.

(** X4: after a single model has been written into a fresh file, the
    model count is 1. *)
Theorem model_count_after_single (atoms : AtomArray) :
  Forall writable atoms ->
  (get_model_count (set_structure (Single atoms) init).1).2 = Ok 1%nat.
Proof.
  intros Ha. rewrite set_structure_single_run. cbn [fst].
  unfold get_model_count, __get_number_of_atoms. unfold_M. cbn [snd lines with_lines].
  rewrite number_of_atoms_single; [done|].
  change (str_of_nat (length atoms) :: default_mol_name :: map atom_line_left atoms)
    with ([str_of_nat (length atoms); default_mol_name] ++ map atom_line_left atoms).
  rewrite count_non_body_app, (count_non_body_body (map atom_line_left atoms)).
  - unfold count_non_body. simpl. repeat case_match; simpl; lia.
  - apply Forall_map. eapply Forall_impl; [exact Ha|]. apply atom_line_left_body.
Qed.

(** X5: after a stack of [k] models has been written into a fresh file,
    the model count is [k + 1]: the two empty lines that stay at the end
    of the buffer count as the header of one more model. *)
Theorem model_count_after_stack (ms : AtomArrayStack) (n : nat) :
  ms <> [] ->
  Forall (fun m => length m = n) ms ->
  Forall (Forall writable) ms ->
  (get_model_count (set_structure (Stack ms) init).1).2 = Ok (S (length ms)).
Proof.
  intros Hne Hlen Hw. destruct ms as [|m0 ms]; [done|].
  rewrite (set_structure_stack_run _ _ _ Hlen). cbn [fst].
  unfold get_model_count, __get_number_of_atoms. unfold_M. cbn [snd lines with_lines].
  f_equal. rewrite number_of_atoms_multi_length.
  - rewrite count_non_body_app. unfold stack_blocks, enumerate.
    rewrite count_non_body_stack_blocks by done.
    change (count_non_body [[]; []]) with 2%nat.
    replace (2 * length (m0 :: ms) + 2)%nat with (S (length (m0 :: ms)) * 2)%nat by lia.
    apply Nat.div_mul. lia.
  - rewrite count_non_body_app. unfold stack_blocks, enumerate.
    rewrite count_non_body_stack_blocks by done.
    change (count_non_body [[]; []]) with 2%nat. simpl. lia.
Qed.

(** ** Files made of well-formed blocks *)

Lemma boundaries_not_numeric (k : nat) (body rest : list str) :
  Forall (fun l => isdigit (strip l) = false) body ->
  boundaries false k (body ++ rest) = boundaries false (k + length body) rest.
Proof.
  intros Hb. revert k. induction Hb as [|l body Hl _ IH]; intros k.
  - simpl. by rewrite Nat.add_0_r.
  - cbn [app boundaries length]. rewrite Hl. cbn [andb]. rewrite IH. f_equal. lia.
Qed.

Lemma boundaries_below (above : bool) (k : nat) (body rest : list str) :
  Forall (fun l => isdigit (strip l) = false) body ->
  boundaries above k (body ++ rest)
  = boundaries (match body with [] => above | _ => false end) (k + length body) rest.
Proof.
  intros Hb. destruct Hb as [|l body Hl Hb].
  - simpl. by rewrite Nat.add_0_r.
  - cbn [app boundaries length]. rewrite Hl. cbn [andb].
    rewrite boundaries_not_numeric by done. f_equal. lia.
Qed.

Lemma boundaries_blocks (k : nat) (blocks : list model_block) (cs : list Z)
      (trailer : list str) :
  Forall2 header_block blocks cs ->
  Forall (fun l => isdigit (strip l) = false) trailer ->
  boundaries false k (concat (map block_lines blocks) ++ trailer) = block_offsets k blocks.
Proof.
  intros Hb Htr. revert k.
  induction Hb as [|b c blocks cs (Hc & _ & Hn & Hbody) _ IH]; intros k.
  - cbn [map concat app block_offsets].
    rewrite <- (app_nil_r trailer), boundaries_not_numeric by done. done.
  - cbn [map block_offsets]. rewrite concat_cons, <- app_assoc. unfold block_lines at 1.
    cbn [app boundaries]. rewrite Hc. cbn [andb negb]. f_equal.
    rewrite andb_false_r, boundaries_below by done.
    replace (match body_lines b with [] => isdigit (strip (name_line b)) | _ => false end)
      with false.
    + rewrite IH. f_equal. unfold block_lines. simpl. lia.
    + destruct Hn as [->|Hne]; [by destruct (body_lines b)|].
      by destruct (body_lines b).
Qed.

(** Where the block of rank [i] lies in the file. *)
Lemma block_at_offset (k i : nat) (blocks : list model_block) (b : model_block)
      (trailer : list str) :
  blocks !! i = Some b ->
  exists off rest,
    block_offsets k blocks !! i = Some off
    /\ forall pre, length pre = k ->
         drop off (pre ++ concat (map block_lines blocks) ++ trailer)
         = block_lines b ++ rest.
Proof.
  revert k i. induction blocks as [|b0 blocks IH]; intros k i Hi; [done|].
  destruct i as [|i]; simpl in Hi.
  - simplify_eq. exists k, (concat (map block_lines blocks) ++ trailer). split; [done|].
    intros pre <-. cbn [map]. by rewrite concat_cons, <- app_assoc, drop_app_length.
  - destruct (IH (k + length (block_lines b0))%nat i Hi) as (off & rest & Hoff & Hdrop).
    exists off, rest. split; [done|].
    intros pre Hpre. cbn [map]. rewrite concat_cons, <- app_assoc, app_assoc. apply Hdrop.
    rewrite length_app. lia.
Qed.

Lemma read_atom_numbers_blocks (blocks : list model_block) (cs : list Z)
      (trailer : list str) :
  Forall2 header_block blocks cs ->
  read_atom_numbers (concat (map block_lines blocks) ++ trailer) (block_offsets 0 blocks)
  = Ok cs.
Proof.
  intros Hb. unfold read_atom_numbers. apply map_result_lookup.
  - rewrite block_offsets_length. by eapply Forall2_length.
  - intros i off c Hoff Hc.
    destruct (Forall2_lookup_r _ _ _ _ _ Hb Hc) as (b & Hbi & (_ & Hint & _)).
    destruct (block_at_offset 0 i blocks b trailer Hbi) as (off' & rest & Hoff' & Hdrop).
    rewrite Hoff in Hoff'. injection Hoff' as <-.
    specialize (Hdrop [] eq_refl). cbn [app] in Hdrop.
    rewrite py_index_nat.
    replace ((concat (map block_lines blocks) ++ trailer) !! off) with (Some (count_line b)).
    + done.
    + rewrite <- (Nat.add_0_r off), <- lookup_drop, Hdrop. done.
Qed.

Lemma read_mol_names_blocks (blocks : list model_block) (trailer : list str) :
  read_mol_names (concat (map block_lines blocks) ++ trailer) (block_offsets 0 blocks)
  = Ok (map (fun b => strip (name_line b)) blocks).
Proof.
  unfold read_mol_names. apply map_result_lookup.
  - by rewrite block_offsets_length, length_map.
  - intros i off name Hoff. rewrite list_lookup_fmap.
    destruct (blocks !! i) as [b|] eqn:Hbi; [|done]. simpl. intros; simplify_eq.
    destruct (block_at_offset 0 i blocks b trailer Hbi) as (off' & rest & Hoff' & Hdrop).
    rewrite Hoff in Hoff'. injection Hoff' as <-.
    specialize (Hdrop [] eq_refl). cbn [app] in Hdrop.
    rewrite py_index_nat.
    replace ((concat (map block_lines blocks) ++ trailer) !! (off + 1)%nat)
      with (Some (name_line b)).
    + done.
    + rewrite <- lookup_drop, Hdrop. done.
Qed.

Lemma header_value_ok (ns : list Z) (names : list str) :
  length names = length ns -> exists h, header_value ns names None = Ok h.
Proof.
  intros Hlen. unfold header_value. destruct (length ns =? 1)%nat eqn:Hone; [|by eauto].
  apply Nat.eqb_eq in Hone. destruct ns as [|n0 [|? ?]]; try done.
  destruct names as [|name0 [|? ?]]; try done. by eexists.
Qed.

(** The headers of a file made of blocks, read for the first time. *)
Lemma header_read_blocks (f : XYZFile) (blocks : list model_block) (cs : list Z)
      (trailer : list str) :
  _atom_numbers f = None -> _mol_names f = None ->
  lines f = concat (map block_lines blocks) ++ trailer ->
  Forall2 header_block blocks cs ->
  Forall (fun l => isdigit (strip l) = false) trailer ->
  start_lines (lines f) = block_offsets 0 blocks
  /\ header_read f cs (map (fun b => strip (name_line b)) blocks).
Proof.
  intros Han Hmn Hl Hb Htr.
  assert (start_lines (lines f) = block_offsets 0 blocks) as Hstart.
  { rewrite Hl, start_lines_boundaries. by eapply boundaries_blocks. }
  split; [done|]. unfold header_read. rewrite Han, Hmn, Hstart, Hl.
  split; [by apply read_atom_numbers_blocks|apply read_mol_names_blocks].
Qed.

Lemma get_header_blocks (f : XYZFile) (blocks : list model_block) (cs : list Z)
      (trailer : list str) :
  _atom_numbers f = None -> _mol_names f = None ->
  lines f = concat (map block_lines blocks) ++ trailer ->
  Forall2 header_block blocks cs ->
  Forall (fun l => isdigit (strip l) = false) trailer ->
  (get_header None f).2
  = Ok (match cs, blocks with
        | [c], [b] => HeaderOne c (strip (name_line b))
        | _, _ => HeaderAll cs (map (fun b => strip (name_line b)) blocks)
        end).
Proof.
  intros Han Hmn Hl Hb Htr.
  destruct (header_read_blocks f blocks cs trailer Han Hmn Hl Hb Htr) as [_ Hread].
  pose proof (Forall2_length _ _ _ Hb) as Hlen.
  rewrite (get_header_read _ _ _ _ Hread). cbn [snd]. unfold header_value.
  destruct cs as [|c [|c' cs]], blocks as [|b [|b' blocks]]; done.
Qed.

(** X6: a file made of blocks, each a numeric count line, a name line
    and body lines that are not numeric, followed by lines that are not
    numeric, gives one header for each block: the number on the count line
    and the name line without the white space around it.  The name line
    may be numeric when the block has body lines, and the counts need not
    be the same from one model to the next. *)
Theorem get_header_well_formed (f : XYZFile) (blocks : list model_block) (cs : list Z)
        (trailer : list str) :
  _atom_numbers f = None -> _mol_names f = None ->
  lines f = concat (map block_lines blocks) ++ trailer ->
  Forall2 header_block blocks cs ->
  Forall (fun l => isdigit (strip l) = false) trailer ->
  (get_header None f).2
  = Ok (match cs, blocks with
        | [c], [b] => HeaderOne c (strip (name_line b))
        | _, _ => HeaderAll cs (map (fun b => strip (name_line b)) blocks)
        end)
  /\ forall i c b, cs !! i = Some c -> blocks !! i = Some b ->
       (get_header (Some (Z.of_nat i)) f).2 = Ok (HeaderOne c (strip (name_line b))).
Proof.
  intros Han Hmn Hl Hb Htr. split; [by eapply get_header_blocks|].
  destruct (header_read_blocks f blocks cs trailer Han Hmn Hl Hb Htr) as [_ Hread].
  intros i c b Hc Hbi. rewrite (get_header_read _ _ _ _ Hread). cbn [snd].
  unfold header_value.
  pose proof (lookup_lt_Some _ _ _ Hc) as Hlt.
  replace (Z.of_nat (length cs) <? Z.of_nat i) with false
    by (symmetry; apply Z.ltb_ge; lia).
  rewrite !py_index_nat, Hc, list_lookup_fmap, Hbi. done.
Qed.

Lemma isdigit_char_classes (c : ascii) :
  isdigit_char c = true ->
  isspace c = false /\ c_isspace c = false /\ is_blank c = false
  /\ Ascii.eqb c " "%char = false
  /\ Ascii.eqb c "-"%char = false /\ Ascii.eqb c "+"%char = false.
Proof.
  destruct c as [[] [] [] [] [] [] [] []]; vm_compute; intros; by split_and!.
Qed.

Lemma isdigit_chars (s : str) :
  isdigit s = true -> s <> [] /\ Forall (fun c => isdigit_char c = true) s.
Proof.
  unfold isdigit. destruct s as [|c s]; [done|]. intros Hall. split; [done|].
  apply Forall_forall. intros x Hx%list_elem_of_In.
  rewrite forallb_forall in Hall. by apply Hall.
Qed.

(** A line that parses as an atom has white space inside: it is not a
    numeric line. *)
Lemma parse_atom_line_not_numeric (l : str) (a : Atom) :
  parse_atom_line l = Ok a -> isdigit (strip l) = false.
Proof.
  intros Hp. destruct (isdigit (strip l)) eqn:Hd; [|done].
  apply isdigit_chars in Hd as [Hne Hall].
  unfold parse_atom_line, line_fields in Hp. cbv zeta in Hp.
  rewrite split_on_last_field in Hp.
  - simpl in Hp. by destruct (nonempty (strip l)).
  - eapply Forall_impl; [exact Hall|]. intros c Hc. by apply isdigit_char_classes.
Qed.

Lemma parse_lines_not_numeric (body : list str) (atoms : AtomArray) :
  map_result parse_atom_line body = Ok atoms ->
  Forall (fun l => isdigit (strip l) = false) body.
Proof.
  intros Hm%map_result_ok.
  induction Hm as [|l a body atoms Hl _ IH]; constructor; [|done].
  by eapply parse_atom_line_not_numeric.
Qed.

Lemma readable_header_block (b : model_block) (atoms : AtomArray) :
  readable_block b atoms ->
  header_block b (Z.of_nat (length atoms)) /\ length (body_lines b) = length atoms.
Proof.
  intros (Hc & Hint & Hn & Hbody).
  pose proof (parse_lines_not_numeric _ _ Hbody) as Hnum.
  apply map_result_ok in Hbody.
  pose proof (Forall2_length _ _ _ Hbody) as Hlen.
  split; [|done]. split_and!; [done|by rewrite <- Hlen|done|done].
Qed.

(** The model found where its block lies. *)
Lemma parse_model_at (ls : list str) (ns : list Z) (i ind : nat)
      (b : model_block) (rest : list str) :
  ns !! i = Some (Z.of_nat (length (body_lines b))) ->
  drop ind ls = block_lines b ++ rest ->
  parse_model ls ns i ind = map_result parse_atom_line (body_lines b).
Proof.
  intros Hn Hdrop.
  assert (ind + (2 + length (body_lines b)) <= length ls)%nat as Hle.
  { apply (f_equal length) in Hdrop.
    rewrite length_drop, length_app in Hdrop. unfold block_lines in Hdrop.
    simpl in Hdrop. lia. }
  pose proof (index_max_bounds ls) as [_ Hmax].
  rewrite (parse_model_run _ _ _ _ _ Hn) by lia. cbv zeta.
  replace (Z.of_nat ind + 2 + Z.of_nat (length (body_lines b)))
    with (Z.of_nat ind + Z.of_nat (2 + length (body_lines b))) by lia.
  rewrite py_slice_take_drop by done. rewrite Hdrop.
  rewrite take_app_length' by done.
  unfold block_lines. cbn [length drop].
  by replace (Z.of_nat (length (body_lines b)) + 2 =? Z.of_nat (S (S (length (body_lines b)))))
    with true by (symmetry; apply Z.eqb_eq; lia).
Qed.

Lemma parse_structures_blocks (blocks : list model_block) (models : AtomArrayStack)
      (elements : list str) (trailer : list str) :
  blocks <> [] ->
  Forall2 readable_block blocks models ->
  Forall (fun m => map element m = elements) models ->
  parse_structures (concat (map block_lines blocks) ++ trailer)
    (map (fun m => Z.of_nat (length m)) models) (block_offsets 0 blocks)
  = Ok models.
Proof.
  intros Hne Hb Hel. unfold parse_structures.
  rewrite (map_result_lookup _ _ models).
  - cbn [bind_result]. apply (stack_same_elements elements); [|done].
    intros ->. by inversion Hb.
  - unfold enumerate. rewrite enumerate_from_length, block_offsets_length.
    by eapply Forall2_length.
  - intros i [j ind] m. unfold enumerate. rewrite enumerate_from_lookup.
    destruct (block_offsets 0 blocks !! i) as [off|] eqn:Hoff; [|done]. simpl.
    intros Heq Hm. injection Heq as <- <-.
    destruct (Forall2_lookup_r _ _ _ _ _ Hb Hm) as (b & Hbi & Hread).
    destruct (block_at_offset 0 i blocks b trailer Hbi) as (off' & rest & Hoff' & Hdrop).
    rewrite Hoff in Hoff'. injection Hoff' as <-.
    specialize (Hdrop [] eq_refl). cbn [app] in Hdrop.
    destruct (readable_header_block b m Hread) as [_ Hlen].
    rewrite (parse_model_at _ _ i off b rest); [by destruct Hread as (_ & _ & _ & ?)| |done].
    rewrite list_lookup_fmap, Hm. simpl. by rewrite Hlen.
Qed.

Lemma stack_index_nat (s : AtomArrayStack) (i : nat) (a : AtomArray) :
  s !! i = Some a -> stack_index s (Z.of_nat i) = Ok a.
Proof.
  intros Hi. assert ((Z.of_nat i <? 0) = false) as Hneg by (apply Z.ltb_ge; lia).
  unfold stack_index. cbv zeta. by rewrite !Hneg, Nat2Z.id, Hi.
Qed.

Lemma get_structure_blocks (f : XYZFile) (blocks : list model_block)
      (models : AtomArrayStack) (elements : list str) (trailer : list str)
      (model : option Z) :
  _atom_numbers f = None -> _mol_names f = None -> _structures f = None ->
  lines f = concat (map block_lines blocks) ++ trailer ->
  blocks <> [] ->
  (2 < length (lines f))%nat ->
  Forall2 readable_block blocks models ->
  Forall (fun m => map element m = elements) models ->
  Forall (fun l => isdigit (strip l) = false) trailer ->
  (get_structure model f).2 = select_model models model.
Proof.
  intros Han Hmn Hst Hl Hne Hlt Hb Hel Htr.
  assert (Forall2 header_block blocks (map (fun m => Z.of_nat (length m)) models)) as Hh.
  { apply Forall2_fmap_r. eapply Forall2_impl; [exact Hb|].
    intros b m Hbm. by apply readable_header_block. }
  destruct (header_read_blocks f blocks _ trailer Han Hmn Hl Hh Htr) as [Hstart Hread].
  unfold header_read in Hread. rewrite Han, Hmn in Hread. destruct Hread as [Hns Hnames].
  apply (get_structure_fresh f model (map (fun m => Z.of_nat (length m)) models)
           (map (fun b => strip (name_line b)) blocks) models); try done.
  - rewrite !length_map. by eapply Forall2_length.
  - rewrite Hstart, Hl. by eapply parse_structures_blocks.
Qed.

(** X7: a file made of blocks, each a numeric count line giving the
    number of its body lines, a name line and body lines that parse,
    followed by lines that are not numeric, is read as the models its
    body lines parse to: all of them, the only one, or the one asked for
    by its index from 0.  The name line may be numeric when the block has
    body lines. *)
Theorem get_structure_well_formed (f : XYZFile) (blocks : list model_block)
        (models : AtomArrayStack) (elements : list str) (trailer : list str) :
  _atom_numbers f = None -> _mol_names f = None -> _structures f = None ->
  lines f = concat (map block_lines blocks) ++ trailer ->
  blocks <> [] ->
  (2 < length (lines f))%nat ->
  Forall2 readable_block blocks models ->
  Forall (fun m => map element m = elements) models ->
  Forall (fun l => isdigit (strip l) = false) trailer ->
  (get_structure None f).2
  = Ok (match models with [m] => Single m | _ => Stack models end)
  /\ forall i m, models !! i = Some m ->
       (get_structure (Some (Z.of_nat i)) f).2 = Ok (Single m).
Proof.
  intros Han Hmn Hst Hl Hne Hlt Hb Hel Htr.
  pose proof (fun model => get_structure_blocks f blocks models elements trailer model
                             Han Hmn Hst Hl Hne Hlt Hb Hel Htr) as Hrun.
  split.
  - rewrite Hrun. unfold select_model.
    destruct models as [|m0 [|m1 models]]; [|done..].
    inversion Hb; by subst.
  - intros i m Hm. rewrite Hrun. unfold select_model.
    by rewrite (stack_index_nat _ _ _ Hm).
Qed.

(** ** What [get_header] reads *)

Lemma strip_by_Forall (P : ascii -> Prop) (p : ascii -> bool) (s : str) :
  Forall P s -> Forall P (strip_by p s).
Proof.
  assert (forall l : str, Forall P l -> Forall P (drop_while p l)) as Hdrop.
  { induction 1 as [|c l Hc Hl IH]; simpl; [done|]. destruct (p c); [done|by constructor]. }
  intros Hs. unfold strip_by, rstrip_by, lstrip_by.
  apply Forall_rev, Hdrop, Forall_rev, Hdrop, Hs.
Qed.

(** A numeric line that [int] reads is not negative. *)
Lemma py_int_numeric_nonneg (s : str) (n : Z) :
  isdigit s = true -> py_int (strip_blank s) = Ok n -> 0 <= n.
Proof.
  intros [Hne Hall]%isdigit_chars. unfold py_int, strip_blank. cbv zeta.
  assert (Forall (fun c => Ascii.eqb c "-"%char = false)
                 (strip_by c_isspace (strip_by is_blank s))) as Hminus.
  { do 2 apply strip_by_Forall. eapply Forall_impl; [exact Hall|].
    intros c Hc. by apply isdigit_char_classes. }
  destruct (strip_by c_isspace (strip_by is_blank s)) as [|c t]; [done|].
  apply Forall_inv in Hminus. rewrite Hminus.
  destruct (Ascii.eqb c "+"%char);
    (destruct (uint_of_literal _) as [d|]; [|done]); intros; simplify_eq;
    unfold Z.of_uint; lia.
Qed.

Lemma read_atom_numbers_nonneg (ls : list str) (inds : list nat) (ns : list Z) :
  Forall (fun i => exists l, ls !! i = Some l /\ isdigit (strip l) = true) inds ->
  read_atom_numbers ls inds = Ok ns ->
  Forall (fun n => 0 <= n) ns.
Proof.
  intros Hinds Hread. apply map_result_ok in Hread.
  induction Hread as [|i n inds ns Hi _ IH]; [done|].
  apply Forall_cons in Hinds as [(l & Hl & Hd) Hinds]. constructor; [|by apply IH].
  rewrite py_index_nat, Hl in Hi. simpl in Hi. by eapply py_int_numeric_nonneg.
Qed.

Lemma start_lines_numeric (ls : list str) :
  Forall (fun i => exists l, ls !! i = Some l /\ isdigit (strip l) = true) (start_lines ls).
Proof.
  apply Forall_forall. intros i Hi.
  rewrite start_lines_boundaries in Hi. apply elem_of_boundaries in Hi as (_ & Hl & _).
  by rewrite Nat.sub_0_r in Hl.
Qed.

(** X8: when [get_header] has read the headers of a file and returns,
    there is one atom count and one name for each model start, and no
    atom count is negative. *)
Theorem get_header_fresh_read (f f1 : XYZFile) (model : option Z) (h : header) :
  _atom_numbers f = None -> _mol_names f = None ->
  get_header model f = (f1, Ok h) ->
  exists ns names,
    _atom_numbers f1 = Some ns /\ _mol_names f1 = Some names
    /\ _model_start_inds f1 = Some (start_lines (lines f))
    /\ length ns = length (start_lines (lines f))
    /\ length names = length (start_lines (lines f))
    /\ Forall (fun n => 0 <= n) ns.
Proof.
  intros Han Hmn Hrun.
  apply get_header_ok in Hrun as (ns & names & [Hns Hnames] & -> & _).
  rewrite Han in Hns. rewrite Hmn in Hnames.
  exists ns, names. split_and!; [done|done|done| | |].
  - apply map_result_ok, Forall2_length in Hns. done.
  - apply map_result_ok, Forall2_length in Hnames. done.
  - eapply read_atom_numbers_nonneg; [|done]. apply start_lines_numeric.
Qed.

(** X9: when the last line of the buffer starts a model, there is no line
    for its name and [get_header] raises the exception of the list. *)
Theorem get_header_count_on_last_line (f : XYZFile) (model : option Z) (ns : list Z) :
  _atom_numbers f = None -> _mol_names f = None ->
  read_atom_numbers (lines f) (start_lines (lines f)) = Ok ns ->
  (length (lines f) - 1)%nat ∈ start_lines (lines f) ->
  (get_header model f).2 = Raise (IndexError (txt "list index out of range")).
Proof.
  intros Han Hmn Hns Hlast.
  assert (read_mol_names (lines f) (start_lines (lines f))
          = Raise (IndexError (txt "list index out of range"))) as Hnames.
  { apply list_elem_of_lookup_1 in Hlast as [p Hp].
    pose proof (start_lines_numeric (lines f)) as Hnum. rewrite Forall_forall in Hnum.
    destruct (Hnum _ (list_elem_of_lookup_2 _ _ _ Hp)) as (l & Hl & _).
    apply lookup_lt_Some in Hl.
    unfold read_mol_names.
    apply (map_result_first_raise _ _ p (length (lines f) - 1)%nat); [done| |].
    - rewrite py_index_nat, lookup_ge_None_2; [done|lia].
    - intros j y Hj Hy.
      assert (y + 2 <= length (lines f) - 1)%nat as Hgap.
      { rewrite start_lines_boundaries in Hy, Hp. by eapply boundaries_gap. }
      rewrite py_index_nat.
      destruct (lookup_lt_is_Some_2 (lines f) (y + 1)) as [l' ->]; [lia|].
      by eexists. }
  destruct f as [ls mn an si st]. simpl in *. subst an mn.
  unfold get_header, parse_header_lines, __update_start_lines. unfold_M. simpl.
  unfold current_start_inds. simpl. rewrite Hns. simpl. by rewrite Hnames.
Qed.

(** ** [set_header] *)

Lemma py_set_item_nat {A} (l : list A) (i : nat) (v : A) :
  (i < length l)%nat -> py_set_item l (Z.of_nat i) v = Ok (<[i := v]> l).
Proof.
  intros Hi. unfold py_set_item. cbv zeta.
  replace (Z.of_nat i <? 0) with false by (symmetry; apply Z.ltb_ge; lia).
  replace ((0 <=? Z.of_nat i) && (Z.of_nat i <? Z.of_nat (length l)))
    with true by (symmetry; apply andb_true_iff; split; [apply Z.leb_le|apply Z.ltb_lt]; lia).
  by rewrite Nat2Z.id.
Qed.

(** [set_header] reads the headers first when the names are not there. *)
Lemma set_header_after_header (f f1 : XYZFile) (h : header) (mol_name : str)
      (model : option Z) :
  _mol_names f = None ->
  get_header None f = (f1, Ok h) ->
  set_header mol_name model f = set_header mol_name model f1.
Proof.
  intros Hmn Hh.
  pose proof Hh as (ns & names & _ & -> & _)%get_header_ok.
  unfold set_header. unfold bind at 1. unfold self at 1. unfold bind at 1.
  rewrite Hmn. unfold bind at 1. rewrite Hh.
  unfold bind at 4. unfold self at 2. unfold bind at 4.
  cbn [_mol_names with_headers]. unfold ret at 1 2. done.
Qed.

(** The file object on which [set_header] works after this first step. *)
Lemma set_header_start (f : XYZFile) (ns : list Z) (names : list str) :
  header_read f ns names ->
  length names = length ns ->
  exists f1,
    (forall mol_name model, set_header mol_name model f = set_header mol_name model f1)
    /\ _mol_names f1 = Some names /\ header_read f1 ns names
    /\ lines f1 = lines f /\ _structures f1 = _structures f.
Proof.
  intros Hread Hlen. destruct (_mol_names f) as [names0|] eqn:Hmn.
  - exists f. split_and!; try done.
    destruct Hread as [_ Hnames]. rewrite Hmn in Hnames. by subst.
  - destruct (header_value_ok ns names Hlen) as [h Hv].
    pose proof (get_header_read f ns names None Hread) as Hh. rewrite Hv in Hh.
    exists (with_headers f ns names). split_and!; try done.
    intros mol_name model. by eapply set_header_after_header.
Qed.

(** X10: with the index of a model, [set_header] puts the new name in
    the place of the name of that model: [get_header] then returns the
    atom count of the model with the new name.  The lines of the buffer
    stay as they are. *)
Theorem set_header_model_roundtrip (f : XYZFile) (ns : list Z) (names : list str)
        (mol_name : str) (m : nat) (n : Z) :
  header_read f ns names ->
  length names = length ns ->
  ns !! m = Some n ->
  exists f',
    set_header mol_name (Some (Z.of_nat m)) f = (f', Ok tt)
    /\ lines f' = lines f
    /\ _structures f' = _structures f
    /\ _mol_names f' = Some (<[m := mol_name]> names)
    /\ (get_header (Some (Z.of_nat m)) f').2 = Ok (HeaderOne n mol_name).
Proof.
  intros Hread Hlen Hn.
  pose proof (lookup_lt_Some _ _ _ Hn) as Hlt.
  destruct (set_header_start f ns names Hread Hlen)
    as (f1 & Hset & Hmn1 & Hread1 & Hl1 & Hst1).
  exists (with_mol_names f1 (Some (<[m := mol_name]> names))).
  assert (set_header mol_name (Some (Z.of_nat m)) f1
          = (with_mol_names f1 (Some (<[m := mol_name]> names)), Ok tt)) as Hrun.
  { unfold set_header. unfold_M. rewrite Hmn1. unfold current_mol_names.
    rewrite Hmn1. cbn [from_option id].
    replace (Z.of_nat m <? Z.of_nat (length names)) with true
      by (symmetry; apply Z.ltb_lt; lia).
    by rewrite py_set_item_nat by lia. }
  split_and!; [by rewrite Hset|done|done|done|].
  rewrite (get_header_read _ ns (<[m := mol_name]> names)).
  - cbn [snd]. unfold header_value.
    replace (Z.of_nat (length ns) <? Z.of_nat m) with false
      by (symmetry; apply Z.ltb_ge; lia).
    rewrite !py_index_nat, Hn, list_lookup_insert_eq by lia. done.
  - destruct Hread1 as [Hns1 _]. split; [done|done].
Qed.

(** X11: with an index that is not below the number of names,
    [set_header] raises the exception that carries the index and the
    model count of [get_model_count], and the lines of the buffer stay as
    they are. *)
Theorem set_header_model_out_of_range (f : XYZFile) (ns : list Z) (names : list str)
        (mol_name : str) (m : Z) :
  header_read f ns names ->
  length names = length ns ->
  Z.of_nat (length names) <= m ->
  exists f',
    set_header mol_name (Some m) f
    = (f', Raise (ValueError
                    (set_header_model_msg m (length (number_of_atoms (lines f))))))
    /\ lines f' = lines f
    /\ _mol_names f' = Some names.
Proof.
  intros Hread Hlen Hm.
  destruct (set_header_start f ns names Hread Hlen)
    as (f1 & Hset & Hmn1 & Hread1 & Hl1 & Hst1).
  exists f1. split_and!; [|done|done].
  rewrite Hset. unfold set_header, get_model_count, __get_number_of_atoms. unfold_M.
  rewrite Hmn1. unfold current_mol_names. rewrite Hmn1. cbn [from_option id].
  replace (m <? Z.of_nat (length names)) with false by (symmetry; apply Z.ltb_ge; lia).
  by rewrite Hl1.
Qed.

Lemma py_int_str_of_nat_plain (n : nat) : py_int (str_of_nat n) = Ok (Z.of_nat n).
Proof.
  pose proof (py_int_str_of_nat n) as Hint.
  destruct (str_of_nat_token n) as [_ Hsp].
  destruct (str_of_nat_decimal n) as [_ Hdec].
  unfold strip, strip_blank in Hint.
  rewrite (strip_by_id isspace) in Hint by done.
  rewrite (strip_by_id is_blank) in Hint; [done|].
  eapply Forall_decimal_class; [|done]. intros c Hc. by apply isdecimal_classes.
Qed.

(** [set_header] without an index, once the names are there. *)
Lemma set_header_none_run (f : XYZFile) (names0 : list str) (l0 l1 : str)
      (body : list str) (mol_name : str) (c : atom_count) (tl : list atom_count) (n : Z) :
  _mol_names f = Some names0 ->
  lines f = l0 :: l1 :: body ->
  body <> [] ->
  number_of_atoms (l0 :: mol_name :: body) = c :: tl ->
  py_int (str_of_count c) = Ok n ->
  set_header mol_name None f
  = ({| lines := str_of_count c :: mol_name :: body;
        _mol_names := Some [mol_name];
        _atom_numbers := Some [n];
        _model_start_inds := Some (start_lines (str_of_count c :: mol_name :: body));
        _structures := _structures f |}, Ok tt).
Proof.
  intros Hmn Hl Hne Hcount Hint.
  destruct f as [ls mn an si st]. simpl in *. subst mn ls.
  unfold set_header, set_line, __get_number_of_atoms, __update_start_lines. unfold_M.
  cbn [lines _mol_names _atom_numbers _model_start_inds _structures with_lines length].
  replace (2 <? S (S (length body)))%nat with true
    by (symmetry; apply Nat.ltb_lt; destruct body; [done|simpl; lia]).
  rewrite (py_set_item_nat _ 1) by (simpl; lia).
  cbn [lines _mol_names _atom_numbers _model_start_inds _structures with_lines
       insert list_insert].
  rewrite Hcount, (py_index_nat _ 0). cbn [lookup list_lookup].
  rewrite (py_set_item_nat _ 0) by (simpl; lia).
  cbn [lines _mol_names _atom_numbers _model_start_inds _structures with_lines
       with_mol_names insert list_insert].
  rewrite (py_index_nat _ 0). cbn [lookup list_lookup].
  rewrite Hint. reflexivity.
Qed.

Lemma drop_while_decompose {A} (p : A -> bool) (l : list A) :
  exists pre, l = pre ++ drop_while p l /\ Forall (fun x => p x = true) pre.
Proof.
  induction l as [|x l (pre & Hl & Hpre)]; [by exists []|].
  simpl. destruct (p x) eqn:Hx.
  - exists (x :: pre). split; [by rewrite <- app_comm_cons, <- Hl|by constructor].
  - by exists [].
Qed.

Lemma strip_by_decompose (p : ascii -> bool) (s : str) :
  exists pre post,
    s = pre ++ strip_by p s ++ post
    /\ Forall (fun c => p c = true) pre /\ Forall (fun c => p c = true) post.
Proof.
  unfold strip_by, rstrip_by, lstrip_by.
  destruct (drop_while_decompose p s) as (pre & Hs & Hpre).
  destruct (drop_while_decompose p (rev (drop_while p s))) as (post & Hr & Hpost).
  exists pre, (rev post). split_and!; [|done|by apply Forall_rev].
  rewrite Hs at 1. f_equal.
  apply (f_equal (@rev ascii)) in Hr. rewrite rev_involutive, rev_app_distr in Hr.
  done.
Qed.

Lemma split_ws_from_spaces (ws s : str) :
  Forall (fun c => isspace c = true) ws ->
  split_ws_from [] (ws ++ s) = split_ws_from [] s.
Proof. induction 1 as [|c ws Hc _ IH]; simpl; [done|]. by rewrite Hc. Qed.

Lemma split_ws_one_field (pre t post : str) :
  Forall (fun c => isspace c = true) pre ->
  token t ->
  Forall (fun c => isspace c = true) post ->
  split_ws (pre ++ t ++ post) = [t].
Proof.
  intros Hpre [Hne Ht] Hpost. unfold split_ws.
  rewrite split_ws_from_spaces, split_ws_from_token by done. rewrite app_nil_r.
  assert (exists c r, rev t = c :: r) as (c & r & Hr).
  { destruct (rev t) as [|c r] eqn:Hr; [|by eauto].
    apply (f_equal (@rev ascii)) in Hr. by rewrite rev_involutive in Hr. }
  destruct Hpost as [|c' post Hc' Hpost].
  - simpl. rewrite Hr, <- Hr. by rewrite rev_involutive.
  - cbn [split_ws_from]. rewrite Hc', Hr, <- Hr, rev_involutive. f_equal.
    rewrite <- (app_nil_r post). by rewrite split_ws_from_spaces.
Qed.

(** A line of four fields has white space inside: it is not numeric. *)
Lemma body_line_not_numeric (l : str) :
  is_body_line l = true -> isdigit (strip l) = false.
Proof.
  intros Hbody. destruct (isdigit (strip l)) eqn:Hd; [|done].
  apply isdigit_chars in Hd as [Hne Hall].
  destruct (strip_by_decompose isspace l) as (pre & post & Hl & Hpre & Hpost).
  fold (strip l) in Hl. unfold is_body_line in Hbody.
  rewrite Hl, split_ws_one_field in Hbody; [done|done| |done].
  split; [done|]. eapply Forall_impl; [exact Hall|].
  intros c Hc. by apply isdigit_char_classes.
Qed.

(** X12: without an index, on a buffer whose lines after the first two
    are body lines, [set_header] writes the name on the second line and
    the number of lines after the first two on the first line, and keeps
    both as the only header: [get_header] then returns them.  A new file
    object over the lines of the buffer reads the same count, and the
    name without the white space around it. *)
Theorem set_header_single_model (f : XYZFile) (ns : list Z) (names : list str)
        (mol_name : str) :
  header_read f ns names ->
  length names = length ns ->
  (2 < length (lines f))%nat ->
  Forall (fun l => is_body_line l = true) (drop 2 (lines f)) ->
  exists f',
    set_header mol_name None f = (f', Ok tt)
    /\ lines f' = str_of_nat (length (lines f) - 2) :: mol_name :: drop 2 (lines f)
    /\ _mol_names f' = Some [mol_name]
    /\ _atom_numbers f' = Some [Z.of_nat (length (lines f) - 2)]
    /\ _structures f' = _structures f
    /\ (get_header None f').2 = Ok (HeaderOne (Z.of_nat (length (lines f) - 2)) mol_name)
    /\ (get_header None (with_lines init (lines f'))).2
       = Ok (HeaderOne (Z.of_nat (length (lines f) - 2)) (strip mol_name)).
Proof.
  intros Hread Hlen Hlt Hbody.
  destruct (set_header_start f ns names Hread Hlen)
    as (f1 & Hset & Hmn1 & Hread1 & Hl1 & Hst1).
  rewrite <- Hl1 in Hlt, Hbody. rewrite <- Hl1, <- Hst1. rewrite Hset.
  destruct (lines f1) as [|l0 [|l1 body]] eqn:Hls; [simpl in Hlt; lia..|].
  cbn [drop] in Hbody. cbn [length drop].
  replace (S (S (length body)) - 2)%nat with (length body) by lia.
  assert (body <> []) as Hne by (intros ->; simpl in Hlt; lia).
  assert (number_of_atoms (l0 :: mol_name :: body) = [CountInt (length body)]) as Hcount.
  { rewrite number_of_atoms_single; [done|].
    change (l0 :: mol_name :: body) with ([l0; mol_name] ++ body).
    rewrite count_non_body_app, (count_non_body_body body Hbody).
    unfold count_non_body. simpl. repeat case_match; simpl; lia. }
  eexists. split.
  - apply (set_header_none_run f1 names l0 l1 body mol_name
             (CountInt (length body)) [] (Z.of_nat (length body)) Hmn1 Hls); [done|done|].
    apply py_int_str_of_nat_plain.
  - cbn [lines _mol_names _atom_numbers _structures str_of_count].
    split_and!; [done..|reflexivity|].
    rewrite (get_header_blocks _ [mkBlock (str_of_nat (length body)) mol_name body]
               [Z.of_nat (length body)] []); try done.
    + cbn [lines with_lines map concat block_lines count_line name_line body_lines].
      by rewrite !app_nil_r.
    + constructor; [|constructor]. split_and!.
      * cbn [count_line]. rewrite <- (app_nil_l (str_of_nat _)).
        by apply isdigit_str_of_nat.
      * cbn [count_line]. apply py_int_str_of_nat.
      * by right.
      * cbn [body_lines]. eapply Forall_impl; [exact Hbody|].
        apply body_line_not_numeric.
Qed.

(** ** [get_structure] and its cache *)

Lemma get_structure_ok_inv (f f' : XYZFile) (model : option Z) (r : structure) :
  get_structure model f = (f', Ok r) ->
  (2 < length (lines f))%nat
  /\ lines f' = lines f
  /\ exists ns names s h,
       _atom_numbers f' = Some ns /\ _mol_names f' = Some names
       /\ _structures f' = Some s
       /\ _model_start_inds f' = Some (start_lines (lines f))
       /\ header_value ns names None = Ok h
       /\ select_model s model = Ok r
       /\ (_structures f = None \/ _structures f = Some s).
Proof.
  intros Hrun.
  destruct (Nat.le_gt_cases (length (lines f)) 2) as [Hle|Hlt].
  { rewrite get_structure_empty in Hrun by done. by simplify_eq. }
  destruct (get_header None f) as [f1 [h|e]] eqn:Hh.
  2:{ rewrite (get_structure_header_raise _ _ _ _ Hlt Hh) in Hrun. by simplify_eq. }
  rewrite (get_structure_run _ _ _ _ Hlt Hh) in Hrun.
  apply get_header_ok in Hh as (ns & names & _ & -> & Hv).
  split; [done|].
  destruct (_structures f) as [s|] eqn:Hs.
  - simplify_eq. split; [done|]. exists ns, names, s, h. split_and!; try done. by right.
  - destruct (parse_structures _ _ _) as [s|e]; [|by simplify_eq].
    simplify_eq. split; [done|]. exists ns, names, s, h. split_and!; try done. by left.
Qed.

(** A file whose headers and structures are there already. *)
Lemma get_structure_cached_run (f : XYZFile) (model : option Z)
      (ns : list Z) (names : list str) (s : AtomArrayStack) (h : header) :
  (2 < length (lines f))%nat ->
  _atom_numbers f = Some ns -> _mol_names f = Some names -> _structures f = Some s ->
  header_value ns names None = Ok h ->
  get_structure model f
  = (with_model_start_inds f (Some (start_lines (lines f))), select_model s model).
Proof.
  intros Hlt Han Hmn Hst Hv.
  assert (header_read f ns names) as Hread by (unfold header_read; by rewrite Han, Hmn).
  pose proof (get_header_read f ns names None Hread) as Hh. rewrite Hv in Hh.
  rewrite (get_structure_run _ _ _ _ Hlt Hh), Hst.
  destruct f as [ls mn an si st]. simpl in *. by subst.
Qed.

(** X13: [get_structure] parses once.  After a call that returns, a
    second call leaves the file object as it is and returns the same
    structure, and a call with any model index selects from the
    structures that are stored. *)
Theorem get_structure_idempotent (f f' : XYZFile) (model : option Z) (r : structure) :
  get_structure model f = (f', Ok r) ->
  get_structure model f' = (f', Ok r)
  /\ exists s, _structures f' = Some s
       /\ forall model', get_structure model' f' = (f', select_model s model').
Proof.
  intros (Hlt & Hl & ns & names & s & h & Han & Hmn & Hst & Hsi & Hv & Hsel & _)%get_structure_ok_inv.
  assert (forall model', get_structure model' f' = (f', select_model s model')) as Hrun.
  { intros model'.
    rewrite (get_structure_cached_run f' model' ns names s h); try done; [|by rewrite Hl].
    f_equal. destruct f' as [ls mn an si st]. simpl in *. by subst. }
  split; [by rewrite Hrun, Hsel|]. by exists s.
Qed.

Lemma select_model_models_of (s : AtomArrayStack) (r : structure) :
  select_model s None = Ok r -> models_of r = s.
Proof.
  unfold select_model. destruct s as [|a [|b s]]; simpl; intros; by simplify_eq.
Qed.

(** The structures [get_structure] selects from do not depend on the
    model asked for. *)
Lemma get_structure_select (f : XYZFile) (r : structure) :
  (get_structure None f).2 = Ok r ->
  forall model, (get_structure model f).2 = select_model (models_of r) model.
Proof.
  intros Hrun model.
  destruct (Nat.le_gt_cases (length (lines f)) 2) as [Hle|Hlt].
  { rewrite get_structure_empty in Hrun by done. done. }
  destruct (get_header None f) as [f1 [h|e]] eqn:Hh.
  2:{ rewrite (get_structure_header_raise _ _ _ _ Hlt Hh) in Hrun. done. }
  rewrite (get_structure_run _ _ _ _ Hlt Hh) in Hrun.
  rewrite (get_structure_run _ _ _ _ Hlt Hh).
  destruct (_structures f) as [s|].
  - simpl in *. by rewrite (select_model_models_of _ _ Hrun).
  - destruct (parse_structures _ _ _) as [s|e]; [|done].
    simpl in *. by rewrite (select_model_models_of _ _ Hrun).
Qed.

(** X14: the model that [get_structure] returns for an index is the
    model at that place, counted from 0, among the models it returns
    without an index; an index from [-K] to [-1] counts from the last of
    the [K] models, and any other index raises the exception of the
    stack. *)
Theorem get_structure_model_index (f : XYZFile) (r : structure) :
  (get_structure None f).2 = Ok r ->
  let models := models_of r in
  let K := Z.of_nat (length models) in
  (forall i a, models !! i = Some a ->
     (get_structure (Some (Z.of_nat i)) f).2 = Ok (Single a)
     /\ (get_structure (Some (Z.of_nat i - K)) f).2 = Ok (Single a))
  /\ (forall m, m < - K \/ K <= m ->
        exists msg, (get_structure (Some m) f).2 = Raise (IndexError msg)).
Proof.
  intros Hrun models K.
  pose proof (get_structure_select f r Hrun) as Hsel. fold models in Hsel.
  split.
  - intros i a Hi. pose proof (lookup_lt_Some _ _ _ Hi) as Hlt.
    rewrite !Hsel. unfold select_model. split.
    + by rewrite (stack_index_nat _ _ _ Hi).
    + unfold stack_index. cbv zeta. fold K.
      replace (Z.of_nat i - K <? 0) with true by (symmetry; apply Z.ltb_lt; lia).
      replace (Z.of_nat i - K + K) with (Z.of_nat i) by lia.
      replace (Z.of_nat i <? 0) with false by (symmetry; apply Z.ltb_ge; lia).
      by rewrite Nat2Z.id, Hi.
  - intros m Hm. rewrite Hsel. unfold select_model, stack_index. cbv zeta. fold K.
    destruct (Z.ltb_spec m 0) as [Hneg|Hpos].
    + replace (m + K <? 0) with true by (symmetry; apply Z.ltb_lt; lia).
      by eexists.
    + replace (m <? 0) with false by (symmetry; apply Z.ltb_ge; lia).
      rewrite lookup_ge_None_2 by lia. by eexists.
Qed.

(** ** [set_structure] on any file object *)

Lemma same_caches_refl (f : XYZFile) : same_caches f f.
Proof. by split_and!. Qed.

Lemma same_caches_trans (f f' f'' : XYZFile) :
  same_caches f f' -> same_caches f' f'' -> same_caches f f''.
Proof.
  intros (H1 & H2 & H3 & H4 & H5) (H1' & H2' & H3' & H4' & H5').
  split_and!; [congruence..|lia].
Qed.

Lemma keeps_caches_bind {A B} (m : M A) (k : A -> M B) :
  keeps_caches m -> (forall a, keeps_caches (k a)) -> keeps_caches (bind m k).
Proof.
  intros Hm Hk f. unfold bind. specialize (Hm f).
  destruct (m f) as [f' [a|e]]; [|done].
  eapply same_caches_trans; [exact Hm|apply Hk].
Qed.

Lemma keeps_caches_ret {A} (a : A) : keeps_caches (ret a).
Proof. intros f. apply same_caches_refl. Qed.

Lemma keeps_caches_lift {A} (r : result A) : keeps_caches (lift r).
Proof. intros f. apply same_caches_refl. Qed.

Lemma keeps_caches_self : keeps_caches self.
Proof. intros f. apply same_caches_refl. Qed.

Lemma keeps_caches_set_line (i : nat) (v : str) : keeps_caches (set_line i v).
Proof.
  intros f. unfold set_line, py_set_item. unfold_M. cbv zeta.
  destruct (_ && _); [|apply same_caches_refl].
  split_and!; try done. cbn [fst lines with_lines]. by rewrite length_insert.
Qed.

Lemma keeps_caches_append (extra : list str) :
  keeps_caches (update (fun f => with_lines f (lines f ++ extra))).
Proof.
  intros f. unfold update. split_and!; try done.
  cbn [fst lines with_lines]. rewrite length_app. lia.
Qed.

Lemma keeps_caches_for_each {A} (l : list A) (body : A -> M unit) :
  (forall x, keeps_caches (body x)) -> keeps_caches (for_each l body).
Proof.
  intros Hbody. induction l as [|x l IH]; simpl.
  - apply keeps_caches_ret.
  - apply keeps_caches_bind; [apply Hbody|]. intros _. apply IH.
Qed.

Lemma set_structure_keeps_caches (atoms : structure) : keeps_caches (set_structure atoms).
Proof.
  destruct atoms as [atoms|atoms]; unfold set_structure.
  - apply keeps_caches_bind; [apply keeps_caches_set_line|]. intros _.
    apply keeps_caches_bind; [apply keeps_caches_self|]. intros f.
    apply keeps_caches_bind; [apply keeps_caches_lift|]. intros l1.
    apply keeps_caches_bind.
    { destruct (length l1 =? 0)%nat; [apply keeps_caches_set_line|apply keeps_caches_ret]. }
    intros _. apply keeps_caches_bind; [apply keeps_caches_append|]. intros _.
    apply keeps_caches_for_each. intros [i atom]. apply keeps_caches_set_line.
  - apply keeps_caches_bind; [apply keeps_caches_lift|]. intros a0.
    apply keeps_caches_bind; [apply keeps_caches_append|]. intros _.
    apply keeps_caches_for_each. intros [i atoms_i].
    apply keeps_caches_bind; [apply keeps_caches_lift|]. intros a0'.
    apply keeps_caches_bind; [apply keeps_caches_set_line|]. intros _.
    apply keeps_caches_bind; [apply keeps_caches_set_line|]. intros _.
    apply keeps_caches_for_each. intros [j atom]. apply keeps_caches_set_line.
Qed.

(** X15: [set_structure] writes lines and nothing else.  Whether it
    returns or raises, the cached names, atom counts, model starts and
    structures are the ones from before, and the buffer has not become
    shorter. *)
Theorem set_structure_frame (atoms : structure) (f : XYZFile) :
  let f' := (set_structure atoms f).1 in
  _mol_names f' = _mol_names f
  /\ _atom_numbers f' = _atom_numbers f
  /\ _model_start_inds f' = _model_start_inds f
  /\ _structures f' = _structures f
  /\ (length (lines f) <= length (lines f'))%nat.
Proof. apply set_structure_keeps_caches. Qed.

(** X16: the structures are not parsed again after [set_structure].
    Once [get_structure] has returned on a file object, it returns the
    same structure after any structure has been written to that file
    object. *)
Theorem get_structure_after_set_structure (f0 f : XYZFile) (model : option Z)
        (r : structure) (atoms : structure) :
  get_structure model f0 = (f, Ok r) ->
  (get_structure model (set_structure atoms f).1).2 = Ok r.
Proof.
  intros (Hlt & Hl & ns & names & s & h & Han & Hmn & Hst & Hsi & Hv & Hsel & _)%get_structure_ok_inv.
  destruct (set_structure_keeps_caches atoms f) as (Hmn' & Han' & _ & Hst' & Hlen).
  rewrite (get_structure_cached_run _ model ns names s h); try congruence.
  - done.
  - rewrite Hl in Hlen. lia.
Qed.

Lemma with_lines_twice (f : XYZFile) (ls ls' : list str) :
  with_lines (with_lines f ls) ls' = with_lines f ls'.
Proof. done. Qed.

(** X17: a single model of [n] atoms written to a buffer that has its
    two header lines: the count goes on the first line, the second line
    keeps its text unless it is empty, and the atoms go on the [n] lines
    after it.  The buffer grows by [n] empty lines at its end: the lines
    it held below these [n] lines stay where they were. *)
Theorem set_structure_single_lines (f : XYZFile) (atoms : AtomArray)
        (l0 l1 : str) (rest : list str) :
  lines f = l0 :: l1 :: rest ->
  set_structure (Single atoms) f
  = (with_lines f
       (str_of_nat (length atoms)
        :: (if (length l1 =? 0)%nat then default_mol_name else l1)
        :: map atom_line_left atoms
        ++ drop (length atoms) (rest ++ replicate (length atoms) [])),
     Ok tt).
Proof.
  intros Hl. unfold set_structure.
  unfold bind at 1. rewrite set_line_run by (rewrite Hl; simpl; lia).
  unfold bind at 1. unfold self at 1. unfold bind at 1. unfold lift at 1.
  cbn [lines with_lines]. rewrite Hl. cbn [insert list_insert].
  rewrite (py_index_nat _ 1). cbn [lookup list_lookup].
  unfold bind at 1.
  assert ((if (length l1 =? 0)%nat then set_line 1 default_mol_name else ret tt)
            (with_lines f (str_of_nat (length atoms) :: l1 :: rest))
          = (with_lines f (str_of_nat (length atoms)
                           :: (if (length l1 =? 0)%nat then default_mol_name else l1)
                           :: rest), Ok tt)) as ->.
  { destruct (length l1 =? 0)%nat; [|done].
    rewrite set_line_run by (simpl; lia). by rewrite with_lines_twice. }
  unfold bind at 1. unfold update at 1. rewrite with_lines_twice.
  cbn [lines with_lines]. unfold enumerate.
  rewrite (for_each_set_lines atoms atom_line_left (fun j => (j + 2)%nat) 2 0
             [str_of_nat (length atoms);
              if (length l1 =? 0)%nat then default_mol_name else l1]
             (rest ++ replicate (length atoms) [])).
  - by rewrite with_lines_twice.
  - intros j. lia.
  - done.
  - done.
  - rewrite length_app, length_replicate. lia.
Qed.

(** X18: a stack of [k] models of [n] atoms written to any buffer: the
    buffer grows by [k * (n + 2)] empty lines at its end, and the [k]
    blocks of [n + 2] lines take the place of its first [k * (n + 2)]
    lines.  The lines it held below them stay where they were. *)
Theorem set_structure_stack_any_lines (f : XYZFile) (m0 : AtomArray)
        (models : AtomArrayStack) (n : nat) :
  Forall (fun m => length m = n) (m0 :: models) ->
  set_structure (Stack (m0 :: models)) f
  = (with_lines f
       (stack_blocks n (m0 :: models)
        ++ drop (length (m0 :: models) * (n + 2))
                (lines f ++ replicate ((n + 2) * length (m0 :: models)) [])),
     Ok tt)
  /\ length (drop (length (m0 :: models) * (n + 2))
                  (lines f ++ replicate ((n + 2) * length (m0 :: models)) []))
     = length (lines f).
Proof.
  intros Hm. pose proof (Forall_inv Hm) as Hm0. simpl in Hm0. split.
  - unfold set_structure.
    unfold bind at 1. unfold lift at 1. rewrite stack_index_0.
    unfold bind at 1. unfold update at 1. rewrite Hm0.
    rewrite (for_each_stack_blocks (m0 :: models) m0 n (m0 :: models) 0 []
               (lines f ++ replicate ((n + 2) * length (m0 :: models)) [])).
    + by rewrite with_lines_twice.
    + apply stack_index_0.
    + done.
    + done.
    + done.
    + done.
    + rewrite length_app, length_replicate. lia.
  - rewrite length_drop, length_app, length_replicate. lia.
Qed.

(** ** More on reading back what [set_structure] wrote *)

(** X19: the models of a stack written into a fresh file are read back
    one by one under the index they had in the stack, counted from 0. *)
Theorem roundtrip_model_index (elements : list str) (ms ms' : AtomArrayStack)
        (i : nat) (m' : AtomArray) :
  ms <> [] -> elements <> [] ->
  Forall (fun m => map element m = elements) ms ->
  Forall2 (Forall2 atom_reread) ms ms' ->
  ms' !! i = Some m' ->
  (get_structure (Some (Z.of_nat i)) (set_structure (Stack ms) init).1).2
  = Ok (Single m').
Proof.
  intros Hne Hel Hms Hre Hi.
  pose proof (roundtrip_stack elements ms ms' Hne Hel Hms Hre) as Hall.
  rewrite (get_structure_select _ _ Hall).
  replace (models_of (match ms' with [m] => Single m | _ => Stack ms' end)) with ms'
    by (by destruct ms' as [|? [|? ?]]).
  unfold select_model. by rewrite (stack_index_nat _ _ _ Hi).
Qed.

Lemma boundaries_numeric_run (k : nat) (ls : list str) :
  Forall (fun l => isdigit (strip l) = true) ls ->
  boundaries true k (ls ++ [[]; []]) = [].
Proof.
  intros Hls. revert k. induction Hls as [|l ls Hl _ IH]; intros k; [done|].
  cbn [app boundaries]. rewrite Hl. cbn [andb negb]. apply IH.
Qed.

Lemma empty_blocks_numeric (i0 : nat) (ms : AtomArrayStack) :
  Forall (fun m => m = []) ms ->
  Forall (fun l => isdigit (strip l) = true)
         (concat (map (fun '(i, m) => stack_block 0 i m) (enumerate_from i0 ms))).
Proof.
  intros Hms. revert i0. induction Hms as [|m ms -> _ IH]; intros i0; [constructor|].
  cbn [enumerate_from map]. rewrite concat_cons. unfold stack_block at 1.
  cbn [map app]. constructor; [|constructor; [|apply IH]].
  - rewrite <- (app_nil_l (str_of_nat 0)). by apply isdigit_str_of_nat.
  - apply isdigit_str_of_nat. by repeat constructor.
Qed.

(** X20: a stack of models without atoms does not come back as it was
    written.  The count lines and the name lines, which hold the rank of
    the model, are all numeric and follow each other, so that only the
    first of them starts a model: whatever the number of models written,
    one model without atoms is read. *)
Theorem empty_models_collapse (ms : AtomArrayStack) :
  ms <> [] ->
  Forall (fun m => m = []) ms ->
  (set_structure (Stack ms) init).2 = Ok tt
  /\ start_lines (lines (set_structure (Stack ms) init).1) = [0%nat]
  /\ (get_structure None (set_structure (Stack ms) init).1).2 = Ok (Single []).
Proof.
  intros Hne Hms. destruct ms as [|m0 ms]; [done|].
  apply Forall_cons in Hms as [-> Hms].
  assert (Forall (fun m : AtomArray => length m = 0%nat) ([] :: ms)) as Hlen.
  { constructor; [done|]. eapply Forall_impl; [exact Hms|]. by intros m ->. }
  rewrite (set_structure_stack_run _ _ _ Hlen). cbn [fst snd].
  set (tl := concat (map (fun '(i, m) => stack_block 0 i m) (enumerate_from 1 ms))).
  assert (stack_blocks 0 ([] :: ms) ++ [[]; []]
          = str_of_nat 0 :: (txt " " ++ str_of_nat 0) :: tl ++ [[]; []]) as Hls by done.
  rewrite Hls. clear Hls.
  assert (start_lines (str_of_nat 0 :: (txt " " ++ str_of_nat 0) :: tl ++ [[]; []])
          = [0%nat]) as Hstart.
  { rewrite start_lines_boundaries.
    change (str_of_nat 0 :: (txt " " ++ str_of_nat 0) :: tl ++ [[]; []])
      with (str_of_nat 0 :: ((txt " " ++ str_of_nat 0) :: tl) ++ [[]; []]).
    cbn [boundaries]. replace (isdigit (strip (str_of_nat 0))) with true by done.
    cbn [andb negb]. f_equal. apply boundaries_numeric_run.
    constructor; [done|]. by apply empty_blocks_numeric. }
  split_and!; [done|done|].
  rewrite (get_structure_fresh _ None [0] [strip (txt " " ++ str_of_nat 0)] [[]]);
    try done.
  - cbn [lines with_lines length]. rewrite length_app. simpl. lia.
  - cbn [lines with_lines]. by rewrite Hstart.
  - cbn [lines with_lines]. by rewrite Hstart.
  - cbn [lines with_lines]. rewrite Hstart. unfold parse_structures, enumerate.
    cbn [enumerate_from map_result].
    by rewrite (parse_model_at _ [0] 0 0 (mkBlock (str_of_nat 0) (txt " " ++ str_of_nat 0) [])
               (tl ++ [[]; []])).
Qed.

(** ** Atom lines *)

(** X21: the number of blanks before, between and after the four fields
    of an atom line does not matter: the line is a body line for the
    count of models, and it parses to the atom with the label of the
    first field and the numbers [float] reads in the three others. *)
Theorem parse_atom_line_any_spacing (el tx ty tz : str) (x y z : float)
        (a0 a1 a2 a3 a4 : nat) :
  token el -> token tx -> token ty -> token tz ->
  float_of_str tx = Some x -> float_of_str ty = Some y -> float_of_str tz = Some z ->
  isnan x = false -> isnan y = false -> isnan z = false ->
  parse_atom_line (spaced a0 el a1 tx a2 ty a3 tz a4) = Ok (mkAtom el (x, y, z))
  /\ is_body_line (spaced a0 el a1 tx a2 ty a3 tz a4) = true.
Proof.
  intros Hel Htx Hty Htz Hx Hy Hz Hnx Hny Hnz. split.
  - unfold parse_atom_line. cbv zeta. rewrite line_fields_spaced by done.
    rewrite (py_index_nat _ 1), (py_index_nat _ 2), (py_index_nat _ 3).
    cbn [lookup list_lookup bind_result]. unfold py_float.
    rewrite Hx, Hy, Hz. cbn [bind_result]. rewrite Hnx, Hny, Hnz.
    cbn [orb]. by rewrite (py_index_nat _ 0).
  - unfold is_body_line. by rewrite split_ws_spaced.
Qed.

(** ** The headers of what [set_structure] wrote *)

Lemma stack_blocks_written (n : nat) (ms : AtomArrayStack) :
  stack_blocks n ms = concat (map block_lines (written_blocks n ms)).
Proof.
  unfold stack_blocks, written_blocks. rewrite map_map. f_equal.
  apply map_ext. by intros [i m].
Qed.

Lemma atom_line_right_writable_not_numeric (a : Atom) :
  writable a -> isdigit (strip (atom_line_right a)) = false.
Proof.
  intros (Hel & _ & _ & Hz). rewrite atom_line_right_spaced. by apply isdigit_spaced.
Qed.

Lemma atom_line_left_writable_not_numeric (a : Atom) :
  writable a -> isdigit (strip (atom_line_left a)) = false.
Proof.
  intros (Hel & _ & _ & Hz). rewrite atom_line_left_spaced. by apply isdigit_spaced.
Qed.

Lemma written_block_header (n i : nat) (m : AtomArray) :
  m <> [] -> Forall writable m ->
  header_block (written_block n i m) (Z.of_nat n).
Proof.
  intros Hne Hm. unfold header_block, written_block. cbn [count_line name_line body_lines].
  split_and!.
  - rewrite <- (app_nil_l (str_of_nat n)). by apply isdigit_str_of_nat.
  - apply py_int_str_of_nat.
  - right. by destruct m.
  - apply Forall_map. eapply Forall_impl; [exact Hm|].
    apply atom_line_right_writable_not_numeric.
Qed.

Lemma written_blocks_header (n i0 : nat) (ms : AtomArrayStack) :
  Forall (fun m => m <> []) ms ->
  Forall (Forall writable) ms ->
  Forall2 header_block
    (map (fun '(i, m) => written_block n i m) (enumerate_from i0 ms))
    (replicate (length ms) (Z.of_nat n)).
Proof.
  intros Hne Hw. revert i0 Hw.
  induction Hne as [|m ms Hm _ IH]; intros i0 Hw; [constructor|].
  apply Forall_cons in Hw as [Hwm Hw]. cbn [enumerate_from map length replicate].
  constructor; [by apply written_block_header|by apply IH].
Qed.

Lemma strip_rank (i : nat) : strip (txt " " ++ str_of_nat i) = str_of_nat i.
Proof.
  destruct (str_of_nat_token i) as [Hne Hsp]. unfold strip.
  rewrite <- (app_nil_r (str_of_nat i)) at 1.
  apply strip_by_token; [by repeat constructor|done|done|done].
Qed.

Lemma written_blocks_names (n i0 : nat) (ms : AtomArrayStack) :
  map (fun b => strip (name_line b))
      (map (fun '(i, m) => written_block n i m) (enumerate_from i0 ms))
  = map str_of_nat (seq i0 (length ms)).
Proof.
  revert i0. induction ms as [|m ms IH]; intros i0; [done|].
  cbn [enumerate_from map length seq]. rewrite IH. f_equal.
  unfold written_block. cbn [name_line]. apply strip_rank.
Qed.

(** X22: the header of a single model written into a fresh file is the
    number of its atoms with the default name. *)
Theorem get_header_after_single (atoms : AtomArray) :
  Forall writable atoms ->
  (get_header None (set_structure (Single atoms) init).1).2
  = Ok (HeaderOne (Z.of_nat (length atoms)) default_mol_name).
Proof.
  intros Ha. rewrite set_structure_single_run. cbn [fst].
  rewrite (get_header_blocks _
             [mkBlock (str_of_nat (length atoms)) default_mol_name
                      (map atom_line_left atoms)]
             [Z.of_nat (length atoms)] []); try done.
  - cbn [lines with_lines map concat block_lines count_line name_line body_lines].
    by rewrite !app_nil_r.
  - constructor; [|constructor]. split_and!.
    + cbn [count_line]. rewrite <- (app_nil_l (str_of_nat _)). by apply isdigit_str_of_nat.
    + cbn [count_line]. apply py_int_str_of_nat.
    + by left.
    + cbn [body_lines]. apply Forall_map. eapply Forall_impl; [exact Ha|].
      apply atom_line_left_writable_not_numeric.
Qed.

(** X23: the headers of a stack of [k] models of [n >= 1] atoms written
    into a fresh file are [k] times the number [n], and as names the
    ranks of the models from 0 to [k - 1]; a stack of one model gives the
    header of that model. *)
Theorem get_header_after_stack (ms : AtomArrayStack) (n : nat) :
  ms <> [] -> (1 <= n)%nat ->
  Forall (fun m => length m = n) ms ->
  Forall (Forall writable) ms ->
  (get_header None (set_structure (Stack ms) init).1).2
  = Ok (match ms with
        | [_] => HeaderOne (Z.of_nat n) (str_of_nat 0)
        | _ => HeaderAll (replicate (length ms) (Z.of_nat n))
                         (map str_of_nat (seq 0 (length ms)))
        end).
Proof.
  intros Hne Hn Hlen Hw. destruct ms as [|m0 ms]; [done|].
  rewrite (set_structure_stack_run _ _ _ Hlen). cbn [fst].
  rewrite (get_header_blocks _ (written_blocks n (m0 :: ms))
             (replicate (length (m0 :: ms)) (Z.of_nat n)) [[]; []]); try done.
  - unfold written_blocks, enumerate. rewrite written_blocks_names.
    destruct ms as [|m1 ms]; [|done].
    cbn [length replicate enumerate_from map]. unfold written_block.
    cbn [name_line]. by rewrite strip_rank.
  - cbn [lines with_lines]. by rewrite stack_blocks_written.
  - apply written_blocks_header; [|done].
    eapply Forall_impl; [exact Hlen|]. intros m Hm ->. simpl in Hm. lia.
  - by repeat constructor.
Qed.

(** X24: [get_header] reads the header lines once.  After a call that
    returns, a second call leaves the file object as it is and returns the
    same header, also after a structure has been written to the file
    object. *)
Theorem get_header_cached (f f1 : XYZFile) (model : option Z) (h : header) :
  get_header model f = (f1, Ok h) ->
  get_header model f1 = (f1, Ok h)
  /\ forall atoms, (get_header model (set_structure atoms f1).1).2 = Ok h.
Proof.
  intros (ns & names & _ & -> & Hv)%get_header_ok. split.
  - rewrite (get_header_read _ ns names) by done. by rewrite Hv.
  - intros atoms.
    destruct (set_structure_keeps_caches atoms (with_headers f ns names))
      as (Hmn & Han & _).
    rewrite (get_header_read _ ns names); [done|].
    unfold header_read. by rewrite Hmn, Han.
Qed.

(** ** [set_header] on a file of several models *)

Lemma written_blocks_lines (n i0 : nat) (ms : AtomArrayStack) :
  map block_lines (map (fun '(i, m) => written_block n i m) (enumerate_from i0 ms))
  = map (fun '(i, m) => stack_block n i m) (enumerate_from i0 ms).
Proof. rewrite map_map. apply map_ext. by intros [i m]. Qed.

Lemma atom_reread_writable (a a' : Atom) : atom_reread a a' -> writable a.
Proof. intros (Hel & _ & (Hx & _) & (Hy & _) & (Hz & _)). by split_and!. Qed.

Lemma np_str_str_of_nat (n : nat) : np_str (str_of_nat n) = str_of_nat n.
Proof.
  destruct (str_of_nat_decimal n) as [_ Hdec]. unfold np_str, rstrip_by.
  assert (Forall (fun c => (ord c =? 0)%nat = false) (rev (str_of_nat n))) as Hrev.
  { apply Forall_rev. eapply Forall_impl; [exact Hdec|].
    intros c Hc. destruct c as [[] [] [] [] [] [] [] []]; by vm_compute in Hc |- *. }
  destruct (rev (str_of_nat n)) as [|c r] eqn:Hr.
  - apply (f_equal (@rev ascii)) in Hr. by rewrite rev_involutive in Hr.
  - rewrite drop_while_head by (by inversion Hrev).
    by rewrite <- Hr, rev_involutive.
Qed.

(** With more than two lines that are not body lines, the first count is
    the text of the first of them. *)
Lemma number_of_atoms_head (l0 : str) (rest : list str) :
  is_body_line l0 = false ->
  (2 < count_non_body (l0 :: rest))%nat ->
  exists tl, number_of_atoms (l0 :: rest) = CountText (np_str l0) :: tl.
Proof.
  intros Hl0 Hlt. unfold number_of_atoms.
  rewrite non_body_indices_length.
  replace (count_non_body (l0 :: rest) <=? 2)%nat with false
    by (symmetry; apply Nat.leb_gt; lia).
  rewrite indices_where_map. cbn [indices_where].
  change (length (split_ws l0) =? 4)%nat with (is_body_line l0). rewrite Hl0. cbn [negb].
  assert (1 <= count_non_body (l0 :: rest) / 2)%nat as Hnum
    by (apply Nat.div_le_lower_bound; lia).
  destruct (count_non_body (l0 :: rest) / 2)%nat as [|num]; [lia|].
  cbn [seq map]. by eexists.
Qed.

(** X25: without an index, [set_header] keeps one name and one atom
    count, also on a buffer that holds several models.  After it has been
    called on a fresh file object into which a stack of two models or more
    was written, [get_header] returns the header of one model, and
    [get_structure] finds no atom count for the second model start and
    raises the exception of the list. *)
Theorem set_header_on_stack (ms ms' : AtomArrayStack) (n : nat) (mol_name : str) :
  (2 <= length ms)%nat -> (1 <= n)%nat ->
  Forall (fun m => length m = n) ms ->
  Forall2 (Forall2 atom_reread) ms ms' ->
  exists f2,
    set_header mol_name None (set_structure (Stack ms) init).1 = (f2, Ok tt)
    /\ lines f2 !! 1%nat = Some mol_name
    /\ (get_header None f2).2 = Ok (HeaderOne (Z.of_nat n) mol_name)
    /\ (get_structure None f2).2 = Raise (IndexError (txt "list index out of range")).
Proof.
  intros Hk Hn Hlen Hre.
  assert (Forall (Forall writable) ms) as Hw.
  { clear Hk Hlen. induction Hre as [|m m' ms ms' Hm _ IH]; constructor; [|done].
    clear IH. induction Hm as [|a a' m m' Ha _ IH]; constructor; [|done].
    by eapply atom_reread_writable. }
  assert (Forall (fun m : AtomArray => m <> []) ms) as Hne.
  { eapply Forall_impl; [exact Hlen|]. intros m Hm ->. simpl in Hm. lia. }
  destruct ms as [|m0 [|m1 ms]]; [simpl in Hk; lia..|].
  destruct ms' as [|m0' ms']; [by inversion Hre|].
  pose proof (Forall2_cons_1 _ _ _ _ _ Hre) as [Hm0 _].
  pose proof (Forall_inv Hlen) as Hlen0. cbn beta in Hlen0.
  rewrite (set_structure_stack_run _ _ _ Hlen). cbn [fst].
  set (f1 := with_lines init (stack_blocks n (m0 :: m1 :: ms) ++ [[]; []])).
  set (tail_blocks := map (fun '(i, m) => written_block n i m) (enumerate_from 1 (m1 :: ms))).
  set (rest := concat (map block_lines tail_blocks) ++ [[]; []]).
  assert (lines f1 = str_of_nat n :: (txt " " ++ str_of_nat 0)
                     :: map atom_line_right m0 ++ rest) as Hl1.
  { unfold f1, rest, tail_blocks. cbn [lines with_lines].
    rewrite stack_blocks_written. unfold written_blocks, enumerate.
    cbn [enumerate_from map]. rewrite concat_cons.
    unfold written_block at 1, block_lines at 1. cbn [count_line name_line body_lines].
    by rewrite <- !app_assoc. }
  (* the headers of the file as written *)
  assert (header_read f1 (replicate (length (m0 :: m1 :: ms)) (Z.of_nat n))
            (map str_of_nat (seq 0 (length (m0 :: m1 :: ms))))) as Hread.
  { rewrite <- (written_blocks_names n 0).
    eapply (header_read_blocks f1 (written_blocks n (m0 :: m1 :: ms)) _ [[]; []]);
      try done.
    - unfold f1. cbn [lines with_lines]. by rewrite stack_blocks_written.
    - by apply written_blocks_header.
    - by repeat constructor. }
  destruct (set_header_start f1 _ _ Hread) as (f1' & Hset & Hmn1 & _ & Hl1' & Hst1).
  { by rewrite length_map, length_seq, length_replicate. }
  rewrite Hl1 in Hl1'.
  (* the first count of the file with the new name *)
  assert (is_body_line (str_of_nat n) = false) as Hcount0.
  { rewrite <- (app_nil_l (str_of_nat n)).
    apply is_body_line_one_field; [done|apply str_of_nat_token]. }
  destruct (number_of_atoms_head (str_of_nat n)
              (mol_name :: map atom_line_right m0 ++ rest) Hcount0) as [tl Hcount].
  { change (str_of_nat n :: mol_name :: map atom_line_right m0 ++ rest)
      with ([str_of_nat n; mol_name] ++ map atom_line_right m0 ++ rest).
    rewrite !count_non_body_app. unfold rest, tail_blocks.
    rewrite count_non_body_app, written_blocks_lines.
    rewrite (count_non_body_stack_blocks n 1 (m1 :: ms)).
    - change (count_non_body [[]; []]) with 2%nat.
      assert (1 <= count_non_body [str_of_nat n; mol_name])%nat.
      { unfold count_non_body. cbn [List.filter]. rewrite Hcount0. simpl.
        destruct (negb (is_body_line mol_name)); simpl; lia. }
      simpl length. lia.
    - apply Forall_cons in Hw as [_ Hw]. done. }
  rewrite np_str_str_of_nat in Hcount.
  assert (map atom_line_right m0 ++ rest <> []) as Hbody.
  { destruct m0; [simpl in Hlen0; lia|done]. }
  pose proof (set_header_none_run f1' _ _ _ _ mol_name _ tl (Z.of_nat n)
                Hmn1 Hl1' Hbody Hcount (py_int_str_of_nat_plain n)) as Hrun.
  cbn [str_of_count] in Hrun. rewrite Hst1 in Hrun.
  change (_structures f1) with (@None AtomArrayStack) in Hrun.
  eexists. split; [rewrite Hset; exact Hrun|].
  split; [done|]. split; [reflexivity|].
  (* the model starts are those of the file as written *)
  set (ls := str_of_nat n :: mol_name :: map atom_line_right m0 ++ rest).
  set (f2 := mkXYZFile ls (Some [mol_name]) (Some [Z.of_nat n])
                       (Some (start_lines ls)) None).
  assert (start_lines ls
          = block_offsets 0 (mkBlock (str_of_nat n) mol_name (map atom_line_right m0)
                             :: tail_blocks)) as Hstart.
  { rewrite start_lines_boundaries.
    rewrite <- (boundaries_blocks 0 _ (replicate (length (m0 :: m1 :: ms)) (Z.of_nat n))
                  [[]; []]).
    - unfold ls, rest. cbn [map]. rewrite concat_cons. unfold block_lines at 2.
      cbn [count_line name_line body_lines]. by rewrite <- !app_assoc.
    - cbn [length replicate]. constructor.
      + unfold header_block. cbn [count_line name_line body_lines]. split_and!.
        * rewrite <- (app_nil_l (str_of_nat n)). by apply isdigit_str_of_nat.
        * apply py_int_str_of_nat.
        * right. destruct m0; [simpl in Hlen0; lia|done].
        * apply Forall_map. apply Forall_inv in Hw.
          eapply Forall_impl; [exact Hw|]. apply atom_line_right_writable_not_numeric.
      + apply (written_blocks_header n 1 (m1 :: ms)).
        * by apply Forall_cons in Hne as [_ Hne].
        * by apply Forall_cons in Hw as [_ Hw].
    - by repeat constructor. }
  assert (header_read f2 [Z.of_nat n] [mol_name]) as Hread2 by done.
  pose proof (get_header_read f2 _ _ None Hread2) as Hh.
  change (header_value [Z.of_nat n] [mol_name] None)
    with (Ok (HeaderOne (Z.of_nat n) mol_name)) in Hh.
  assert (2 < length (lines f2))%nat as Hlt2.
  { unfold f2, ls, rest. cbn [lines length]. rewrite !length_app. simpl. lia. }
  rewrite (get_structure_run f2 _ _ None Hlt2 Hh).
  cbn [_structures f2 lines].
  replace (current_atom_numbers (with_headers f2 [Z.of_nat n] [mol_name]))
    with [Z.of_nat n] by done.
  rewrite (parse_structures_first_raise ls [Z.of_nat n] (start_lines ls) 1
             (0 + length (block_lines (mkBlock (str_of_nat n) mol_name
                                               (map atom_line_right m0))))%nat
             (IndexError (txt "list index out of range"))); [done| | |].
  - rewrite Hstart. unfold tail_blocks. done.
  - intros j ind_j Hj Hind. assert (j = 0%nat) as -> by lia.
    rewrite Hstart in Hind. cbn in Hind. injection Hind as <-.
    exists m0'.
    apply (parse_model_block ls _ 0 0 (str_of_nat n) mol_name m0 m0'
             atom_line_right rest); [by rewrite Hlen0|done| |done].
    apply atom_line_right_parse.
  - unfold parse_model. by rewrite (py_index_nat _ 1).
Qed.

(** ** Body lines that do not parse *)

(** X26: [get_structure] stops at the first body line that does not
    parse and raises the exception of that line: the exception of the list
    when a field is missing, the exception of [float] when a coordinate is
    not a number. *)
Theorem get_structure_first_bad_line (f f1 : XYZFile) (h : header) (model : option Z)
        (i ind : nat) (n : Z) (j : nat) (line : str) (e : exn) :
  _structures f = None ->
  (2 < length (lines f))%nat ->
  get_header None f = (f1, Ok h) ->
  start_lines (lines f) !! i = Some ind ->
  current_atom_numbers f1 !! i = Some n ->
  0 <= n ->
  models_before_parse (lines f) (current_atom_numbers f1) (start_lines (lines f)) i ->
  Z.of_nat (length (span (lines f) ind n)) = n + 2 ->
  drop 2 (span (lines f) ind n) !! j = Some line ->
  lines_before_parse (drop 2 (span (lines f) ind n)) j ->
  parse_atom_line line = Raise e ->
  get_structure model f = (f1, Raise e)
  /\ ((length (line_fields line) <= 1)%nat ->
      e = IndexError (txt "list index out of range"))
  /\ (forall t1, line_fields line !! 1%nat = Some t1 -> float_of_str t1 = None ->
      e = ValueError (txt "could not convert string to float: " ++ repr t1)).
Proof.
  intros Hst Hlt Hh Hind Hn Hpos Hbefore Hlen Hline Hlines He. split_and!.
  - rewrite (get_structure_run _ _ _ _ Hlt Hh), Hst.
    rewrite (parse_structures_first_raise _ _ _ i ind e Hind Hbefore); [reflexivity|].
    rewrite (parse_model_span _ _ _ _ _ Hn Hpos Hlen).
    by apply (map_result_first_raise _ _ j line).
  - intros Hfew. unfold parse_atom_line in He. cbv zeta in He.
    rewrite (py_index_nat _ 1), lookup_ge_None_2 in He by lia.
    simpl in He. by simplify_eq.
  - intros t1 Ht1 Hx. unfold parse_atom_line, py_float in He. cbv zeta in He.
    rewrite (py_index_nat _ 1), Ht1 in He. simpl in He. rewrite Hx in He.
    simpl in He. by simplify_eq.
Qed.

Lemma split_ws_from_field_spaces (t ws s : str) :
  token t -> ws <> [] -> Forall (fun c => isspace c = true) ws ->
  split_ws_from [] (t ++ ws ++ s) = t :: split_ws_from [] s.
Proof.
  intros [Hne Ht] Hws Hsp. rewrite split_ws_from_token by done. rewrite app_nil_r.
  destruct Hsp as [|c ws Hc Hsp]; [done|].
  cbn [app split_ws_from]. rewrite Hc.
  destruct (rev t) as [|c' r] eqn:Hr.
  - apply (f_equal (@rev ascii)) in Hr. rewrite rev_involutive in Hr. done.
  - rewrite <- Hr, rev_involutive. by rewrite split_ws_from_spaces.
Qed.

(** X27: fields separated by tabs, or by other white space that is not
    a blank, are fields for the count of models and not for
    [get_structure]: the line is a body line of four fields, and the inner
    loop, which cuts at blanks only, finds one field and raises the
    exception of the list. *)
Theorem parse_atom_line_other_space (el tx ty tz s1 s2 s3 : str) :
  token el -> token tx -> token ty -> token tz ->
  other_space s1 -> other_space s2 -> other_space s3 ->
  let line := el ++ s1 ++ tx ++ s2 ++ ty ++ s3 ++ tz in
  is_body_line line = true
  /\ parse_atom_line line = Raise (IndexError (txt "list index out of range")).
Proof.
  intros Hel Htx Hty Htz [Hn1 Hs1] [Hn2 Hs2] [Hn3 Hs3] line.
  assert (forall s, Forall (fun c => isspace c = true /\ c <> " "%char) s ->
                    Forall (fun c => isspace c = true) s) as Hsp.
  { intros s Hs. eapply Forall_impl; [exact Hs|]. by intros c [? _]. }
  assert (forall s, Forall (fun c => isspace c = true /\ c <> " "%char) s ->
                    Forall (fun c => Ascii.eqb c " "%char = false) s) as Hnb.
  { intros s Hs. eapply Forall_impl; [exact Hs|]. intros c [_ Hc].
    by destruct (Ascii.eqb_spec c " "%char). }
  split.
  - unfold is_body_line, split_ws, line.
    rewrite !split_ws_from_field_spaces by auto.
    pose proof (split_ws_from_last tz 0 Htz) as Hlast. unfold blanks in Hlast.
    cbn [replicate] in Hlast. rewrite app_nil_r in Hlast. by rewrite Hlast.
  - assert (strip line = line) as Hstrip.
    { unfold strip, line.
      pose proof (strip_by_between isspace [] [] el (s1 ++ tx ++ s2 ++ ty ++ s3) tz) as Hb.
      rewrite app_nil_l, app_nil_r, <- !app_assoc in Hb.
      destruct Hel, Htz. by apply Hb. }
    unfold parse_atom_line, line_fields. cbv zeta. rewrite Hstrip.
    rewrite split_on_last_field.
    + simpl. by destruct (nonempty line).
    + unfold line. rewrite !Forall_app.
      split_and!; auto using token_not_blank.
Qed.

(** ** What the readers keep *)

(** X28: in the structures [get_structure] parses, every model has as
    many atoms as its count line declares: the model of rank [i] has
    [_atom_numbers[i]] atoms. *)
Theorem parsed_count_matches_header (f f' : XYZFile) (model : option Z) (r : structure) :
  _structures f = None ->
  get_structure model f = (f', Ok r) ->
  exists s ns,
    _structures f' = Some s /\ _atom_numbers f' = Some ns
    /\ forall i m, s !! i = Some m -> ns !! i = Some (Z.of_nat (length m)).
Proof.
  intros Hst Hrun.
  destruct (Nat.le_gt_cases (length (lines f)) 2) as [Hle|Hlt].
  { rewrite get_structure_empty in Hrun by done. by simplify_eq. }
  destruct (get_header None f) as [f1 [h|e]] eqn:Hh.
  2:{ rewrite (get_structure_header_raise _ _ _ _ Hlt Hh) in Hrun. by simplify_eq. }
  rewrite (get_structure_run _ _ _ _ Hlt Hh), Hst in Hrun.
  apply get_header_ok in Hh as (ns & names & _ & -> & _).
  change (current_atom_numbers (with_headers f ns names)) with ns in Hrun.
  destruct (parse_structures _ _ _) as [s|e] eqn:Hparse; [|by simplify_eq].
  simplify_eq. exists s, ns. split_and!; [done..|].
  intros i m Hm. unfold parse_structures in Hparse.
  destruct (map_result _ (enumerate (start_lines (lines f)))) as [arrays|] eqn:Harrays;
    [|done].
  simpl in Hparse. apply stack_ok in Hparse as [-> _].
  apply map_result_ok in Harrays.
  destruct (Forall2_lookup_r _ _ _ _ _ Harrays Hm) as ([j ind] & Hj & Hmodel).
  unfold enumerate in Hj. rewrite enumerate_from_lookup in Hj.
  destruct (start_lines (lines f) !! i) as [ind'|]; [|done].
  simpl in Hj. injection Hj as <- <-.
  apply parse_model_ok_inv in Hmodel as (n & Hn & Hpos & Hlen & Hbody).
  rewrite Hn. f_equal.
  apply map_result_ok, Forall2_length in Hbody.
  rewrite length_drop in Hbody. lia.
Qed.

(** X29: reading does not change the lines.  Whether they return or
    raise, [get_header] and [get_structure] leave the line buffer as it
    was, and [get_model_count] leaves the whole file object as it was. *)
Theorem readers_keep_lines (f : XYZFile) (model : option Z) :
  lines (get_header model f).1 = lines f
  /\ lines (get_structure model f).1 = lines f
  /\ (get_model_count f).1 = f.
Proof.
  split_and!; [apply get_header_frame| |done].
  destruct (Nat.le_gt_cases (length (lines f)) 2) as [Hle|Hlt].
  { by rewrite get_structure_empty. }
  pose proof (get_header_frame f None) as [Hl _].
  destruct (get_header None f) as [f1 [h|e]] eqn:Hh.
  - rewrite (get_structure_run _ _ _ _ Hlt Hh).
    destruct (_structures f); [done|]. by destruct (parse_structures _ _ _).
  - by rewrite (get_structure_header_raise _ _ _ _ Hlt Hh).
Qed.

End Properties.

(** * Six decimals in binary64 *)

Section Binary64Properties.
Import Binary64.
Local Existing Instance Binary64.binary64.

(** ** Shifting and rounding *)

Lemma digits2_pos_bounds (m : positive) :
  2 ^ (Z.pos (digits2_pos m) - 1) <= Z.pos m < 2 ^ Z.pos (digits2_pos m).
Proof.
  induction m as [m IH|m IH|]; cbn [digits2_pos].
  - rewrite Pos2Z.inj_succ, Z.pow_succ_r by lia.
    replace (Z.succ (Z.pos (digits2_pos m)) - 1) with (Z.succ (Z.pos (digits2_pos m) - 1)) by lia.
    rewrite Z.pow_succ_r by lia. lia.
  - rewrite Pos2Z.inj_succ, Z.pow_succ_r by lia.
    replace (Z.succ (Z.pos (digits2_pos m)) - 1) with (Z.succ (Z.pos (digits2_pos m) - 1)) by lia.
    rewrite Z.pow_succ_r by lia. lia.
  - simpl. lia.
Qed.

Lemma shr_1_inv (A B : Z) (mrs : shr_record) :
  0 < B -> shr_inv A B mrs -> shr_inv A (2 * B) (shr_1 mrs).
Proof.
  intros HB. destruct mrs as [m r s]. unfold shr_inv. cbn [shr_m shr_r shr_s].
  intros (Hm & Hint & Hlow & Hhigh & Hexact).
  assert (r || s = false -> 2 * A = 2 * m * B) as Hex.
  { intros [-> ->]%orb_false_iff. specialize (Hexact eq_refl). lia. }
  assert (exists h b, m = 2 * h + b /\ 0 <= h /\ (b = 0 \/ b = 1)
                      /\ shr_1 {| shr_m := m; shr_r := r; shr_s := s |}
                         = {| shr_m := h; shr_r := (if b =? 0 then false else true);
                              shr_s := r || s |}) as (h & b & -> & Hh & Hb & ->).
  { destruct m as [|[p|p|]|p]; [| | | |lia].
    - exists 0, 0. by split_and!; [lia|lia|left|].
    - exists (Z.pos p), 1. by split_and!; [lia|lia|right|].
    - exists (Z.pos p), 0. by split_and!; [lia|lia|left|].
    - exists 0, 1. by split_and!; [lia|lia|right|]. }
  cbn [shr_m shr_r shr_s].
  destruct Hb as [-> | ->]; cbn [Z.eqb]; (split_and!; [lia|nia|nia|..]).
  - intros _. nia.
  - done.
  - intros H. specialize (Hex H). nia.
  - done.
  - intros _. nia.
  - intros H. specialize (Hex H). nia.
Qed.

Lemma iter_shr_inv (p : positive) (A B : Z) (mrs : shr_record) :
  0 < B -> shr_inv A B mrs -> shr_inv A (2 ^ Z.pos p * B) (SpecFloat.iter_pos shr_1 p mrs).
Proof.
  revert B mrs. induction p as [p IH|p IH|]; intros B mrs HB Hinv;
    cbn [SpecFloat.iter_pos].
  - assert (0 < 2 ^ Z.pos p) by (apply Z.pow_pos_nonneg; lia).
    assert (2 ^ Z.pos p~1 * B = 2 ^ Z.pos p * (2 ^ Z.pos p * (2 * B))) as ->.
    { replace (Z.pos p~1) with (Z.pos p + Z.pos p + 1) by lia.
      rewrite !Z.pow_add_r by lia. ring. }
    apply IH; [nia|]. apply IH; [lia|]. by apply shr_1_inv.
  - assert (0 < 2 ^ Z.pos p) by (apply Z.pow_pos_nonneg; lia).
    assert (2 ^ Z.pos p~0 * B = 2 ^ Z.pos p * (2 ^ Z.pos p * B)) as ->.
    { replace (Z.pos p~0) with (Z.pos p + Z.pos p) by lia.
      rewrite !Z.pow_add_r by lia. ring. }
    apply IH; [nia|]. by apply IH.
  - replace (2 ^ 1 * B) with (2 * B) by lia. by apply shr_1_inv.
Qed.

(** The location that a division gives. *)
Lemma div_location (a D : Z) :
  0 <= a -> 0 < D -> Z.even D = true ->
  shr_inv a D (shr_record_of_loc (a / D) (new_location D (a mod D))).
Proof.
  intros Ha HD Hev. unfold new_location. rewrite Hev. unfold new_location_even.
  pose proof (Z.div_mod a D ltac:(lia)) as Hdm.
  pose proof (Z.mod_pos_bound a D HD) as Hr.
  assert (0 <= a / D) as Hq by (apply Z.div_pos; lia).
  unfold shr_inv.
  destruct (Z.eqb_spec (a mod D) 0) as [Hz|Hnz]; cbn [shr_record_of_loc].
  - cbn [shr_m shr_r shr_s]. split_and!; try done; nia.
  - destruct (Z.compare_spec (2 * (a mod D)) D) as [Heq|Hlt|Hgt];
      cbn [shr_record_of_loc shr_m shr_r shr_s]; split_and!; try done; nia.
Qed.

(** Rounding to nearest leaves at most half a unit. *)
Lemma round_nearest_even_near (A B : Z) (mrs : shr_record) :
  0 < B -> shr_inv A B mrs ->
  let M := round_nearest_even (shr_m mrs) (loc_of_shr_record mrs) in
  shr_m mrs <= M <= shr_m mrs + 1
  /\ Z.abs (2 * (M * B - A)) <= B.
Proof.
  intros HB. destruct mrs as [m r s]. unfold shr_inv. cbn [shr_m shr_r shr_s].
  intros (Hm & Hint & Hlow & Hhigh & Hexact).
  destruct r, s; cbn [loc_of_shr_record round_nearest_even].
  - specialize (Hhigh eq_refl). split; [lia|nia].
  - specialize (Hexact eq_refl). destruct (Z.even m); split; try lia; nia.
  - specialize (Hlow eq_refl). split; [lia|nia].
  - specialize (Hexact eq_refl). split; [lia|nia].
Qed.

Lemma Zdigits2_bounds (q : Z) :
  0 < q -> 2 ^ (Zdigits2 q - 1) <= q < 2 ^ Zdigits2 q /\ 0 < Zdigits2 q.
Proof.
  destruct q as [|p|p]; [lia| |lia]. intros _. cbn [Zdigits2].
  split; [apply digits2_pos_bounds|lia].
Qed.

Lemma pow2_lt_inv (a b : Z) : 0 <= a -> 0 <= b -> 2 ^ a < 2 ^ b -> a < b.
Proof. intros Ha Hb H. apply (Z.pow_lt_mono_r_iff 2); [lia|lia|done]. Qed.

Lemma pow2_le_inv (a b : Z) : 0 <= a -> 0 <= b -> 2 ^ a <= 2 ^ b -> a <= b.
Proof. intros Ha Hb H. apply (Z.pow_le_mono_r_iff 2); [lia|lia|done]. Qed.

(** The digits of a number from [2 ^ 52] to [2 ^ 53]. *)
Lemma Zdigits2_53 (M : Z) :
  2 ^ 52 <= M <= 2 ^ 53 ->
  (M < 2 ^ 53 /\ Zdigits2 M = 53) \/ (M = 2 ^ 53 /\ Zdigits2 M = 54).
Proof.
  intros HM. destruct (Zdigits2_bounds M ltac:(lia)) as [[Hlo Hhi] Hpos].
  destruct (Z.eq_dec M (2 ^ 53)) as [->|Hne]; [right; split; [done|reflexivity]|].
  left. split; [lia|].
  assert (52 < Zdigits2 M) by (apply pow2_lt_inv; lia).
  assert (Zdigits2 M - 1 < 53) by (apply pow2_lt_inv; lia).
  lia.
Qed.

(** Rounding a quotient of at least 53 bits, away from the subnormal
    numbers: the mantissa [M0] before the carry is nearest to
    [A / (B * 2 ^ n)], where [n] bits are shifted out. *)
Lemma binary_round_aux_near (sx : bool) (q e : Z) (loc : location) (A B : Z) :
  0 < B ->
  shr_inv A B (shr_record_of_loc q loc) ->
  2 ^ 52 <= q ->
  -1000 <= e ->
  let n := Zdigits2 q - 53 in
  let E0 := e + n in
  exists M0,
    2 ^ 52 <= M0 <= 2 ^ 53
    /\ 0 <= n
    /\ Z.abs (2 * (M0 * (2 ^ n * B) - A)) <= 2 ^ n * B
    /\ binary_round_aux prec emax sx q e loc
       = if M0 <? 2 ^ 53
         then (if E0 <=? 971 then S754_finite sx (Z.to_pos M0) E0 else S754_infinity sx)
         else (if E0 + 1 <=? 971 then S754_finite sx (Z.to_pos (2 ^ 52)) (E0 + 1)
               else S754_infinity sx).
Proof.
  intros HB Hinv Hq He n E0.
  destruct (Zdigits2_bounds q ltac:(lia)) as [[Hlo Hhi] Hdpos].
  assert (53 <= Zdigits2 q) as Hd.
  { assert (52 < Zdigits2 q); [|lia]. apply pow2_lt_inv; lia. }
  assert (0 <= n) as Hn by (unfold n; lia).
  assert (0 < 2 ^ n) as Hpn by (apply Z.pow_pos_nonneg; lia).
  assert (2 ^ (Zdigits2 q - 1) = 2 ^ 52 * 2 ^ n) as Hlo_eq.
  { unfold n. rewrite <- Z.pow_add_r by lia. f_equal. lia. }
  assert (2 ^ Zdigits2 q = 2 ^ 53 * 2 ^ n) as Hhi_eq.
  { unfold n. rewrite <- Z.pow_add_r by lia. f_equal. lia. }
  (* the first shift *)
  assert (exists mrs, shr_fexp prec emax q e loc = (mrs, E0)
                      /\ shr_inv A (2 ^ n * B) mrs) as (mrs & Hshr & Hinv1).
  { unfold shr_fexp, shr, fexp, emin, prec, emax.
    replace (Z.max (Zdigits2 q + e - 53) (3 - 1024 - 53) - e) with n by (unfold n; lia).
    destruct n as [|p|p] eqn:Hnp; [| |lia].
    - exists (shr_record_of_loc q loc). split; [f_equal; unfold E0; lia|].
      by replace (2 ^ 0 * B) with B by lia.
    - exists (SpecFloat.iter_pos shr_1 p (shr_record_of_loc q loc)).
      split; [done|]. by apply iter_shr_inv. }
  pose proof Hinv as (Hq0 & Hqint & _). 
  assert (shr_m (shr_record_of_loc q loc) = q) as Hmq by (by destruct loc as [|[]]).
  rewrite Hmq in Hq0, Hqint.
  pose proof Hinv1 as (Hm0 & Hmint & _).
  assert (2 ^ 52 <= shr_m mrs < 2 ^ 53) as Hm1 by nia.
  destruct (round_nearest_even_near A (2 ^ n * B) mrs ltac:(nia) Hinv1) as [HM Hnear].
  set (M0 := round_nearest_even (shr_m mrs) (loc_of_shr_record mrs)) in *.
  exists M0. split; [lia|]. split; [done|]. split; [done|].
  unfold binary_round_aux. rewrite Hshr. fold M0.
  destruct (Zdigits2_53 M0 ltac:(lia)) as [[Hlt Hdig]|[Heq Hdig]].
  - replace (M0 <? 2 ^ 53) with true by (symmetry; apply Z.ltb_lt; lia).
    unfold shr_fexp, shr, fexp, emin, prec, emax. rewrite Hdig.
    replace (Z.max (53 + E0 - 53) (3 - 1024 - 53) - E0) with 0 by (unfold E0; lia).
    cbn [shr_record_of_loc shr_m].
    destruct M0 as [|Mp|Mp]; [lia| |lia]. done.
  - replace (M0 <? 2 ^ 53) with false by (symmetry; apply Z.ltb_ge; lia).
    unfold shr_fexp, shr, fexp, emin, prec, emax. rewrite Hdig.
    replace (Z.max (54 + E0 - 53) (3 - 1024 - 53) - E0) with 1 by (unfold E0; lia).
    rewrite Heq. reflexivity.
Qed.

Lemma div_eucl_div_mod (a b : Z) : Z.div_eucl a b = (a / b, a mod b).
Proof. unfold Z.div, Z.modulo. by destruct (Z.div_eucl a b). Qed.

(** Reading a number of millionths: the result is finite, and its
    mantissa before the carry, [M0], is nearest to [N / 10 ^ 6] among the
    multiples of [2 ^ g] in units of [2 ^ -1074]; the number is at least
    [2 ^ 52] of these multiples. *)
Lemma of_decimal_near (neg : bool) (N : positive) :
  Z.pos N <= max_int * 10 ^ 6 ->
  exists (M : positive) (E g M0 : Z),
    of_decimal neg (Z.pos N) (-6) = S754_finite neg M E
    /\ -1074 <= E
    /\ 1 <= g
    /\ Z.pos M * 2 ^ (E + 1074) = M0 * 2 ^ g
    /\ Z.abs (2 * (M0 * 2 ^ g * 10 ^ 6 - Z.pos N * 2 ^ 1074)) <= 2 ^ g * 10 ^ 6
    /\ 2 ^ 52 * 2 ^ g * 10 ^ 6 <= Z.pos N * 2 ^ 1074.
Proof.
  intros Hmax. unfold of_decimal.
  replace (0 <=? -6) with false by reflexivity.
  replace (Z.to_pos (10 ^ (- -6))) with 1000000%positive by reflexivity.
  unfold SFdiv, SFdiv_core_binary.
  replace (Zdigits2 (Z.pos 1000000)) with 20 by reflexivity.
  cbn [Zdigits2].
  destruct (digits2_pos_bounds N) as [Hlo Hhi].
  set (d := Z.pos (digits2_pos N)) in *.
  assert (0 < d) as Hd by (unfold d; lia).
  unfold fexp, emin, prec, emax.
  replace (Z.min (Z.max (d + 0 - (20 + 0) - 53) (3 - 1024 - 53)) (0 - 0))
    with (Z.min (d - 73) 0) by lia.
  set (e := Z.min (d - 73) 0).
  set (s := 0 - 0 - e).
  assert (0 <= s <= 72) as Hs by (unfold s, e; lia).
  assert (e = - s) as He by (unfold s; lia).
  set (m' := match s with Z.pos _ => Z.shiftl (Z.pos N) s | 0 => Z.pos N | Z.neg _ => 0 end).
  assert (m' = Z.pos N * 2 ^ s) as Hm'.
  { unfold m'. destruct s as [|p|p] eqn:Hsp; [lia| |lia].
    by rewrite Z.shiftl_mul_pow2 by lia. }
  clearbody m'.
  assert (2 ^ 72 <= m') as Hbig.
  { rewrite Hm'. unfold s, e.
    destruct (Z.le_gt_cases d 73) as [Hle|Hgt].
    - rewrite Z.min_l by lia.
      assert (2 ^ (d - 1) * 2 ^ (0 - 0 - (d - 73)) = 2 ^ 72) as <-.
      { rewrite <- Z.pow_add_r by lia. f_equal. lia. }
      assert (0 < 2 ^ (0 - 0 - (d - 73))) by (apply Z.pow_pos_nonneg; lia). nia.
    - rewrite Z.min_r by lia. replace (0 - 0 - 0) with 0 by lia.
      assert (2 ^ 72 <= 2 ^ (d - 1)) by (apply Z.pow_le_mono_r; lia).
      rewrite Z.pow_0_r. lia. }
  rewrite div_eucl_div_mod.
  set (q := m' / 1000000).
  assert (2 ^ 52 <= q) as Hq.
  { unfold q. apply Z.div_le_lower_bound; [lia|].
    etransitivity; [|exact Hbig]. vm_compute. discriminate. }
  destruct (Zdigits2_bounds q ltac:(lia)) as [[Hqlo Hqhi] Hqd].
  pose proof (Z.mul_div_le m' 1000000 ltac:(lia)) as Hqm. fold q in Hqm.
  destruct (binary_round_aux_near (xorb neg false) q e
              (new_location 1000000 (m' mod 1000000)) m' 1000000)
    as (M0 & HM0 & Hn & Hnear & Hround).
  { lia. }
  { apply div_location; [lia|lia|reflexivity]. }
  { done. }
  { lia. }
  set (n := Zdigits2 q - 53) in *.
  unfold prec, emax in Hround. rewrite Hround. rewrite xorb_false_r.
  set (g := n - s + 1074).
  assert (1 <= g) as Hg by (unfold g; lia).
  assert (0 < 2 ^ n) as Hpn by (apply Z.pow_pos_nonneg; lia).
  assert (0 < 2 ^ s) as Hps by (apply Z.pow_pos_nonneg; lia).
  assert (0 < 2 ^ g) as Hpg by (apply Z.pow_pos_nonneg; lia).
  assert (2 ^ n * 2 ^ 1074 = 2 ^ g * 2 ^ s) as Hgs.
  { unfold g. rewrite <- !Z.pow_add_r by lia. f_equal. lia. }
  (* the distance, in units of 2 ^ -1074 *)
  assert (Z.abs (2 * (M0 * 2 ^ g * 10 ^ 6 - Z.pos N * 2 ^ 1074)) <= 2 ^ g * 10 ^ 6) as Hdist.
  { replace (10 ^ 6) with 1000000 by reflexivity.
    apply (Z.mul_le_mono_pos_r _ _ (2 ^ s)); [done|].
    rewrite <- (Z.abs_eq (2 ^ s)) at 1 by lia. rewrite <- Z.abs_mul.
    assert (0 < 2 ^ 1074) by (apply Z.pow_pos_nonneg; lia).
    apply (Z.mul_le_mono_nonneg_r _ _ (2 ^ 1074)) in Hnear; [|lia].
    rewrite <- (Z.abs_eq (2 ^ 1074)) in Hnear at 1 by lia. rewrite <- Z.abs_mul in Hnear.
    rewrite Hm' in Hnear.
    replace (2 * (M0 * 2 ^ g * 1000000 - Z.pos N * 2 ^ 1074) * 2 ^ s)
      with (2 * (M0 * (2 ^ n * 1000000) - Z.pos N * 2 ^ s) * 2 ^ 1074).
    2:{ transitivity (2 * (M0 * (2 ^ n * 2 ^ 1074) * 1000000 - Z.pos N * 2 ^ s * 2 ^ 1074));
          [ring|]. rewrite Hgs. ring. }
    replace (2 ^ g * 1000000 * 2 ^ s) with (2 ^ n * 1000000 * 2 ^ 1074); [done|].
    transitivity (2 ^ n * 2 ^ 1074 * 1000000); [ring|]. rewrite Hgs. ring. }
  (* the number is at least 2 ^ 52 units *)
  assert (2 ^ 52 * 2 ^ g * 10 ^ 6 <= Z.pos N * 2 ^ 1074) as Hlow.
  { replace (10 ^ 6) with 1000000 by reflexivity.
    apply (Z.mul_le_mono_pos_r _ _ (2 ^ s)); [done|].
    assert (2 ^ (Zdigits2 q - 1) = 2 ^ 52 * 2 ^ n) as Hlo_eq.
    { unfold n. rewrite <- Z.pow_add_r by lia. f_equal. lia. }
    assert (0 < 2 ^ 1074) by (apply Z.pow_pos_nonneg; lia).
    transitivity (2 ^ 52 * (2 ^ n * 2 ^ 1074) * 1000000); [rewrite Hgs; lia|].
    transitivity (q * 1000000 * 2 ^ 1074); [nia|].
    transitivity (m' * 2 ^ 1074); [nia|]. rewrite Hm'. lia. }
  (* no overflow *)
  assert (Z.pos N * 2 ^ 1074 <= max_int * 10 ^ 6 * 2 ^ 1074) as Hmax'.
  { assert (0 < 2 ^ 1074) by (apply Z.pow_pos_nonneg; lia). nia. }
  assert (g <= 971 + 1074) as Hg_le.
  { destruct (Z.le_gt_cases g (971 + 1074)) as [|Hgt]; [done|exfalso].
    assert (2 ^ (972 + 1074) <= 2 ^ g) as Hpow by (apply Z.pow_le_mono_r; lia).
    assert (2 ^ 52 * 2 ^ (972 + 1074) * 10 ^ 6 <= max_int * 10 ^ 6 * 2 ^ 1074) as Habs by nia.
    revert Habs. vm_compute. intros H. by apply H. }
  assert (e + n = g - 1074) as HE0 by (unfold g; lia).
  destruct (Z.ltb_spec M0 (2 ^ 53)) as [Hlt|Hge].
  - replace (e + n <=? 971) with true by (symmetry; apply Z.leb_le; lia).
    exists (Z.to_pos M0), (e + n), g, M0.
    rewrite Z2Pos.id by lia. split_and!; [done|lia|done| |done|done].
    f_equal. f_equal. lia.
  - assert (M0 = 2 ^ 53) as -> by lia.
    assert (g <= 970 + 1074) as Hg_le'.
    { destruct (Z.le_gt_cases g (970 + 1074)) as [|Hgt]; [done|exfalso].
      assert (g = 971 + 1074) as Hgeq by lia.
      rewrite Hgeq in Hdist.
      assert (2 * (2 ^ 53 * 2 ^ (971 + 1074) * 10 ^ 6) - 2 ^ (971 + 1074) * 10 ^ 6
              <= 2 * (max_int * 10 ^ 6 * 2 ^ 1074)) as Habs by lia.
      revert Habs. vm_compute. intros H. by apply H. }
    replace (e + n + 1 <=? 971) with true by (symmetry; apply Z.leb_le; lia).
    exists (Z.to_pos (2 ^ 52)), (e + n + 1), g, (2 ^ 53).
    split_and!; [done|lia|done| |done|done].
    rewrite Z2Pos.id by lia.
    replace (e + n + 1 + 1074) with (1 + g) by lia.
    rewrite Z.pow_add_r by lia. lia.
Qed.

Lemma div_nearest_even_near (a b : Z) :
  0 <= a -> 0 < b ->
  0 <= div_nearest_even a b /\ Z.abs (2 * (a - div_nearest_even a b * b)) <= b.
Proof.
  intros Ha Hb. unfold div_nearest_even. cbv zeta.
  pose proof (Z.div_mod a b ltac:(lia)) as Hdm.
  pose proof (Z.mod_pos_bound a b Hb) as Hr.
  assert (0 <= a / b) as Hq by (apply Z.div_pos; lia).
  destruct (Z.ltb_spec (2 * (a mod b)) b); [split; [lia|nia]|].
  destruct (Z.ltb_spec b (2 * (a mod b))); [split; [lia|nia]|].
  destruct (Z.even (a / b)); split; try lia; nia.
Qed.

(** A number of the format: its exponent is at least [-1074] and at most
    [971], its mantissa is below [2 ^ 53]. *)
Lemma bounded_inv (m : positive) (e : Z) :
  bounded prec emax m e = true ->
  -1074 <= e <= 971 /\ Z.pos m < 2 ^ 53.
Proof.
  unfold bounded, canonical_mantissa, fexp, emin, prec, emax.
  intros [Hc%Z.eqb_eq He%Z.leb_le]%andb_true_iff.
  destruct (digits2_pos_bounds m) as [_ Hhi].
  split; [lia|].
  assert (Z.pos (digits2_pos m) <= 53) as Hd by lia.
  assert (2 ^ Z.pos (digits2_pos m) <= 2 ^ 53) by (apply Z.pow_le_mono_r; lia).
  lia.
Qed.

(** The six decimals of [m * 2 ^ e], in units of [2 ^ -1074]. *)
Lemma scaled_near (m : positive) (e : Z) :
  -1074 <= e <= 971 -> Z.pos m < 2 ^ 53 ->
  0 <= scaled m e 6 <= max_int * 10 ^ 6
  /\ Z.abs (2 * (Z.pos m * 2 ^ (e + 1074) * 10 ^ 6 - scaled m e 6 * 2 ^ 1074)) <= 2 ^ 1074.
Proof.
  intros He Hm. unfold scaled.
  replace (0 <=? 6) with true by reflexivity. replace (6 <? 0) with false by reflexivity.
  assert (0 < 2 ^ 1074) as H1074 by (apply Z.pow_pos_nonneg; lia).
  destruct (Z.leb_spec 0 e) as [Hpos|Hneg].
  - replace (e <? 0) with false by (symmetry; apply Z.ltb_ge; lia).
    assert (0 < 2 ^ e) as Hpe by (apply Z.pow_pos_nonneg; lia).
    destruct (div_nearest_even_near (Z.pos m * 2 ^ e * 10 ^ 6) (1 * 1)) as [Hq Hnear];
      [nia|lia|].
    set (q := div_nearest_even _ _) in *.
    assert (q = Z.pos m * 2 ^ e * 10 ^ 6) as Hqeq by lia.
    assert (2 ^ e <= 2 ^ 971) as Hle by (apply Z.pow_le_mono_r; lia).
    split.
    + split; [done|]. rewrite Hqeq. unfold max_int.
      apply Z.mul_le_mono_nonneg_r; [lia|].
      apply Z.mul_le_mono_nonneg; lia.
    + rewrite Hqeq, Z.pow_add_r by lia.
      replace (Z.pos m * (2 ^ e * 2 ^ 1074) * 10 ^ 6 - Z.pos m * 2 ^ e * 10 ^ 6 * 2 ^ 1074)
        with 0 by ring.
      simpl Z.abs. lia.
  - replace (e <? 0) with true by (symmetry; apply Z.ltb_lt; lia).
    assert (0 < 2 ^ (- e)) as Hpe by (apply Z.pow_pos_nonneg; lia).
    assert (0 < 2 ^ (e + 1074)) as Hpe' by (apply Z.pow_pos_nonneg; lia).
    assert (2 ^ (- e) * 2 ^ (e + 1074) = 2 ^ 1074) as Hsplit.
    { rewrite <- Z.pow_add_r by lia. f_equal. lia. }
    destruct (div_nearest_even_near (Z.pos m * 1 * 10 ^ 6) (2 ^ (- e) * 1)) as [Hq Hnear];
      [lia|lia|].
    set (q := div_nearest_even _ _) in *.
    assert (2 <= 2 ^ (- e)) as Htwo.
    { replace 2 with (2 ^ 1) at 1 by reflexivity. apply Z.pow_le_mono_r; lia. }
    split.
    + split; [done|].
      assert (q <= Z.pos m * 10 ^ 6) as Hqm.
      { destruct (Z.le_gt_cases q (Z.pos m * 10 ^ 6)) as [|Hgt]; [done|exfalso].
        assert (Z.pos m * 10 ^ 6 + 1 <= q) as Hq1 by lia.
        assert ((Z.pos m * 10 ^ 6 + 1) * 2 ^ (- e) <= q * 2 ^ (- e)) by nia.
        assert (0 < Z.pos m * 10 ^ 6) by lia.
        nia. }
      etransitivity; [exact Hqm|]. unfold max_int.
      apply Z.mul_le_mono_nonneg_r; [lia|].
      assert (0 < 2 ^ 971) by (apply Z.pow_pos_nonneg; lia). nia.
    + assert (2 * (Z.pos m * 2 ^ (e + 1074) * 10 ^ 6 - q * 2 ^ 1074)
              = 2 * (Z.pos m * 1 * 10 ^ 6 - q * (2 ^ (- e) * 1)) * 2 ^ (e + 1074)) as ->.
      { rewrite <- Hsplit. ring. }
      rewrite Z.abs_mul, (Z.abs_eq (2 ^ (e + 1074))) by lia.
      rewrite <- Hsplit.
      apply Z.mul_le_mono_nonneg_r; [lia|]. lia.
Qed.

(** A multiple of the step is not nearer than the nearest one. *)
Lemma nearest_on_grid (D G k M0 V : Z) :
  0 < D -> 0 < G ->
  Z.abs (2 * (M0 * G * D - V)) <= G * D ->
  Z.abs (M0 * G * D - V) <= Z.abs (k * G * D - V).
Proof.
  intros HD HG Hnear.
  assert (0 < G * D) as HGD by nia.
  destruct (Z.lt_trichotomy k M0) as [Hlt|[->|Hgt]]; [|lia|].
  - assert (k * (G * D) <= (M0 - 1) * (G * D)) by (apply Z.mul_le_mono_nonneg_r; lia).
    replace (M0 * G * D) with (M0 * (G * D)) in * by ring.
    replace (k * G * D) with (k * (G * D)) by ring. lia.
  - assert ((M0 + 1) * (G * D) <= k * (G * D)) by (apply Z.mul_le_mono_nonneg_r; lia).
    replace (M0 * G * D) with (M0 * (G * D)) in * by ring.
    replace (k * G * D) with (k * (G * D)) by ring. lia.
Qed.

(** What comes back for a finite number, in units of [2 ^ -1074]. *)
Lemma reread6_units (s : bool) (m : positive) (e : Z) :
  bounded prec emax m e = true ->
  (reread6 (S754_finite s m e) = S754_zero s
   /\ 10 ^ 6 * (Z.pos m * 2 ^ (e + 1074)) <= 2 ^ 1074)
  \/ (exists M E,
        reread6 (S754_finite s m e) = S754_finite s M E
        /\ -1074 <= E
        /\ 10 ^ 6 * Z.abs (Z.pos M * 2 ^ (E + 1074) - Z.pos m * 2 ^ (e + 1074))
           <= 2 ^ 1074).
Proof.
  intros [He Hm]%bounded_inv.
  destruct (scaled_near m e He Hm) as [[Hq Hqmax] Hnear].
  cbn [reread6]. set (X := Z.pos m * 2 ^ (e + 1074)) in *.
  assert (0 < 2 ^ (e + 1074)) as Hpe by (apply Z.pow_pos_nonneg; lia).
  assert (0 < X) as HX by (unfold X; lia).
  destruct (scaled m e 6) as [|N|N] eqn:Hs; [left|right|lia].
  - split; [done|]. lia.
  - destruct (of_decimal_near s N Hqmax) as (M & E & g & M0 & Hof & HE & Hg & Hval & Hdist & Hlow).
    exists M, E. split; [done|]. split; [done|].
    rewrite Hval.
    set (V := Z.pos N * 2 ^ 1074) in *.
    assert (0 < 2 ^ g) as HG by (apply Z.pow_pos_nonneg; lia).
    assert (Z.abs (M0 * 2 ^ g * 10 ^ 6 - V) <= Z.abs (X * 10 ^ 6 - V)) as Hbest.
    { destruct (Z.le_gt_cases g (e + 1074)) as [Hle|Hgt].
      - (* the number is a multiple of the step *)
        assert (X = Z.pos m * 2 ^ (e + 1074 - g) * 2 ^ g) as ->.
        { unfold X. rewrite <- Z.mul_assoc, <- Z.pow_add_r by lia. do 2 f_equal. lia. }
        apply nearest_on_grid; [lia|done|done].
      - (* the number is below the first multiple of the step *)
        assert (2 ^ g = 2 * 2 ^ (g - 1)) as Hhalf.
        { rewrite <- Z.pow_succ_r by lia. f_equal. lia. }
        assert (0 < 2 ^ (g - 1)) as Hh by (apply Z.pow_pos_nonneg; lia).
        assert (X <= 2 ^ 52 * 2 ^ g - 2 ^ (g - 1)) as HXle.
        { assert (2 ^ (e + 1074) <= 2 ^ (g - 1)) by (apply Z.pow_le_mono_r; lia).
          unfold X. rewrite Hhalf.
          transitivity ((2 ^ 53 - 1) * 2 ^ (g - 1)); [|lia].
          apply Z.mul_le_mono_nonneg; lia. }
        set (G := 2 ^ g) in *. set (h := 2 ^ (g - 1)) in *.
        assert (X * 10 ^ 6 <= (2 ^ 52 * G - h) * 10 ^ 6) by (apply Z.mul_le_mono_nonneg_r; lia).
        assert (G * 10 ^ 6 = 2 * (h * 10 ^ 6)) as HGh by (rewrite Hhalf; ring).
        replace (M0 * G * 10 ^ 6) with (M0 * (G * 10 ^ 6)) in * by ring.
        replace (2 ^ 52 * G * 10 ^ 6) with (2 ^ 52 * (G * 10 ^ 6)) in * by ring.
        replace ((2 ^ 52 * G - h) * 10 ^ 6) with (2 ^ 52 * (G * 10 ^ 6) - h * 10 ^ 6) in * by ring.
        lia. }
    replace (10 ^ 6 * Z.abs (M0 * 2 ^ g - X))
      with (Z.abs ((M0 * 2 ^ g * 10 ^ 6 - V) - (X * 10 ^ 6 - V))).
    2:{ replace (M0 * 2 ^ g * 10 ^ 6 - V - (X * 10 ^ 6 - V)) with (10 ^ 6 * (M0 * 2 ^ g - X)) by ring.
        rewrite Z.abs_mul. f_equal. }
    lia.
Qed.

(** ** From units of [2 ^ -1074] to rational numbers *)

Lemma value_units (s : bool) (m : positive) (e : Z) :
  -1074 <= e ->
  (value (S754_finite s m e) == cond_Zopp s (Z.pos m * 2 ^ (e + 1074)) # unit_den)%Q.
Proof.
  intros He. cbn [value].
  assert ((2 ^ e == inject_Z (2 ^ (e + 1074)) * (1 # unit_den))%Q) as ->.
  { replace e with ((e + 1074) + - 1074) at 1 by lia.
    rewrite Qpower_plus by done.
    rewrite Zpower_Qpower by lia.
    apply Qmult_comp; [reflexivity|]. reflexivity. }
  assert (0 < 2 ^ (e + 1074)) as Hp by (apply Z.pow_pos_nonneg; lia).
  unfold Qeq, Qmult, inject_Z. cbn [Qnum Qden].
  destruct s; cbn [cond_Zopp]; rewrite ?Pos2Z.inj_mul; lia.
Qed.

Lemma Qmake_close (a b : Z) (P D : positive) :
  Z.pos D * Z.abs (a - b) <= Z.pos P ->
  (Qabs ((a # P) - (b # P)) <= 1 # D)%Q.
Proof.
  intros H. unfold Qle, Qabs, Qminus, Qplus, Qopp. cbn [Qnum Qden].
  rewrite Pos2Z.inj_mul.
  replace (a * Z.pos P + - b * Z.pos P) with ((a - b) * Z.pos P) by ring.
  rewrite Z.abs_mul, (Z.abs_eq (Z.pos P)) by lia. nia.
Qed.

Lemma unit_den_pos : Z.pos unit_den = 2 ^ 1074.
Proof. unfold unit_den. rewrite Z2Pos.id; [done|]. apply Z.pow_pos_nonneg; lia. Qed.

(** A number of the format that is not NaN comes back within
    [10 ^ -6]. *)
Lemma reread6_within (x : spec_float) :
  valid_binary prec emax x = true ->
  is_nan x = false ->
  within_6_decimals x (reread6 x) /\ is_nan (reread6 x) = false.
Proof.
  intros Hv Hnan. destruct x as [s|s| |s m e]; [| |done|].
  - split; [|done]. cbn [reread6 within_6_decimals value]. done.
  - split; done.
  - cbn [valid_binary] in Hv. pose proof (bounded_inv m e Hv) as [He Hm].
    pose proof unit_den_pos as Hden.
    assert (0 < 2 ^ (e + 1074)) as Hp by (apply Z.pow_pos_nonneg; lia).
    destruct (reread6_units s m e Hv) as [[-> Hsmall]|(M & E & -> & HE & Hclose)].
    + split; [|done]. cbn [within_6_decimals].
      rewrite value_units by lia.
      assert ((value (S754_zero s) == 0 # unit_den)%Q) as ->
        by (unfold Qeq; cbn [Qnum Qden value]; lia).
      apply Qmake_close. rewrite Hden.
      replace (0 - cond_Zopp s (Z.pos m * 2 ^ (e + 1074)))
        with (- cond_Zopp s (Z.pos m * 2 ^ (e + 1074))) by lia.
      rewrite Z.abs_opp. destruct s; cbn [cond_Zopp]; lia.
    + split; [|done]. cbn [within_6_decimals].
      rewrite !value_units by lia.
      apply Qmake_close. rewrite Hden.
      assert (0 < 2 ^ (E + 1074)) as Hp' by (apply Z.pow_pos_nonneg; lia).
      destruct s; cbn [cond_Zopp]; lia.
Qed.

(** ** The value of decimal digits *)

Lemma of_uint_acc_value (d : uint) (acc : positive) :
  Z.pos (Pos.of_uint_acc d acc) = digits_value (Z.pos acc) d.
Proof.
  revert acc. induction d; intros acc; cbn [Pos.of_uint_acc digits_value];
    [done|rewrite IHd; f_equal; lia..].
Qed.

Lemma of_uint_value (d : uint) : Z.of_uint d = digits_value 0 d.
Proof.
  unfold Z.of_uint. induction d; cbn [Pos.of_uint digits_value Z.of_N];
    [done|exact IHd|rewrite of_uint_acc_value; f_equal..].
Qed.

Lemma digits_value_acc (acc : Z) (d : uint) :
  digits_value acc d = acc * 10 ^ Z.of_nat (nb_digits d) + digits_value 0 d.
Proof.
  revert acc. induction d; intros acc; cbn [digits_value nb_digits];
    [rewrite Z.pow_0_r; lia|..];
    match goal with
    | |- digits_value ?a d = _ + digits_value ?b d => rewrite (IHd a), (IHd b)
    end;
    rewrite Nat2Z.inj_succ, Z.pow_succ_r by lia; ring.
Qed.

Lemma digits_value_nonneg (d : uint) : 0 <= digits_value 0 d.
Proof.
  assert (forall acc, 0 <= acc -> 0 <= digits_value acc d) as H; [|apply H; lia].
  induction d; intros acc Hacc; cbn [digits_value]; [done|apply IHd; lia..].
Qed.

Lemma digits_value_app (acc : Z) (d d' : uint) :
  digits_value acc (digits_app d d') = digits_value (digits_value acc d) d'.
Proof. revert acc. induction d; intros acc; cbn [digits_app digits_value]; done. Qed.

Lemma digits_of_uint_app (d d' : uint) :
  digits_of_uint (digits_app d d') = digits_of_uint d ++ digits_of_uint d'.
Proof. induction d; cbn [digits_app digits_of_uint app]; [done|by rewrite IHd..]. Qed.

Lemma digits_of_uint_length (d : uint) : length (digits_of_uint d) = nb_digits d.
Proof. induction d; cbn [digits_of_uint nb_digits length]; [done|by rewrite IHd..]. Qed.

Lemma digits_of_uint_zeros (k : nat) (d : uint) :
  digits_of_uint (Nat.iter k D0 d) = replicate k "0"%char ++ digits_of_uint d.
Proof. induction k as [|k IH]; simpl; [done|by rewrite IH]. Qed.

Lemma digits_value_zeros (k : nat) (d : uint) :
  digits_value 0 (Nat.iter k D0 d) = digits_value 0 d.
Proof. induction k as [|k IH]; simpl; [done|exact IH]. Qed.

(** Digits that do not start with a zero make a number of their length. *)
Lemma digits_value_lower (d : uint) :
  d <> Nil -> (forall d', d <> D0 d') ->
  10 ^ (Z.of_nat (nb_digits d) - 1) <= digits_value 0 d.
Proof.
  intros Hnil Hz.
  destruct d; [done|by destruct (Hz d)|..]; cbn [digits_value nb_digits];
    rewrite digits_value_acc, Nat2Z.inj_succ;
    replace (Z.succ (Z.of_nat (nb_digits d)) - 1) with (Z.of_nat (nb_digits d)) by lia;
    pose proof (digits_value_nonneg d);
    assert (0 < 10 ^ Z.of_nat (nb_digits d)) by (apply Z.pow_pos_nonneg; lia); nia.
Qed.

Lemma to_uint_head (p : positive) (d' : uint) : Pos.to_uint p <> D0 d'.
Proof.
  pose proof (DecimalPos.Unsigned.to_of (Pos.to_uint p)) as Hnorm.
  rewrite DecimalPos.Unsigned.of_to in Hnorm. cbn [N.to_uint] in Hnorm.
  set (u := Pos.to_uint p) in *. intros Heq.
  destruct (uint_eq_dec (nzhead u) Nil) as [Hnil|Hnz].
  - apply unorm_0 in Hnil. rewrite Hnil in Hnorm.
    by apply (DecimalPos.Unsigned.to_uint_nonzero p).
  - rewrite (unorm_nzhead _ Hnz) in Hnorm.
    apply (nzhead_nonzero u d'). by rewrite <- Hnorm.
Qed.

(** The text of a number that is not negative: its decimal digits,
    without a zero in front. *)
Lemma str_of_Z_digits (z : Z) :
  0 <= z ->
  exists d, str_of_Z z = digits_of_uint d /\ d <> Nil /\ digits_value 0 d = z
            /\ forall n, (1 <= n)%nat -> z < 10 ^ Z.of_nat n -> (nb_digits d <= n)%nat.
Proof.
  intros Hz. unfold str_of_Z. destruct z as [|p|p]; [| |lia].
  - exists (D0 Nil). split_and!; [done|done|done|]. intros n Hn _. simpl. lia.
  - cbn [Z.to_int]. exists (Pos.to_uint p).
    assert (digits_value 0 (Pos.to_uint p) = Z.pos p) as Hval.
    { rewrite <- of_uint_value. unfold Z.of_uint.
      by rewrite DecimalPos.Unsigned.of_to. }
    split_and!; [done|apply DecimalPos.Unsigned.to_uint_nonnil|done|].
    intros n Hn Hlt.
    pose proof (digits_value_lower (Pos.to_uint p)
                  (DecimalPos.Unsigned.to_uint_nonnil p) (to_uint_head p)) as Hlow.
    rewrite Hval in Hlow.
    assert (Z.of_nat (nb_digits (Pos.to_uint p)) - 1 < Z.of_nat n); [|lia].
    apply (Z.pow_lt_mono_r_iff 10); lia.
Qed.

(** ** Reading decimal text *)

Lemma isdecimal_float_classes (c : ascii) :
  isdecimal c = true ->
  lower c = c
  /\ Ascii.eqb c "e"%char = false
  /\ Ascii.eqb c "."%char = false
  /\ c <> "i"%char /\ c <> "n"%char.
Proof.
  destruct c as [[] [] [] [] [] [] [] []]; vm_compute; intros; by split_and!.
Qed.

Lemma cut_at_none (p : ascii -> bool) (s : str) :
  Forall (fun c => p c = false) s -> cut_at p s = (s, None).
Proof.
  induction 1 as [|c s Hc _ IH]; cbn [cut_at]; [done|]. by rewrite Hc, IH.
Qed.

Lemma cut_at_first (p : ascii -> bool) (s t : str) (c : ascii) :
  Forall (fun c => p c = false) s -> p c = true ->
  cut_at p (s ++ c :: t) = (s, Some t).
Proof.
  intros Hs Hc. induction Hs as [|a s Ha _ IH]; cbn [cut_at app].
  - by rewrite Hc.
  - by rewrite Ha, IH.
Qed.

(** [float] on an optional minus sign, digits, a point and digits. *)
Lemma of_str_decimal (neg : bool) (ip fp : str) (u : uint) :
  ip <> [] -> fp <> [] ->
  Forall (fun c => isdecimal c = true) ip ->
  Forall (fun c => isdecimal c = true) fp ->
  uint_of_digits (ip ++ fp) = Some u ->
  of_str (sign_text neg ++ ip ++ txt "." ++ fp)
  = Some (of_decimal neg (Z.of_uint u) (0 - Z.of_nat (length fp))).
Proof.
  intros Hip Hfp Hipd Hfpd Hu.
  set (t := ip ++ txt "." ++ fp).
  assert (Forall (fun c => c_isspace c = false) t) as Hsp.
  { unfold t. rewrite !Forall_app. split_and!.
    - eapply Forall_decimal_class; [|done]. intros c Hc. by apply isdecimal_classes.
    - by repeat constructor.
    - eapply Forall_decimal_class; [|done]. intros c Hc. by apply isdecimal_classes. }
  assert (Forall (fun c => c_isspace c = false) (sign_text neg ++ t)) as Hsp'.
  { rewrite Forall_app. split; [|done]. destruct neg; by repeat constructor. }
  assert (exists c0 ip', ip = c0 :: ip') as (c0 & ip' & Hipeq)
    by (destruct ip as [|c0 ip']; [done|by eauto]).
  assert (isdecimal c0 = true) as Hc0 by (rewrite Hipeq in Hipd; by inversion Hipd).
  assert (signed (sign_text neg ++ t) = (neg, t)) as Hsigned.
  { destruct neg; [done|]. cbn [sign_text app]. unfold t. rewrite Hipeq.
    cbn [app signed].
    by destruct (isdecimal_classes c0 Hc0) as (_ & _ & _ & _ & -> & ->). }
  unfold of_str. rewrite strip_by_id by done. rewrite Hsigned.
  assert (forall w : str, w <> [] -> (hd "0"%char w = "i"%char \/ hd "0"%char w = "n"%char) ->
                          bool_decide (map lower t = w) = false) as Hname.
  { intros w Hw Hhd. apply bool_decide_eq_false. intros Heq.
    unfold t in Heq. rewrite Hipeq in Heq. cbn [app map] in Heq.
    destruct (isdecimal_float_classes c0 Hc0) as (Hl & _ & _ & Hi & Hn).
    rewrite Hl in Heq. destruct w as [|w0 w]; [done|].
    injection Heq as <- _. cbn [hd] in Hhd. by destruct Hhd. }
  rewrite (Hname (txt "inf")), (Hname (txt "infinity")), (Hname (txt "nan"));
    [|done|by right|done|by left|done|by left].
  cbn [orb]. unfold floatnumber.
  rewrite (cut_at_none _ t).
  2:{ unfold t. rewrite !Forall_app. split_and!.
      - eapply Forall_decimal_class; [|exact Hipd]. intros c Hc.
        destruct (isdecimal_float_classes c Hc) as (-> & -> & _). done.
      - by repeat constructor.
      - eapply Forall_decimal_class; [|exact Hfpd]. intros c Hc.
        destruct (isdecimal_float_classes c Hc) as (-> & -> & _). done. }
  unfold t. cbn [txt list_ascii_of_string app].
  rewrite (cut_at_first _ ip fp "."%char); [|
    eapply Forall_decimal_class; [|exact Hipd]; intros c Hc;
    by destruct (isdecimal_float_classes c Hc) as (_ & _ & -> & _)|done].
  cbn [default from_option id].
  assert (digits_opt (bool_decide (is_Some (Some fp))) ip = Some ip) as ->.
  { unfold digits_opt. rewrite Hipeq at 1. by apply digitpart_decimal. }
  assert (digits_opt true fp = Some fp) as ->.
  { unfold digits_opt. destruct fp as [|f0 fp']; [done|]. by apply digitpart_decimal. }
  cbn [mbind option_bind].
  assert (nonempty ip = true) as -> by (by rewrite Hipeq).
  cbn [orb mbind option_bind]. rewrite Hu. cbn [mbind option_bind]. done.
Qed.

Lemma scaled_nonneg (m : positive) (e k : Z) : 0 <= scaled m e k.
Proof.
  unfold scaled.
  assert (0 < (if 0 <=? e then 2 ^ e else 1)) as H1.
  { destruct (Z.leb_spec 0 e); [apply Z.pow_pos_nonneg|]; lia. }
  assert (0 < (if 0 <=? k then 10 ^ k else 1)) as H2.
  { destruct (Z.leb_spec 0 k); [apply Z.pow_pos_nonneg|]; lia. }
  assert (0 < (if e <? 0 then 2 ^ (- e) else 1)) as H3.
  { destruct (Z.ltb_spec e 0); [apply Z.pow_pos_nonneg|]; lia. }
  assert (0 < (if k <? 0 then 10 ^ (- k) else 1)) as H4.
  { destruct (Z.ltb_spec k 0); [apply Z.pow_pos_nonneg|]; lia. }
  apply div_nearest_even_near; nia.
Qed.

(** The six decimals of a number that is not negative: digits, a point
    and six digits, which make the number. *)
Lemma six_decimals_digits (q : Z) :
  0 <= q ->
  exists ip fp u,
    str_of_Z (q / 10 ^ 6) = ip /\ zero_pad 6 (str_of_Z (q mod 10 ^ 6)) = fp
    /\ ip <> [] /\ length fp = 6%nat
    /\ Forall (fun c => isdecimal c = true) ip
    /\ Forall (fun c => isdecimal c = true) fp
    /\ uint_of_digits (ip ++ fp) = Some u
    /\ Z.of_uint u = q.
Proof.
  intros Hq.
  pose proof (Z.div_mod q (10 ^ 6) ltac:(lia)) as Hdm.
  pose proof (Z.mod_pos_bound q (10 ^ 6) ltac:(lia)) as Hr.
  assert (0 <= q / 10 ^ 6) as Hquot by (apply Z.div_pos; lia).
  destruct (str_of_Z_digits (q / 10 ^ 6) Hquot) as (d1 & Hs1 & Hn1 & Hv1 & _).
  destruct (str_of_Z_digits (q mod 10 ^ 6) ltac:(lia)) as (d2 & Hs2 & Hn2 & Hv2 & Hlen2).
  specialize (Hlen2 6%nat ltac:(lia) ltac:(lia)).
  set (k := (6 - nb_digits d2)%nat).
  exists (digits_of_uint d1), (digits_of_uint (Nat.iter k D0 d2)),
         (digits_app d1 (Nat.iter k D0 d2)).
  split_and!.
  - done.
  - rewrite Hs2. unfold zero_pad. rewrite digits_of_uint_length.
    by rewrite digits_of_uint_zeros.
  - by apply digits_of_uint_nonempty.
  - rewrite digits_of_uint_length, nb_digits_iter_D0. unfold k. lia.
  - apply digits_of_uint_decimal.
  - apply digits_of_uint_decimal.
  - rewrite <- digits_of_uint_app. apply uint_of_digits_of_uint.
  - rewrite of_uint_value, digits_value_app, digits_value_acc.
    rewrite nb_digits_iter_D0, digits_value_zeros, Hv1, Hv2.
    replace (k + nb_digits d2)%nat with 6%nat by (unfold k; lia).
    change (Z.of_nat 6) with 6. lia.
Qed.

(** [float] reads the six decimals of a number as the number
    [reread6] tells, and they are one field of a line. *)
Lemma fixed6_of_str (x : spec_float) :
  is_nan x = false ->
  token (fixed6 x) /\ of_str (fixed6 x) = Some (reread6 x).
Proof.
  intros Hnan. destruct x as [s|s| |s m e]; [| |done|].
  - split; [apply is_token_true|]; by destruct s.
  - split; [apply is_token_true|]; by destruct s.
  - cbn [fixed6 reread6].
    destruct (six_decimals_digits (scaled m e 6) (scaled_nonneg m e 6))
      as (ip & fp & u & Hip & Hfp & Hne & Hlen & Hipd & Hfpd & Hu & Hval).
    cbv zeta. rewrite Hip, Hfp.
    assert (fp <> []) as Hfne by (intros ->; done).
    split.
    + split.
      * destruct s; [done|]. cbn [sign_text app]. by destruct ip.
      * rewrite !Forall_app. split_and!.
        -- destruct s; by repeat constructor.
        -- eapply Forall_decimal_class; [|done]. intros c Hc. by apply isdecimal_classes.
        -- by repeat constructor.
        -- eapply Forall_decimal_class; [|done]. intros c Hc. by apply isdecimal_classes.
    + rewrite (of_str_decimal s ip fp u) by done.
      rewrite Hval, Hlen. done.
Qed.

(** The round trip of one coordinate: a number of the format that is
    not NaN is written as one field, read back as a number that is not
    NaN, and comes back within [10 ^ -6]. *)
Lemma coordinate_reread (x : spec_float) :
  valid_binary prec emax x = true ->
  is_nan x = false ->
  reread x (reread6 x) /\ within_6_decimals x (reread6 x).
Proof.
  intros Hv Hnan.
  destruct (fixed6_of_str x Hnan) as [Htok Hof].
  destruct (reread6_within x Hv Hnan) as [Hin Hnan'].
  split; [|done]. split_and!; done.
Qed.

(** ** The round trip of a structure *)

Lemma atom_back_reread (a : Atom) :
  storable_atom a -> atom_reread a (atom_back a) /\ atom_within a (atom_back a).
Proof.
  unfold storable_atom, is_number.
  intros (Htok & [Hvx Hnx%negb_true_iff]%andb_true_iff
               & [Hvy Hny%negb_true_iff]%andb_true_iff
               & [Hvz Hnz%negb_true_iff]%andb_true_iff).
  destruct (coordinate_reread _ Hvx Hnx) as [Hrx Hwx].
  destruct (coordinate_reread _ Hvy Hny) as [Hry Hwy].
  destruct (coordinate_reread _ Hvz Hnz) as [Hrz Hwz].
  split; [by split_and!|by split_and!].
Qed.

Lemma atoms_back_reread (m : AtomArray) :
  Forall storable_atom m ->
  Forall2 atom_reread m (map atom_back m) /\ Forall2 atom_within m (map atom_back m).
Proof.
  induction 1 as [|a m Ha _ [IH1 IH2]]; [by split; constructor|].
  destruct (atom_back_reread a Ha). split; by constructor.
Qed.

Lemma models_back_reread (ms : AtomArrayStack) :
  Forall (Forall storable_atom) ms ->
  Forall2 (Forall2 atom_reread) ms (map (map atom_back) ms)
  /\ Forall2 (Forall2 atom_within) ms (map (map atom_back) ms).
Proof.
  induction 1 as [|m ms Hm _ [IH1 IH2]]; [by split; constructor|].
  destruct (atoms_back_reread m Hm). split; by constructor.
Qed.

(** C1, as the code has it, for the numbers of binary64: a structure
    with at least one atom in each model, whose element labels are
    single fields and whose coordinates are not NaN, is written into a
    fresh file and read back as a structure with the same models, the
    same number of atoms, the same element labels in the same order, and
    each coordinate within [10 ^ -6] of the original, an infinite one
    being the same infinity.  A single model and a stack of one model
    come back as a single model, a stack of more models as a stack. *)
Theorem set_get_structure_roundtrip (s : structure) :
  storable s ->
  exists s',
    (set_structure s init).2 = Ok tt
    /\ (get_structure None (set_structure s init).1).2 = Ok s'
    /\ Forall2 (Forall2 atom_within) (models_of s) (models_of s')
    /\ ((length (models_of s) = 1)%nat -> exists a', s' = Single a')
    /\ ((2 <= length (models_of s))%nat -> exists ms', s' = Stack ms').
Proof.
  destruct s as [a|ms]; cbn [storable models_of].
  - intros [Hne Ha]. destruct (atoms_back_reread a Ha) as [Hre Hin].
    exists (Single (map atom_back a)).
    destruct (roundtrip_reread (Single a) (Single (map atom_back a))) as (Hset & Hget & _).
    { split; [done|]. by exists (map atom_back a). }
    split_and!; [done|done|by repeat constructor|by eauto|simpl; lia].
  - intros (Hne & (elements & Hel & Hsame) & Hms).
    destruct (models_back_reread ms Hms) as [Hre Hin].
    set (ms' := map (map atom_back) ms) in *.
    exists (match ms' with [m'] => Single m' | _ => Stack ms' end).
    destruct (roundtrip_reread (Stack ms)
                (match ms' with [m'] => Single m' | _ => Stack ms' end))
      as (Hset & Hget & _).
    { exists elements, ms'. by split_and!. }
    assert (length ms' = length ms) as Hlen by (unfold ms'; by rewrite length_map).
    split_and!; [done|done| | |].
    + destruct ms' as [|m0' [|m1' ms'']]; [by inversion Hin; subst|done..].
    + intros Hone. rewrite Hone in Hlen.
      destruct ms' as [|m0' [|m1' ms'']]; [done|by eauto|done].
    + intros Htwo.
      destruct ms' as [|m0' [|m1' ms'']]; [simpl in Hlen; lia|simpl in Hlen; lia|by eauto].
Qed.

End Binary64Properties.

(** * The properties on sample files *)

Section Witnesses.
Import Samples.
Local Existing Instance Binary64.binary64.

(** C1 as stated fails on a structure without atoms, which
    [get_structure] takes for an empty file; on a NaN coordinate, which
    [get_structure] refuses; on an atom without element label, whose line
    has three fields; on a label with a blank, whose second part is read
    as the first coordinate; on a stack without models, which
    [set_structure] cannot index. *)
Lemma roundtrip_counterexample :
  (set_structure (Single []) init).2 = Ok tt
  /\ (get_structure None (set_structure (Single []) init).1).2
     = Raise (ValueError empty_file_msg)
  /\ (get_structure None (set_structure (Single [nan_atom]) init).1).2
     = Raise (ValueError (txt "At least one of the coordinates is NaN(nan,0.0,0.0)"))
  /\ (get_structure None (set_structure (Single [unlabelled_atom]) init).1).2
     = Raise (IndexError (txt "list index out of range"))
  /\ (get_structure None (set_structure (Single [spaced_atom]) init).1).2
     = Ok (Single [atom "C" (num 1 0) (S754_zero false) (S754_zero false)])
  /\ (exists msg, (set_structure (Stack []) (@init Binary64.binary64)).2
                   = Raise (IndexError msg)).
Proof. split_and!; try reflexivity. eexists. reflexivity. Qed.

Ltac solve_token := apply is_token_true; reflexivity.

Lemma set_get_structure_roundtrip_witness :
  storable (Single [fine_atom])
  /\ storable (Stack [water; water])
  /\ (exists s',
        (get_structure None (set_structure (Single [fine_atom]) init).1).2 = Ok s'
        /\ Forall2 (Forall2 atom_within) [[fine_atom]] (models_of s'))
  /\ (exists s',
        (get_structure None (set_structure (Stack [water; water]) init).1).2 = Ok s'
        /\ Forall2 (Forall2 atom_within) [water; water] (models_of s'))
  /\ (get_structure None (set_structure (Single [fine_atom]) init).1).2
     = Ok (Single [fine_atom_reread])
  /\ (get_structure None (set_structure (Stack [water; water]) init).1).2
     = Ok (Stack [water; water]).
Proof.
  assert (forall a : Atom, is_token (element a) = true ->
            Binary64.is_number (coord a).1.1 = true ->
            Binary64.is_number (coord a).1.2 = true ->
            Binary64.is_number (coord a).2 = true -> storable_atom a) as Hatom.
  { intros a Ht Hx Hy Hz. split; [by apply is_token_true|]. by split_and!. }
  assert (storable (Single [fine_atom])) as H1.
  { split; [discriminate|].
    apply List.Forall_cons; [apply Hatom; reflexivity|apply List.Forall_nil]. }
  assert (Forall storable_atom water) as Hw.
  { repeat (apply List.Forall_cons; [apply Hatom; reflexivity|]). apply List.Forall_nil. }
  assert (storable (Stack [water; water])) as H2.
  { split; [discriminate|]. split.
    - exists [txt "O"; txt "H"; txt "H"]. split; [discriminate|].
      repeat (apply List.Forall_cons; [reflexivity|]). apply List.Forall_nil.
    - repeat (apply List.Forall_cons; [exact Hw|]). apply List.Forall_nil. }
  split; [exact H1|]. split; [exact H2|].
  split; [|split; [|split; reflexivity]].
  - destruct (set_get_structure_roundtrip _ H1) as (s' & _ & Hget & Hin & _).
    exists s'. split; [exact Hget|exact Hin].
  - destruct (set_get_structure_roundtrip _ H2) as (s' & _ & Hget & Hin & _).
    exists s'. split; [exact Hget|exact Hin].
Defined.

Lemma multi_model_count_witness :
  (2 <= length two_blocks)%nat
  /\ Forall valid_block two_blocks
  /\ lines two_models = concat (map block_lines two_blocks)
  /\ get_model_count two_models = (two_models, Ok 2%nat).
Proof.
  assert (2 <= length two_blocks)%nat as H1 by (simpl; lia).
  assert (Forall valid_block two_blocks) as H2.
  { repeat (apply List.Forall_cons; [split; [reflexivity|split; [reflexivity|]]|]);
      repeat (apply List.Forall_cons; [reflexivity|]); apply List.Forall_nil. }
  assert (lines two_models = concat (map block_lines two_blocks)) as H3 by reflexivity.
  split; [exact H1|]. split; [exact H2|]. split; [exact H3|].
  exact (multi_model_count two_models two_blocks H1 H2 H3).
Defined.

(** C3 as stated fails on an infinite coordinate: the structure is
    returned with it. *)
Lemma infinite_coordinate_returned :
  (get_structure None inf_file).2
  = Ok (Single [atom "C" (S754_infinity false) (S754_zero false) (S754_zero false)])
  /\ Binary64.of_str (txt "inf") = Some (S754_infinity false)
  /\ Binary64.is_finite (S754_infinity false) = false.
Proof. split_and!; reflexivity. Qed.

Lemma nan_coordinate_raises_witness :
  _structures nan_file = None
  /\ (get_structure None nan_file).2
     = Raise (ValueError (txt "At least one of the coordinates is NaN(0.0,nan,0.5)"))
  /\ (get_structure None two_atoms).2
     = Ok (Single [atom "C" (S754_zero false) (S754_zero false) (S754_zero false);
                   atom "H" (num 1 0) (S754_zero false) (S754_zero false)])
  /\ structure_not_nan
       (Single [atom "C" (S754_zero false) (S754_zero false) (S754_zero false);
                atom "H" (num 1 0) (S754_zero false) (S754_zero false)]).
Proof.
  split; [reflexivity|]. split; [|split; [reflexivity|]].
  - rewrite (proj1 (nan_coordinate_raises nan_file None eq_refl)
               (get_header None nan_file).1 (HeaderOne 1 (txt "[MOL]"))
               0%nat 0%nat 1 0%nat (txt "C 0.0 nan 0.5")
               (txt "0.0") (txt "nan") (txt "0.5")
               (S754_zero false) S754_nan (num 5 (-1))); try reflexivity.
    + simpl. lia.
    + lia.
    + intros j ind_j Hj. lia.
    + intros k l Hk. lia.
  - apply (proj2 (nan_coordinate_raises two_atoms None eq_refl)
             (get_structure None two_atoms).1). reflexivity.
Defined.

(** C5 as stated fails on a model whose lines are not its declared
    number of atoms plus two while the buffer holds enough lines: with a
    line of coordinates too many, the model is returned without that
    line; with a line too few and another model after it, the count line
    of that model is taken for coordinates and the list of its fields
    raises its exception.  The claim fails too on a number of atoms that
    does not fit in 64 bits. *)
Lemma mismatch_counterexample :
  (start_lines (lines long_model) = [0%nat]
   /\ (get_header None long_model).2 = Ok (HeaderOne 1 (txt "A"))
   /\ length (model_lines (lines long_model) [0%nat] 0) = 4%nat
   /\ (get_structure None long_model).2
      = Ok (Single [atom "C" (S754_zero false) (S754_zero false) (S754_zero false)]))
  /\ (start_lines (lines short_model) = [0%nat; 3%nat]
      /\ (get_header None short_model).2
         = Ok (HeaderAll [2; 1] [txt "A"; txt "B"])
      /\ length (model_lines (lines short_model) [0%nat; 3%nat] 0) = 3%nat
      /\ (get_structure None short_model).2
         = Raise (IndexError (txt "list index out of range")))
  /\ (start_lines (lines huge_count) = [0%nat]
      /\ (get_header None huge_count).2 = Ok (HeaderOne (10 ^ 20) (txt "A"))
      /\ length (model_lines (lines huge_count) [0%nat] 0) = 3%nat
      /\ (get_structure None huge_count).2 = Raise OverflowError).
Proof. split_and!; reflexivity. Qed.

Lemma truncated_model_raises_witness :
  _structures short_file = None
  /\ (Z.of_nat (length (lines short_file)) < 0 + 2 + 2)
  /\ (exists lines_cut,
        get_structure None short_file
        = ((get_header None short_file).1, Raise (ValueError (mismatch_msg 2 lines_cut)))
        /\ lines_cut = lines short_file)
  /\ (get_structure None short_file).2
     = Raise (ValueError (txt "Number of Atoms not matching with coordinate lines atom_number :: 2 |lines_cut| :: 3 lines_cut   :: ['2', '[MOL]', 'C 0.0 0.0 0.0']")).
Proof.
  assert (Z.of_nat (length (lines short_file)) < Z.of_nat 0 + 2 + 2) as Hshort
    by (simpl; lia).
  split; [reflexivity|]. split; [exact Hshort|]. split; [|reflexivity].
  destruct (truncated_model_raises short_file (get_header None short_file).1
              (HeaderOne 2 (txt "[MOL]")) None 0 0 2
              eq_refl ltac:(simpl; lia) eq_refl eq_refl eq_refl
              ltac:(unfold int64_max; simpl; lia)
              ltac:(unfold int64_max; simpl; lia)
              ltac:(intros j ind_j Hj; lia) Hshort)
    as (lines_cut & Hrun & _ & Hcut & _).
  exists lines_cut. split; [exact Hrun|].
  apply Hcut. unfold int64_max. simpl. lia.
Defined.

(** C6 as stated fails for [get_header]: on a fresh file it returns the
    two empty lists. *)
Lemma get_header_fresh_file_returns :
  length (lines (@init Binary64.binary64)) = 2%nat
  /\ (get_header None (@init Binary64.binary64)).2 = Ok (HeaderAll [] [])
  /\ (get_header None (file_of [txt "3"; txt "name"])).2
     = Ok (HeaderOne 3 (txt "name")).
Proof. split_and!; reflexivity. Qed.

Lemma empty_file_operations_fail_witness :
  (length (lines (@init Binary64.binary64)) <= 2)%nat
  /\ get_structure None init = (init, Raise (ValueError empty_file_msg))
  /\ (exists f' e, set_header (txt "water") None (@init Binary64.binary64) = (f', Raise e))
  /\ (get_header None (@init Binary64.binary64)).2 = Ok (HeaderAll [] [])
  /\ (get_structure None (file_of [txt "3"; txt " name "])).2
     = Raise (ValueError empty_file_msg)
  /\ (get_header None (file_of [txt "3"; txt " name "])).2
     = Ok (HeaderOne 3 (txt "name")).
Proof.
  assert (length (lines (@init Binary64.binary64)) <= 2)%nat as Hle by (simpl; lia).
  assert (length (lines (file_of [txt "3"; txt " name "])) <= 2)%nat as Hle2
    by (simpl; lia).
  destruct (empty_file_operations_fail init (txt "water") None Hle)
    as (Hget & Hset & Hnone & _).
  destruct (empty_file_operations_fail (file_of [txt "3"; txt " name "]) (txt "water")
              None Hle2) as (Hget2 & _ & _ & Hone).
  split; [exact Hle|]. split; [exact Hget|]. split; [exact Hset|].
  split; [|split].
  - apply Hnone; [reflexivity|reflexivity|].
    repeat (apply List.Forall_cons; [reflexivity|]). apply List.Forall_nil.
  - rewrite Hget2. reflexivity.
  - exact (Hone (txt "3") (txt " name ") 3 eq_refl eq_refl eq_refl eq_refl eq_refl).
Defined.

Lemma single_model_count_witness :
  (count_non_body (lines two_atoms) <= 2)%nat
  /\ __get_number_of_atoms two_atoms = (two_atoms, Ok [CountInt 2])
  /\ get_model_count two_atoms = (two_atoms, Ok 1%nat).
Proof.
  assert (count_non_body (lines two_atoms) <= 2)%nat as Hle by (cbv; lia).
  split; [exact Hle|].
  exact (single_model_count two_atoms Hle).
Defined.

(** C8 as stated fails on two candidates that are not next to each
    other: both are kept. *)
Lemma two_candidates_both_kept :
  numeric_lines (lines two_models) = [0%nat; 3%nat]
  /\ start_lines (lines two_models) = [0%nat; 3%nat].
Proof. split; reflexivity. Qed.

Lemma start_lines_two_candidates_witness :
  numeric_lines (lines two_models) = [0%nat; 3%nat]
  /\ start_lines (lines two_models) = [0%nat; 3%nat]
  /\ numeric_lines [txt "1"; txt "7"; txt "C 0 0 0"] = [0%nat; 1%nat]
  /\ start_lines [txt "1"; txt "7"; txt "C 0 0 0"] = [0%nat].
Proof.
  split; [reflexivity|]. split; [|split; [reflexivity|]].
  - exact (start_lines_two_candidates (lines two_models) 0 3 eq_refl).
  - exact (start_lines_two_candidates [txt "1"; txt "7"; txt "C 0 0 0"] 0 1 eq_refl).
Defined.

Lemma get_structure_without_model_witness :
  (get_structure None two_atoms).2
  = Ok (Single [atom "C" (S754_zero false) (S754_zero false) (S754_zero false);
                atom "H" (num 1 0) (S754_zero false) (S754_zero false)])
  /\ (get_structure None two_models).2
     = Ok (Stack [[atom "C" (S754_zero false) (S754_zero false) (S754_zero false)];
                  [atom "C" (num 1 0) (num 1 0) (num 1 0)]])
  /\ (exists s, _structures (get_structure None two_atoms).1 = Some s
                /\ length s = 1%nat)
  /\ (exists s, _structures (get_structure None two_models).1 = Some s
                /\ length s = 2%nat).
Proof.
  split; [reflexivity|]. split; [reflexivity|]. split.
  - destruct (get_structure_without_model two_atoms (get_structure None two_atoms).1
                (Single [atom "C" (S754_zero false) (S754_zero false) (S754_zero false);
                         atom "H" (num 1 0) (S754_zero false) (S754_zero false)])
                eq_refl) as (s & Hs & _).
    exists s. split; [exact Hs|].
    injection Hs as <-. reflexivity.
  - destruct (get_structure_without_model two_models (get_structure None two_models).1
                (Stack [[atom "C" (S754_zero false) (S754_zero false) (S754_zero false)];
                        [atom "C" (num 1 0) (num 1 0) (num 1 0)]])
                eq_refl) as (s & Hs & _).
    exists s. split; [exact Hs|].
    injection Hs as <-. reflexivity.
Defined.

Lemma set_structure_stack_lines_witness :
  Forall (fun m => length m = 3%nat) [water; water]
  /\ length (lines (set_structure (Stack [water; water]) init).1) = 12%nat
  /\ drop 10 (lines (set_structure (Stack [water; water]) init).1) = [[]; []]
  /\ (set_structure (Stack [water; water]) init).2 = Ok tt.
Proof.
  assert (Forall (fun m => length m = 3%nat) [water; water]) as Hm
    by (repeat (apply List.Forall_cons; [reflexivity|]); apply List.Forall_nil).
  split; [exact Hm|].
  destruct (set_structure_stack_lines [water; water] 3 Hm) as (Hl & Hb & Hlen & Hok).
  split; [exact Hlen|]. split; [|apply Hok; discriminate].
  rewrite Hl. rewrite drop_app_length'; [reflexivity|]. rewrite Hb. reflexivity.
Defined.


(** ** The further properties on sample files *)

Ltac solve_writable :=
  split; [solve_token|split; [solve_token|split; solve_token]].
Ltac solve_writable_atoms :=
  repeat (apply List.Forall_cons; [solve_writable|]); apply List.Forall_nil.
Ltac solve_writable_models :=
  repeat (apply List.Forall_cons; [solve_writable_atoms|]); apply List.Forall_nil.

Lemma valid_two_blocks : Forall valid_block two_blocks.
Proof.
  repeat (apply List.Forall_cons; [split; [reflexivity|split; [reflexivity|]]|]);
    repeat (apply List.Forall_cons; [reflexivity|]); apply List.Forall_nil.
Defined.

Lemma number_of_atoms_count_lines_witness :
  (2 <= length two_blocks)%nat
  /\ lines two_models = concat (map block_lines two_blocks)
  /\ __get_number_of_atoms two_models
     = (two_models, Ok [CountText (txt "1"); CountText (txt "1")]).
Proof.
  assert (2 <= length two_blocks)%nat as H1 by (simpl; lia).
  split; [exact H1|]. split; [reflexivity|].
  exact (number_of_atoms_count_lines two_models two_blocks H1 valid_two_blocks eq_refl).
Defined.

Lemma model_count_after_single_witness :
  Forall writable water
  /\ (get_model_count (set_structure (Single water) init).1).2 = Ok 1%nat.
Proof.
  assert (Forall writable water) as Hw by solve_writable_atoms.
  split; [exact Hw|]. exact (model_count_after_single water Hw).
Defined.

Lemma model_count_after_stack_witness :
  Forall (Forall writable) [water; water]
  /\ (get_model_count (set_structure (Stack [water; water]) init).1).2 = Ok 3%nat.
Proof.
  assert (Forall (Forall writable) [water; water]) as Hw by solve_writable_models.
  split; [exact Hw|].
  apply (model_count_after_stack [water; water] 3); [discriminate| |exact Hw].
  repeat (apply List.Forall_cons; [reflexivity|]); apply List.Forall_nil.
Defined.

Lemma header_two_blocks : Forall2 header_block two_blocks [1; 1].
Proof.
  repeat (apply List.Forall2_cons;
          [split; [reflexivity|split; [reflexivity|split; [left; reflexivity|]]];
           repeat (apply List.Forall_cons; [reflexivity|]); apply List.Forall_nil|]).
  apply List.Forall2_nil.
Defined.

Lemma get_header_well_formed_witness :
  Forall2 header_block two_blocks [1; 1]
  /\ (get_header None two_models).2 = Ok (HeaderAll [1; 1] [txt "A"; txt "B"])
  /\ (get_header (Some 1) two_models).2 = Ok (HeaderOne 1 (txt "B")).
Proof.
  split; [exact header_two_blocks|].
  destruct (get_header_well_formed two_models two_blocks [1; 1] []
              eq_refl eq_refl eq_refl header_two_blocks (List.Forall_nil _)) as [Hall Hone].
  split; [exact Hall|].
  exact (Hone 1%nat 1 (mkBlock (txt "1") (txt "B") [txt "C 1 1 1"]) eq_refl eq_refl).
Defined.

Lemma readable_two_blocks : Forall2 readable_block two_blocks two_models_read.
Proof.
  repeat (apply List.Forall2_cons;
          [split; [reflexivity|split; [reflexivity|split; [left; reflexivity|reflexivity]]]|]).
  apply List.Forall2_nil.
Defined.

Lemma get_structure_well_formed_witness :
  Forall2 readable_block two_blocks two_models_read
  /\ (get_structure None two_models).2 = Ok (Stack two_models_read)
  /\ (get_structure (Some 1) two_models).2
     = Ok (Single [atom "C" (num 1 0) (num 1 0) (num 1 0)]).
Proof.
  split; [exact readable_two_blocks|].
  destruct (get_structure_well_formed two_models two_blocks two_models_read [txt "C"] []
              eq_refl eq_refl eq_refl eq_refl ltac:(discriminate) ltac:(simpl; lia)
              readable_two_blocks
              ltac:(repeat (apply List.Forall_cons; [reflexivity|]); apply List.Forall_nil)
              (List.Forall_nil _)) as [Hall Hone].
  split; [exact Hall|].
  exact (Hone 1%nat [atom "C" (num 1 0) (num 1 0) (num 1 0)] eq_refl).
Defined.

Lemma get_header_fresh_read_witness :
  exists ns names,
    _atom_numbers (get_header None two_models).1 = Some ns
    /\ _mol_names (get_header None two_models).1 = Some names
    /\ _model_start_inds (get_header None two_models).1
       = Some (start_lines (lines two_models))
    /\ length ns = length (start_lines (lines two_models))
    /\ length names = length (start_lines (lines two_models))
    /\ Forall (fun n => 0 <= n) ns.
Proof.
  exact (get_header_fresh_read two_models (get_header None two_models).1 None
           (HeaderAll [1; 1] [txt "A"; txt "B"]) eq_refl eq_refl eq_refl).
Defined.

Lemma get_header_count_on_last_line_witness :
  read_atom_numbers (lines count_last) (start_lines (lines count_last)) = Ok [5]
  /\ (length (lines count_last) - 1)%nat ∈ start_lines (lines count_last)
  /\ (get_header None count_last).2 = Raise (IndexError (txt "list index out of range")).
Proof.
  assert ((length (lines count_last) - 1)%nat ∈ start_lines (lines count_last)) as Hin
    by (apply list_elem_of_In; simpl; left; reflexivity).
  split; [reflexivity|]. split; [exact Hin|].
  exact (get_header_count_on_last_line count_last None [5] eq_refl eq_refl eq_refl Hin).
Defined.

Lemma header_read_two_models :
  header_read two_models [1; 1] [txt "A"; txt "B"].
Proof. split; reflexivity. Defined.

Lemma set_header_model_roundtrip_witness :
  header_read two_models [1; 1] [txt "A"; txt "B"]
  /\ exists f',
       set_header (txt "water") (Some 1) two_models = (f', Ok tt)
       /\ lines f' = lines two_models
       /\ _mol_names f' = Some [txt "A"; txt "water"]
       /\ (get_header (Some 1) f').2 = Ok (HeaderOne 1 (txt "water")).
Proof.
  split; [exact header_read_two_models|].
  destruct (set_header_model_roundtrip two_models [1; 1] [txt "A"; txt "B"]
              (txt "water") 1 1 header_read_two_models eq_refl eq_refl)
    as (f' & Hrun & Hl & _ & Hnames & Hget).
  exists f'. split; [exact Hrun|]. split; [exact Hl|]. split; [exact Hnames|exact Hget].
Defined.

Lemma set_header_model_out_of_range_witness :
  exists f',
    set_header (txt "water") (Some 2) two_models
    = (f', Raise (ValueError
                    (txt "Specified model value [2] is notcompatible with number of models [2]")))
    /\ lines f' = lines two_models.
Proof.
  destruct (set_header_model_out_of_range two_models [1; 1] [txt "A"; txt "B"]
              (txt "water") 2 header_read_two_models eq_refl ltac:(simpl; lia))
    as (f' & Hrun & Hl & _).
  exists f'. split; [exact Hrun|exact Hl].
Defined.

Lemma header_read_two_atoms : header_read two_atoms [2] [txt "[MOL]"].
Proof. split; reflexivity. Defined.

Lemma set_header_single_model_witness :
  (2 < length (lines two_atoms))%nat
  /\ Forall (fun l => is_body_line l = true) (drop 2 (lines two_atoms))
  /\ exists f',
       set_header (txt " CH ") None two_atoms = (f', Ok tt)
       /\ lines f' = [txt "2"; txt " CH "; txt "C 0.0 0.0 0.0"; txt "H 1.0 0.0 0.0"]
       /\ (get_header None f').2 = Ok (HeaderOne 2 (txt " CH "))
       /\ (get_header None (with_lines init (lines f'))).2 = Ok (HeaderOne 2 (txt "CH")).
Proof.
  assert (2 < length (lines two_atoms))%nat as Hlt by (simpl; lia).
  assert (Forall (fun l => is_body_line l = true) (drop 2 (lines two_atoms))) as Hbody
    by (repeat (apply List.Forall_cons; [reflexivity|]); apply List.Forall_nil).
  split; [exact Hlt|]. split; [exact Hbody|].
  destruct (set_header_single_model two_atoms [2] [txt "[MOL]"] (txt " CH ")
              header_read_two_atoms eq_refl Hlt Hbody)
    as (f' & Hrun & Hl & _ & _ & _ & Hget & Hfresh).
  exists f'. split; [exact Hrun|]. split; [exact Hl|]. split; [exact Hget|exact Hfresh].
Defined.

Lemma get_structure_idempotent_witness :
  let f' := (get_structure None two_atoms).1 in
  get_structure None two_atoms = (f', Ok (Single two_atoms_read))
  /\ get_structure None f' = (f', Ok (Single two_atoms_read))
  /\ (get_structure (Some (-1)) f').2 = Ok (Single two_atoms_read).
Proof.
  intros f'.
  assert (get_structure None two_atoms = (f', Ok (Single two_atoms_read))) as Hrun
    by reflexivity.
  destruct (get_structure_idempotent two_atoms f' None (Single two_atoms_read) Hrun)
    as (Hagain & s & Hs & Hany).
  split; [exact Hrun|]. split; [exact Hagain|].
  rewrite (Hany (Some (-1))). injection Hs as <-. reflexivity.
Defined.

Lemma get_structure_model_index_witness :
  (get_structure None two_models).2 = Ok (Stack two_models_read)
  /\ (get_structure (Some 1) two_models).2
     = Ok (Single [atom "C" (num 1 0) (num 1 0) (num 1 0)])
  /\ (get_structure (Some (-1)) two_models).2
     = Ok (Single [atom "C" (num 1 0) (num 1 0) (num 1 0)])
  /\ exists msg, (get_structure (Some 2) two_models).2 = Raise (IndexError msg).
Proof.
  assert ((get_structure None two_models).2 = Ok (Stack two_models_read)) as Hrun
    by reflexivity.
  destruct (get_structure_model_index two_models (Stack two_models_read) Hrun)
    as [Hin Hout].
  destruct (Hin 1%nat [atom "C" (num 1 0) (num 1 0) (num 1 0)] eq_refl) as [Hpos Hneg].
  split; [exact Hrun|]. split; [exact Hpos|]. split; [exact Hneg|].
  apply (Hout 2). right. simpl. lia.
Defined.

Lemma get_structure_after_set_structure_witness :
  let f := (get_structure None two_atoms).1 in
  get_structure None two_atoms = (f, Ok (Single two_atoms_read))
  /\ (set_structure (Single water) f).2 = Ok tt
  /\ (get_structure None (set_structure (Single water) f).1).2
     = Ok (Single two_atoms_read).
Proof.
  intros f.
  assert (get_structure None two_atoms = (f, Ok (Single two_atoms_read))) as Hrun
    by reflexivity.
  split; [exact Hrun|]. split; [reflexivity|].
  exact (get_structure_after_set_structure two_atoms f None (Single two_atoms_read)
           (Single water) Hrun).
Defined.

Lemma set_structure_single_lines_witness :
  lines (set_structure (Single [fine_atom]) two_atoms).1
  = [txt "1"; txt "[MOL]"; txt "  C 0.123457       2.500000       inf         ";
     txt "H 1.0 0.0 0.0"; []].
Proof.
  rewrite (set_structure_single_lines two_atoms [fine_atom] (txt "2") (txt "[MOL]")
             [txt "C 0.0 0.0 0.0"; txt "H 1.0 0.0 0.0"] eq_refl).
  reflexivity.
Defined.

Lemma set_structure_stack_any_lines_witness :
  Forall (fun m => length m = 1%nat) [[fine_atom]]
  /\ take 2 (lines (set_structure (Stack [[fine_atom]]) two_atoms).1)
     = [txt "1"; txt " 0"]
  /\ drop 3 (lines (set_structure (Stack [[fine_atom]]) two_atoms).1)
     = [txt "H 1.0 0.0 0.0"; []; []; []].
Proof.
  assert (Forall (fun m => length m = 1%nat) [[fine_atom]]) as Hm
    by (repeat (apply List.Forall_cons; [reflexivity|]); apply List.Forall_nil).
  split; [exact Hm|].
  destruct (set_structure_stack_any_lines two_atoms [fine_atom] [] 1 Hm) as [Hrun _].
  rewrite Hrun. split; reflexivity.
Defined.

Ltac solve_reread_atoms :=
  repeat (apply List.Forall2_cons;
          [split; [solve_token|split; [reflexivity|
             split; [split; [solve_token|split; reflexivity]|
             split; (split; [solve_token|split; reflexivity])]]]|]);
  apply List.Forall2_nil.
Ltac solve_reread_models :=
  repeat (apply List.Forall2_cons; [solve_reread_atoms|]); apply List.Forall2_nil.

Lemma water_reread : Forall2 (Forall2 atom_reread) [water; water] [water; water].
Proof. solve_reread_models. Defined.

Lemma roundtrip_model_index_witness :
  Forall2 (Forall2 atom_reread) [water; water] [water; water]
  /\ (get_structure (Some 1) (set_structure (Stack [water; water]) init).1).2
     = Ok (Single water).
Proof.
  split; [exact water_reread|].
  apply (roundtrip_model_index [txt "O"; txt "H"; txt "H"] [water; water] [water; water]
           1 water); [discriminate|discriminate| |exact water_reread|reflexivity].
  repeat (apply List.Forall_cons; [reflexivity|]); apply List.Forall_nil.
Defined.

Lemma empty_models_collapse_witness :
  lines (set_structure (Stack [[]; []]) (@init Binary64.binary64)).1
  = [txt "0"; txt " 0"; txt "0"; txt " 1"; []; []]
  /\ (get_structure None (set_structure (Stack [[]; []]) (@init Binary64.binary64)).1).2
     = Ok (Single []).
Proof.
  split; [reflexivity|].
  apply (empty_models_collapse [[]; []]); [discriminate|].
  repeat (apply List.Forall_cons; [reflexivity|]); apply List.Forall_nil.
Defined.

Lemma parse_atom_line_any_spacing_witness :
  parse_atom_line (txt "C   0.5 1.5  -2 ")
  = Ok (atom "C" (num 5 (-1)) (num 15 (-1)) (num (-2) 0))
  /\ is_body_line (txt "C   0.5 1.5  -2 ") = true.
Proof.
  exact (parse_atom_line_any_spacing (txt "C") (txt "0.5") (txt "1.5") (txt "-2")
           (num 5 (-1)) (num 15 (-1)) (num (-2) 0) 0 2 0 1 1
           ltac:(solve_token) ltac:(solve_token) ltac:(solve_token) ltac:(solve_token)
           eq_refl eq_refl eq_refl eq_refl eq_refl eq_refl).
Defined.

Lemma get_header_after_single_witness :
  Forall writable water
  /\ (get_header None (set_structure (Single water) init).1).2
     = Ok (HeaderOne 3 (txt "[MOLNAME]")).
Proof.
  assert (Forall writable water) as Hw by solve_writable_atoms.
  split; [exact Hw|]. exact (get_header_after_single water Hw).
Defined.

Lemma get_header_after_stack_witness :
  Forall (Forall writable) [water; water]
  /\ (get_header None (set_structure (Stack [water; water]) init).1).2
     = Ok (HeaderAll [3; 3] [txt "0"; txt "1"]).
Proof.
  assert (Forall (Forall writable) [water; water]) as Hw by solve_writable_models.
  split; [exact Hw|].
  apply (get_header_after_stack [water; water] 3); [discriminate|lia| |exact Hw].
  repeat (apply List.Forall_cons; [reflexivity|]); apply List.Forall_nil.
Defined.

Lemma get_header_cached_witness :
  let f1 := (get_header None two_models).1 in
  get_header None two_models = (f1, Ok (HeaderAll [1; 1] [txt "A"; txt "B"]))
  /\ get_header None f1 = (f1, Ok (HeaderAll [1; 1] [txt "A"; txt "B"]))
  /\ (get_header None (set_structure (Single water) f1).1).2
     = Ok (HeaderAll [1; 1] [txt "A"; txt "B"]).
Proof.
  intros f1.
  assert (get_header None two_models = (f1, Ok (HeaderAll [1; 1] [txt "A"; txt "B"])))
    as Hrun by reflexivity.
  destruct (get_header_cached two_models f1 None _ Hrun) as [Hagain Hafter].
  split; [exact Hrun|]. split; [exact Hagain|]. exact (Hafter (Single water)).
Defined.

Lemma set_header_on_stack_witness :
  exists f2,
    set_header (txt "water") None (set_structure (Stack [water; water]) init).1
    = (f2, Ok tt)
    /\ (get_header None f2).2 = Ok (HeaderOne 3 (txt "water"))
    /\ (get_structure None f2).2 = Raise (IndexError (txt "list index out of range")).
Proof.
  destruct (set_header_on_stack [water; water] [water; water] 3 (txt "water"))
    as (f2 & Hrun & _ & Hget & Hstruct).
  - simpl. lia.
  - lia.
  - repeat (apply List.Forall_cons; [reflexivity|]); apply List.Forall_nil.
  - exact water_reread.
  - exists f2. split; [exact Hrun|]. split; [exact Hget|exact Hstruct].
Defined.

Lemma get_structure_first_bad_line_witness :
  parse_atom_line (txt "C 0.0 abc 0.5")
  = Raise (ValueError (txt "could not convert string to float: 'abc'"))
  /\ (get_structure None bad_float_file).2
     = Raise (ValueError (txt "could not convert string to float: 'abc'")).
Proof.
  split; [reflexivity|].
  destruct (get_structure_first_bad_line bad_float_file (get_header None bad_float_file).1
              (HeaderOne 1 (txt "[MOL]")) None 0 0 1 0 (txt "C 0.0 abc 0.5")
              (ValueError (txt "could not convert string to float: 'abc'"))
              eq_refl ltac:(simpl; lia) eq_refl eq_refl eq_refl ltac:(lia)
              ltac:(intros j ind_j Hj; lia) eq_refl eq_refl
              ltac:(intros k l Hk; lia) eq_refl) as [Hrun _].
  rewrite Hrun. reflexivity.
Defined.

Lemma parse_atom_line_other_space_witness :
  let tab := [ascii_of_nat 9] in
  let line := txt "C" ++ tab ++ txt "0.0" ++ tab ++ txt "1.5" ++ tab ++ txt "2" in
  other_space tab
  /\ is_body_line line = true
  /\ parse_atom_line line = Raise (IndexError (txt "list index out of range")).
Proof.
  intros tab line.
  assert (other_space tab) as Htab.
  { split; [discriminate|]. apply List.Forall_cons; [|apply List.Forall_nil].
    split; [reflexivity|discriminate]. }
  split; [exact Htab|].
  exact (parse_atom_line_other_space (txt "C") (txt "0.0") (txt "1.5") (txt "2")
           tab tab tab
           ltac:(solve_token) ltac:(solve_token) ltac:(solve_token) ltac:(solve_token)
           Htab Htab Htab).
Defined.

Lemma parsed_count_matches_header_witness :
  exists s ns,
    _structures (get_structure None two_models).1 = Some s
    /\ _atom_numbers (get_structure None two_models).1 = Some ns
    /\ forall i m, s !! i = Some m -> ns !! i = Some (Z.of_nat (length m)).
Proof.
  exact (parsed_count_matches_header two_models (get_structure None two_models).1 None
           (Stack two_models_read) eq_refl eq_refl).
Defined.

End Witnesses.
